(** * dns.c: a filtering DNS forwarder

    A shallow embedding of [src/dns.c] (ISA project 2020, a DNS proxy that
    refuses blacklisted names) and the properties of its message decoder,
    its blacklist test, its table of pending queries and its poll loop,
    of the reader of the filter file, the log lines, the command line and
    the start of [main].

    Conventions of the embedding.
    - An octet is a [Z] in 0..255; a buffer is a [list Z].  The platform is
      the one the program is written for (Linux, gcc, x86-64): [char] is
      signed, [int] has 32 bits, [unsigned short] has 16.
    - C arrays have a fixed size.  A read or a write outside an array is
      undefined behaviour in C; a function of the embedding stops there
      with a [fault] that names the offending index.  The poll loop does
      not stop: it records the fault among its outputs and goes on with
      variables whose contents the environment chooses (see [frame]).
    - [while] loops take a fuel argument; the fuel given by the callers is
      shown never to run out.
    - What the C library and the system answer (the contents of a file,
      the result of [realloc], [inet_pton], [strtol], [socket], [bind],
      the datagrams received) is an argument of the function that asks. *)

From Stdlib Require Import ZArith Lia String.
From stdpp Require Import base list numbers.

Local Open Scope Z_scope.

(** ** Faults and the error monad *)

Inductive fault : Type :=
  | OutOfFuel
  | ReadOutOfBounds (index : Z)
  | WriteOutOfBounds (index : Z).

Inductive res (A : Type) : Type :=
  | Ok (a : A)
  | Fault (f : fault).

Arguments Ok {A} a.
Arguments Fault {A} f.

Global Instance res_ret : MRet res := @Ok.

Global Instance res_bind : MBind res := λ A B k m,
  match m with
  | Ok a => k a
  | Fault f => Fault f
  end.

Definition is_ok {A} (r : res A) : bool :=
  match r with Ok _ => true | Fault _ => false end.

(** ** Constants of the program *)

(** [#define BUFFER_SIZE 1000] *)
Definition BUFFER_SIZE : Z := 1000.

(** [char name[512]] and [char tmpName[512]] in [main]. *)
Definition NAME_SIZE : Z := 512.

(** [sizeof(HEADER)], and the literal 12 of the three [memcpy] calls. *)
Definition HEADER_SIZE : Z := 12.

(** ** Memory accesses *)

(** [mem[i]] for an array [mem] given with its extent. *)
Definition load (mem : list Z) (i : Z) : res Z :=
  if i <? 0 then Fault (ReadOutOfBounds i)
  else match mem !! Z.to_nat i with
       | Some b => Ok b
       | None => Fault (ReadOutOfBounds i)
       end.

(** The value of an octet read through a [char] lvalue and converted to
    [int]: [char] is signed. *)
Definition char_to_int (b : Z) : Z := if b <? 128 then b else b - 256.

(** [ntohs] of the [unsigned short] stored as the octets [hi], [lo]. *)
Definition ntohs_octets (hi lo : Z) : Z := 256 * hi + lo.

(** The destination [url] of [getDnsRequestData] is written at the indices
    0, 1, 2, ... only (every write is [url[counterDst++] = c] or the final
    [url[counterDst] = 0]), so it is kept as the list of the octets written
    so far, and [counterDst] is the length of that list.  The array has
    [NAME_SIZE] elements. *)
Definition counterDst (url : list Z) : Z := Z.of_nat (length url).

Definition store_url (url : list Z) (c : Z) : res (list Z) :=
  if counterDst url <? NAME_SIZE then Ok (url ++ [c])
  else Fault (WriteOutOfBounds (counterDst url)).

(** The C string held in an array whose written part is [url] followed by
    a terminating zero: the octets before the first zero. *)
Fixpoint cstring (url : list Z) : list Z :=
  match url with
  | [] => []
  | c :: rest => if c =? 0 then [] else c :: cstring rest
  end.

(** ** getDnsRequestData (dns.c, lines 213-232) *)

(** The inner loop
    [while (counter <= offset + sum) url[counterDst++] = ptr[counter++];]
    with [limit = offset + sum]. *)
Fixpoint copy_label (fuel : nat) (ptr : list Z) (limit counter : Z)
    (url : list Z) : res (Z * list Z) :=
  match fuel with
  | O => Fault OutOfFuel
  | S fuel' =>
      if counter <=? limit then
        c ← load ptr counter;
        url' ← store_url url c;
        copy_label fuel' ptr limit (counter + 1) url'
      else Ok (counter, url)
  end.

(** The outer loop [while (sum) { ... }]. It returns the final [counter]
    and the octets written to [url]. *)
Fixpoint name_loop (fuel : nat) (ptr : list Z) (sum offset counter : Z)
    (url : list Z) : res (Z * list Z) :=
  match fuel with
  | O => Fault OutOfFuel
  | S fuel' =>
      if sum =? 0 then Ok (counter, url)
      else
        url1 ← (if offset =? 0 then Ok url else store_url url 46);
        '(counter1, url2) ← copy_label (S (length ptr)) ptr (offset + sum) counter url1;
        c ← load ptr counter1;
        name_loop fuel' ptr (char_to_int c) counter1 (counter1 + 1) url2
  end.

(** [*dst = ntohs(typePtr[k])] when [dst] is not [NULL]; a destination is
    [Some v] for a pointer to an [int] that holds [v], [None] for [NULL]. *)
Definition read_short (ptr : list Z) (at_ : Z) (dst : option Z) : res (option Z) :=
  match dst with
  | None => Ok None
  | Some _ =>
      hi ← load ptr at_;
      lo ← load ptr (at_ + 1);
      Ok (Some (ntohs_octets hi lo))
  end.

(** The whole function.  [buffer] is the packet, [type] and [class] the two
    destinations; the result is the octets written to [url] before the
    terminating zero and the new contents of the two destinations. *)
Definition getDnsRequestData (buffer : list Z) (type class : option Z)
    : res (list Z * option Z * option Z) :=
  let ptr := drop (Z.to_nat HEADER_SIZE) buffer in
  c0 ← load ptr 0;
  '(counter, url) ← name_loop (S (length ptr)) ptr (char_to_int c0) 0 1 [];
  _ ← (if counterDst url <? NAME_SIZE then Ok tt
       else Fault (WriteOutOfBounds (counterDst url)));
  type' ← read_short ptr counter type;
  class' ← read_short ptr (counter + 2) class;
  Ok (url, type', class').

(** ** The wire format of a question *)

(** The octets of an ASCII string. *)
Definition octets_of_string (s : string) : list Z :=
  map (λ a, Z.of_nat (Ascii.nat_of_ascii a)) (list_ascii_of_string s).

(** A DNS label: its length octet and its octets. *)
Definition encode_label (l : list Z) : list Z := Z.of_nat (length l) :: l.

(** The question section of a query for the name with the labels [ls]. *)
Definition encode_question (ls : list (list Z)) (qtype qclass : Z) : list Z :=
  concat (map encode_label ls) ++
  [0; qtype / 256; qtype mod 256; qclass / 256; qclass mod 256].

(** The name the labels [ls] stand for: the labels joined by dots. *)
Definition dotted (ls : list (list Z)) : list Z :=
  match ls with
  | [] => []
  | l :: ls' => l ++ concat (map (λ l', 46 :: l') ls')
  end.

(** A query header: identifier, the two flag octets and the four counts. *)
Definition query_header (id flags2 flags3 qd an : Z) : list Z :=
  [id / 256; id mod 256; flags2; flags3; qd / 256; qd mod 256;
   an / 256; an mod 256; 0; 0; 0; 0].

(** The labels of a name given as strings. *)
Definition labels_of (ss : list string) : list (list Z) := map octets_of_string ss.

(** [l] followed by zeros up to [n] octets. *)
Definition pad_to (n : nat) (l : list Z) : list Z :=
  l ++ replicate (n - length l) 0.

(** ** isBlacklisted (dns.c, lines 159-168) *)

(** [needle] is an initial segment of [hay]. *)
Fixpoint starts_with (hay needle : list Z) {struct needle} : bool :=
  match needle, hay with
  | [], _ => true
  | _ :: _, [] => false
  | n :: needle', h :: hay' => (h =? n) && starts_with hay' needle'
  end.

(** [strstr(hay, needle) != NULL] of the C library, on the contents of two
    C strings: [needle] occurs in [hay] at some position. *)
Fixpoint strstr (hay needle : list Z) : bool :=
  starts_with hay needle ||
  match hay with
  | [] => false
  | _ :: hay' => strstr hay' needle
  end.

(** [blacklist->r[0 .. size-1]]: the filter strings, in the order of the
    file. *)
Definition blacklist_s : Type := list (list Z).

(** The loop of [isBlacklisted]; [name] is the array the caller passes, of
    which [strstr] sees the C string.  [true] is the result 1. *)
Fixpoint isBlacklisted (blacklist : blacklist_s) (name : list Z) : bool :=
  match blacklist with
  | [] => false
  | entry :: rest =>
      if strstr (cstring name) entry then true else isBlacklisted rest name
  end.

(** ** The DNS header *)

(** Modelled from the spec: the type [HEADER] comes from the system header
    <arpa/nameser.h> (arpa/nameser_compat.h) and is not part of the
    repository.  It is the 12-octet header of the wire format (identifier,
    two octets of flags, four 16-bit counts); for either byte order its
    bit-fields are declared so that they lie on the flags of the wire
    format: in the third octet [qr] is bit 7 and [aa] bit 2; in the fourth
    octet [ra] is bit 7, [unused] bit 6, [cd] bit 4 and [rcode] the low
    four bits.  [dnsHeader] is kept as its 12 octets, which is what the
    [memcpy] calls of [main] move. *)
Abbreviation HEADER := (list Z) (only parsing).

Definition octet (h : HEADER) (i : nat) : Z := default 0 (h !! i).

Definition bit (b : Z) (n : Z) : Z := if Z.testbit b n then 1 else 0.

Definition hdr_qr (h : HEADER) : Z := bit (octet h 2) 7.
Definition hdr_aa (h : HEADER) : Z := bit (octet h 2) 2.
Definition hdr_ra (h : HEADER) : Z := bit (octet h 3) 7.
Definition hdr_unused (h : HEADER) : Z := bit (octet h 3) 6.
Definition hdr_cd (h : HEADER) : Z := bit (octet h 3) 4.
Definition hdr_rcode (h : HEADER) : Z := Z.land (octet h 3) 15.

(** The 16-bit fields as [main] reads them, without [ntohs]: the value of
    the two octets in the byte order of the host. *)
Definition host_short (h : HEADER) (i : nat) : Z := octet h i + 256 * octet h (S i).

Definition hdr_qdcount (h : HEADER) : Z := host_short h 4.
Definition hdr_ancount (h : HEADER) : Z := host_short h 6.
Definition hdr_nscount (h : HEADER) : Z := host_short h 8.

(** [ntohs(dnsHeader.id)] *)
Definition hdr_id (h : HEADER) : Z := ntohs_octets (octet h 0) (octet h 1).

(** Assignment to a bit-field of [width] bits at bit [shift] of octet [i]. *)
Definition set_bits (i : nat) (shift width v : Z) (h : HEADER) : HEADER :=
  let mask := Z.shiftl (2 ^ width - 1) shift in
  <[i := Z.lor (Z.land (octet h i) (255 - mask)) (Z.shiftl v shift)]> h.

Definition set_qr (v : Z) : HEADER → HEADER := set_bits 2 7 1 v.
Definition set_aa (v : Z) : HEADER → HEADER := set_bits 2 2 1 v.
Definition set_ra (v : Z) : HEADER → HEADER := set_bits 3 7 1 v.
Definition set_rcode (v : Z) : HEADER → HEADER := set_bits 3 0 4 v.

Definition set_short (i : nat) (v : Z) (h : HEADER) : HEADER :=
  <[S i := v / 256]> (<[i := v mod 256]> h).

Definition set_ancount : Z → HEADER → HEADER := set_short 6.
Definition set_nscount : Z → HEADER → HEADER := set_short 8.

(** The six assignments that turn the header of a query into the header of
    an error answer (lines 444-449, 462-467 and 479-484). *)
Definition answer_header (rcode : Z) (h : HEADER) : HEADER :=
  set_nscount 0 (set_ancount 0 (set_rcode rcode (set_ra 1 (set_aa 1 (set_qr 1 h))))).

(** [memcpy(&dnsHeader, buffer, 12)] and [memcpy(buffer, &dnsHeader, 12)]. *)
Definition header_of (buffer : list Z) : HEADER := take (Z.to_nat HEADER_SIZE) buffer.

Definition put_header (h : HEADER) (buffer : list Z) : list Z :=
  h ++ drop (Z.to_nat HEADER_SIZE) buffer.

(** ** The table of pending queries (dns.c, lines 399-403, 491-497, 524-533) *)

Record table : Type := Table {
  ports : list Z;
  ids : list Z;
  addresses : list Z;
  portsCounter : Z
}.

(** The three arrays have 32 elements. *)
Definition TABLE_SIZE : nat := 32.

(** Lines 399-403. *)
Definition fresh_table : table :=
  Table (replicate TABLE_SIZE 0) (replicate TABLE_SIZE 0) (replicate TABLE_SIZE 0) 0.

(** Lines 492-497: the entry is stored at [portsCounter], which is then
    incremented (an [unsigned short]) and reset to 0 when it reaches 31.
    The counter stays below 31 ([record_counter_range]), so the three
    stores are inside the arrays. *)
Definition record (t : table) (port id addr : Z) : table :=
  let i := Z.to_nat (portsCounter t) in
  let next := (portsCounter t + 1) mod 65536 in
  Table (<[i := port]> (ports t)) (<[i := id]> (ids t)) (<[i := addr]> (addresses t))
        (if next =? 31 then 0 else next).

(** [a[i]] for an index inside one of the three arrays. *)
Definition cell (a : list Z) (i : nat) : Z := default 0 (a !! i).

(** Lines 524-533: [for (i = 0; i < 32; i++) if (ids[i] == id) { ...; break; }]
    started at [i] with [n] iterations left; the result is the pair
    [(ports[i], addresses[i])] of the first hit. *)
Fixpoint resolve_from (n : nat) (t : table) (i : nat) (id : Z) : option (Z * Z) :=
  match n with
  | O => None
  | S n' =>
      if cell (ids t) i =? id
      then Some (cell (ports t) i, cell (addresses t) i)
      else resolve_from n' t (S i) id
  end.

Definition resolve (t : table) (id : Z) : option (Z * Z) :=
  resolve_from TABLE_SIZE t 0 id.

(** An entry as the client branch records it. *)
Record entry : Type := Entry { e_id : Z; e_port : Z; e_addr : Z }.

Definition record_entry (t : table) (e : entry) : table :=
  record t (e_port e) (e_id e) (e_addr e).

(** The table after the queries [es] were recorded, oldest first. *)
Definition record_all (t : table) (es : list entry) : table :=
  foldl record_entry t es.

(** What the three arrays hold at index [j]. *)
Definition slot (t : table) (j : nat) : entry :=
  Entry (cell (ids t) j) (cell (ports t) j) (cell (addresses t) j).

Definition zero_entry : entry := Entry 0 0 0.

(** The entries recorded last that no later entry has overwritten: the
    counter cycles through 31 slots, so these are the last 31. *)
Definition live (es : list entry) : list entry := drop (length es - 31) es.

(** ** The poll loop of main (dns.c, lines 412-536) *)

(** [struct sockaddr_in]: the port and the address as they are stored, in
    network byte order. *)
Record sockaddr_in : Type := SockAddr { sin_port : Z; sin_addr : Z }.

Global Instance sockaddr_in_eq_dec : EqDecision sockaddr_in.
Proof. solve_decision. Defined.

(** The variables of [main] that live across iterations: the shared
    receive buffer [resp], the address filled in by [recvfrom] on the
    client socket, and the table. *)
Record state : Type := State {
  resp_buffer : list Z;
  resp_length : Z;
  clientAddress : sockaddr_in;
  pending : table
}.

(** What is fixed before the loop starts. *)
Record config : Type := Config {
  blacklist : blacklist_s;
  serverAddress : sockaddr_in
}.

Inductive socket : Type := clientSocketDescritor | serverSocketDescritor.

(** The observable actions of one iteration.  [Undefined f] marks the
    place where a name walk of the loop has made the access [f] outside an
    array. *)
Inductive output : Type :=
  | Sendto (s : socket) (payload : list Z) (dest : sockaddr_in)
  | Stderr (msg : string)
  | VerboseEntry (type : string) (name : list Z)
  | Undefined (f : fault).

(** What [recvfrom] delivers when a socket is readable. *)
Inductive received : Type :=
  | RecvFailed
  | Datagram (data : list Z) (src : sockaddr_in).

(** An access outside an array is undefined behaviour.  The call of
    [getDnsRequestData] that makes it returns all the same (the function is
    [void] and tests nothing), and the loop goes on with what the stray
    octets have left in the variables of [main].  Where they land depends
    on the layout of the frame, which the source does not fix, so the
    environment says what the variables hold afterwards: [dnsHeader], the
    string read at [name] or [tmpName], in [stray_state] the address
    [clientAddress] and the table, and [type], [class], [badPacket] and
    [serverAddress], which the rest of the client branch reads.  The
    receive buffer, its length and the blacklist are not in the frame:
    they are reached through the globals [resp] and [blacklist] and lie
    in memory from [malloc].  What later iterations do with the variables
    is stated only for runs in which no walk has left its arrays
    ([defined]). *)
Record frame : Type := Frame {
  stray_header : list Z;
  stray_name : list Z;
  stray_state : state;
  stray_type : Z;
  stray_class : Z;
  stray_badPacket : bool;
  stray_serverAddress : sockaddr_in
}.

(** What the environment decides in one iteration: the result of [poll],
    the readable sockets with what they deliver, whether the [sendto] of
    the client branch fails, whether the [sendto] of the server branch
    fails, and what the variables hold after an access outside an
    array. *)
Record wakeup : Type := Wakeup {
  poll_failed : bool;
  client_in : option received;
  server_in : option received;
  sendto_failed : bool;
  answer_sendto_failed : bool;
  stray : frame
}.

(** [recvfrom(sock, resp->buffer, BUFFER_SIZE, MSG_WAITALL, ...)]: at most
    [BUFFER_SIZE] octets of the datagram overwrite the start of the buffer,
    the rest of the buffer keeps what it held. *)
Definition received_octets (data : list Z) : list Z := take (Z.to_nat BUFFER_SIZE) data.

Definition recv_into (buffer data : list Z) : list Z :=
  received_octets data ++ drop (length (received_octets data)) buffer.

(** A successful [recvfrom] into the shared buffer: [resp->buffer] and
    [resp->length] change. *)
Definition recvfrom (st : state) (data : list Z) : state :=
  State (recv_into (resp_buffer st) data)
        (Z.of_nat (length (received_octets data)))
        (clientAddress st) (pending st).

Definition set_clientAddress (st : state) (a : sockaddr_in) : state :=
  State (resp_buffer st) (resp_length st) a (pending st).

(** [sendto(sock, resp->buffer, resp->length, 0, dest, ...)] *)
Definition sendto (s : socket) (st : state) (dest : sockaddr_in) : output :=
  Sendto s (take (Z.to_nat (resp_length st)) (resp_buffer st)) dest.

Definition send_error (failed : bool) : list output :=
  if failed then [Stderr "Error sending packet."] else [].

(** The test of line 429. *)
Definition badPacket (dnsHeader : HEADER) : bool :=
  negb (hdr_qr dnsHeader =? 0) || negb (hdr_unused dnsHeader =? 0) ||
  negb (hdr_cd dnsHeader =? 0) || (hdr_qdcount dnsHeader <=? 0) ||
  (0 <? hdr_ancount dnsHeader).

(** The block shared by the three error answers (lines 444-454, 462-472,
    479-489): rewrite the header, copy it back, send the buffer to the
    client, [continue]. *)
Definition error_answer (st : state) (dnsHeader : HEADER) (rcode : Z)
    (failed : bool) : state * list output :=
  let st' := State (put_header (answer_header rcode dnsHeader) (resp_buffer st))
                   (resp_length st) (clientAddress st) (pending st) in
  (st', sendto clientSocketDescritor st' (clientAddress st') :: send_error failed).

(** The lines printed before each kind of answer ([printVerboseEntry] and
    [fprintf(stderr, ...)]). *)
Definition format_error_log : list output :=
  [VerboseEntry "format error" (octets_of_string "unknown name");
   Stderr "Wrong query received, sending RCODE=1 (format error)."].

Definition not_implemented_log (name : list Z) : list output :=
  [VerboseEntry "not implemented" (cstring name);
   Stderr "Function not implemented, sending RCODE=4 (not implemented error)."].

Definition blacklisted_log (name : list Z) : list output :=
  [VerboseEntry "blacklisted" (cstring name)].

Definition query_log (name : list Z) : list output :=
  [VerboseEntry "query" (cstring name)].

Definition recv_error_log : list output :=
  [Stderr "Not able to receive packet."].

(** Lines 491-502: record the query and pass it on. *)
Definition forward (cfg : config) (st : state) (dnsHeader : HEADER)
    (failed : bool) : state * list output :=
  let st' := State (resp_buffer st) (resp_length st) (clientAddress st)
                   (record (pending st) (sin_port (clientAddress st))
                           (hdr_id dnsHeader) (sin_addr (clientAddress st))) in
  (st', sendto serverSocketDescritor st' (serverAddress cfg) :: send_error failed).

(** Lines 439-502, once the header was tested and the question decoded:
    the three answers and the forwarding, in the order of the source. *)
Definition decide_query (cfg : config) (st : state) (dnsHeader : HEADER)
    (bad : bool) (name : list Z) (type class : Z) (failed : bool)
    : bool * state * list output :=
  if (type <=? 0) || (class <=? 0) || bad then
    let '(st', out) := error_answer st dnsHeader 1 failed in
    (true, st', format_error_log ++ out)
  else if negb (type =? 1) || negb (class =? 1) then
    let '(st', out) := error_answer st dnsHeader 4 failed in
    (true, st', not_implemented_log name ++ out)
  else if isBlacklisted (blacklist cfg) name then
    let '(st', out) := error_answer st dnsHeader 5 failed in
    (true, st', blacklisted_log name ++ out)
  else
    let '(st', out) := forward cfg st dnsHeader failed in
    (false, st', query_log name ++ out).

(** The branch [if (fds[1].revents & POLLIN)] (lines 419-503).  The boolean
    of the result tells whether the branch ended with [continue].  When
    [badPacket] holds [getDnsRequestData] is not called: [type] and
    [class] keep their initial 0 and [name] is neither written nor read. *)
Definition client_question (cfg : config) (st : state) (r : received)
    (failed : bool) : res (bool * state * list output) :=
  match r with
  | RecvFailed =>
      Ok (true, State (resp_buffer st) (-1) (clientAddress st) (pending st),
          recv_error_log)
  | Datagram data src =>
      let st := set_clientAddress (recvfrom st data) src in
      let dnsHeader := header_of (resp_buffer st) in
      let bad := badPacket dnsHeader in
      '(name, type, class) ←
        (if bad then Ok ([], Some 0, Some 0)
         else getDnsRequestData (resp_buffer st) (Some 0) (Some 0));
      Ok (decide_query cfg st dnsHeader bad name (default 0 type) (default 0 class) failed)
  end.

(** Lines 516-518: the source of the answer is compared with the server
    address, and a difference is only reported. *)
Definition source_warning (cfg : config) (tmpAddress : sockaddr_in) : list output :=
  if decide (tmpAddress = serverAddress cfg) then []
  else [Stderr "Answer from unexpected source."].

(** The branch [if (fds[0].revents & POLLIN)] (lines 505-535). *)
Definition server_answer (cfg : config) (st : state) (r : received)
    : res (state * list output) :=
  match r with
  | RecvFailed =>
      Ok (State (resp_buffer st) (-1) (clientAddress st) (pending st),
          recv_error_log)
  | Datagram data tmpAddress =>
      let st := recvfrom st data in
      let warn := source_warning cfg tmpAddress in
      let dnsHeader := header_of (resp_buffer st) in
      '(tmpName, _, _) ← getDnsRequestData (resp_buffer st) None None;
      match resolve (pending st) (hdr_id dnsHeader) with
      | Some (port, addr) =>
          let st' := set_clientAddress st (SockAddr port addr) in
          Ok (st', warn ++ VerboseEntry "answer" (cstring tmpName)
                        :: [sendto clientSocketDescritor st' (clientAddress st')])
      | None => Ok (st, warn)
      end
  end.

(** [client_question] and [server_answer] follow a branch as long as the
    C semantics says what it does: a walk that leaves the buffer or the
    name array ends them with a [Fault].  The loop itself goes on after
    such a walk; the next four definitions are the branches as the loop
    runs them. *)

(** The client branch in the loop.  After a walk outside the arrays the
    rest of the branch (lines 439-502) runs on the variables as [fr] gives
    them. *)
Definition client_branch (cfg : config) (st : state) (r : received)
    (failed : bool) (fr : frame) : bool * state * list output :=
  match r with
  | RecvFailed =>
      (true, State (resp_buffer st) (-1) (clientAddress st) (pending st),
       recv_error_log)
  | Datagram data src =>
      let st := set_clientAddress (recvfrom st data) src in
      let dnsHeader := header_of (resp_buffer st) in
      let bad := badPacket dnsHeader in
      match (if bad then Ok ([], Some 0, Some 0)
             else getDnsRequestData (resp_buffer st) (Some 0) (Some 0)) with
      | Ok (name, type, class) =>
          decide_query cfg st dnsHeader bad name (default 0 type) (default 0 class)
                       failed
      | Fault f =>
          let '(continue, st', out) :=
            decide_query (Config (blacklist cfg) (stray_serverAddress fr))
                         (State (resp_buffer st) (resp_length st)
                                (clientAddress (stray_state fr))
                                (pending (stray_state fr)))
                         (stray_header fr) (stray_badPacket fr) (stray_name fr)
                         (stray_type fr) (stray_class fr) failed in
          (continue, st', Undefined f :: out)
      end
  end.

(** The variables when line 524 is reached, and the mark of a walk that
    has left its arrays: [resp], [dnsHeader] (copied at line 519) and
    [tmpName] (written at line 522, for the log line only). *)
Definition at_lookup (st : state) (data : list Z) (fr : frame)
    : state * list Z * list Z * list output :=
  let st := recvfrom st data in
  match getDnsRequestData (resp_buffer st) None None with
  | Ok (tmpName, _, _) => (st, header_of (resp_buffer st), tmpName, [])
  | Fault f =>
      (State (resp_buffer st) (resp_length st)
             (clientAddress (stray_state fr)) (pending (stray_state fr)),
       stray_header fr, stray_name fr, [Undefined f])
  end.

(** Lines 524-533: the scan of [ids] and, at the first hit, the log line
    and the [sendto] to the port and address of the slot. *)
Definition answer_lookup (st : state) (dnsHeader tmpName : list Z)
    : state * list output :=
  match resolve (pending st) (hdr_id dnsHeader) with
  | Some (port, addr) =>
      let st' := set_clientAddress st (SockAddr port addr) in
      (st', [VerboseEntry "answer" (cstring tmpName);
             sendto clientSocketDescritor st' (clientAddress st')])
  | None => (st, [])
  end.

(** The server branch in the loop.  The result of the [sendto] of line 530
    is not looked at, so [failed] changes nothing. *)
Definition server_branch (cfg : config) (st : state) (r : received)
    (failed : bool) (fr : frame) : state * list output :=
  match r with
  | RecvFailed =>
      (State (resp_buffer st) (-1) (clientAddress st) (pending st), recv_error_log)
  | Datagram data tmpAddress =>
      let '(st_l, dnsHeader, tmpName, marks) := at_lookup st data fr in
      let '(st', out) := answer_lookup st_l dnsHeader tmpName in
      (st', source_warning cfg tmpAddress ++ marks ++ out)
  end.

(** How an iteration ends: back at [poll], or in [exit] through [clear]. *)
Inductive outcome : Type :=
  | Polling (st : state) (out : list output)
  | Exited (status : Z) (out : list output).

(** One iteration of [while(1)]. *)
Definition iteration (cfg : config) (st : state) (w : wakeup) : outcome :=
  if poll_failed w then
    Exited 0 [Stderr "Unable to poll descriptors."]
  else
    let '(continue, st1, out1) :=
      match client_in w with
      | Some r => client_branch cfg st r (sendto_failed w) (stray w)
      | None => (false, st, [])
      end in
    if (continue : bool) then Polling st1 out1
    else
      match server_in w with
      | Some r =>
          let '(st2, out2) :=
            server_branch cfg st1 r (answer_sendto_failed w) (stray w) in
          Polling st2 (out1 ++ out2)
      | None => Polling st1 out1
      end.

(** The loop over the wakeups [ws]; the outputs are collected in order. *)
Fixpoint run (cfg : config) (st : state) (ws : list wakeup) : outcome :=
  match ws with
  | [] => Polling st []
  | w :: ws' =>
      match iteration cfg st w with
      | Exited status out => Exited status out
      | Polling st' out =>
          match run cfg st' ws' with
          | Polling st'' out' => Polling st'' (out ++ out')
          | Exited status out' => Exited status (out ++ out')
          end
      end
  end.

(** No name walk has left its arrays in what was put out. *)
Definition defined (out : list output) : Prop :=
  Forall (λ o, match o with Undefined _ => False | _ => True end) out.

(** The state when the loop is entered: a table of zeros; the buffer comes
    from [malloc] and the address is not initialised, so both are
    arbitrary. *)
Definition initial_state (heap : list Z) (addr : sockaddr_in) : state :=
  State heap 0 addr fresh_table.

(** The invariant of the loop on the sizes of the arrays. *)
Definition table_ok (t : table) : Prop :=
  length (ports t) = TABLE_SIZE ∧ length (ids t) = TABLE_SIZE ∧
  length (addresses t) = TABLE_SIZE ∧ 0 <= portsCounter t < 31.

Definition state_ok (st : state) : Prop :=
  length (resp_buffer st) = Z.to_nat BUFFER_SIZE ∧ table_ok (pending st).

(** Every element of a buffer is an octet. *)
Definition octets (l : list Z) : Prop := Forall (λ b, 0 <= b < 256) l.

(** The fields of a header in the order of the wire, for statements about
    the counts a client put in a query. *)
Definition wire_short (h : HEADER) (i : nat) : Z := ntohs_octets (octet h i) (octet h (S i)).
Definition wire_qdcount (h : HEADER) : Z := wire_short h 4.
Definition wire_ancount (h : HEADER) : Z := wire_short h 6.

(** The question section and what follows it: everything after the header. *)
Definition after_header (packet : list Z) : list Z := drop (Z.to_nat HEADER_SIZE) packet.

(** [needle] occurs in [hay] as a contiguous run of octets. *)
Definition substring (needle hay : list Z) : Prop :=
  ∃ before after, hay = before ++ needle ++ after.

(** A header that passes the test of line 429, in terms of the fields on
    the wire. *)
Definition header_sane (h : HEADER) : Prop :=
  hdr_qr h = 0 ∧ hdr_unused h = 0 ∧ hdr_cd h = 0 ∧
  0 < wire_qdcount h ∧ wire_ancount h <= 0.

(** The payloads passed to [sendto] on the upstream socket. *)
Fixpoint upstream_payloads (out : list output) : list (list Z) :=
  match out with
  | [] => []
  | Sendto serverSocketDescritor payload _ :: out' => payload :: upstream_payloads out'
  | _ :: out' => upstream_payloads out'
  end.

(** The payloads and destinations passed to [sendto] on the client socket. *)
Fixpoint client_payloads (out : list output) : list (list Z * sockaddr_in) :=
  match out with
  | [] => []
  | Sendto clientSocketDescritor payload dest :: out' =>
      (payload, dest) :: client_payloads out'
  | _ :: out' => client_payloads out'
  end.

(** ** The other fields of the header *)

(** The bit-fields of [HEADER] that [main] neither tests nor assigns, at
    their places in the third and fourth octet, and the count of additional
    records. *)
Definition hdr_rd (h : HEADER) : Z := bit (octet h 2) 0.
Definition hdr_tc (h : HEADER) : Z := bit (octet h 2) 1.
Definition hdr_opcode (h : HEADER) : Z := Z.land (Z.shiftr (octet h 2) 3) 15.
Definition hdr_ad (h : HEADER) : Z := bit (octet h 3) 5.
Definition hdr_arcount (h : HEADER) : Z := host_short h 10.

(** ** getDnsFilter (dns.c, lines 99-151) *)

Definition ALLOC_SIZE : nat := 20.
Definition FILE_BUFFER_SIZE : nat := 512.

(** The file is the sequence of its octets.  What one [fgets] takes from
    it: at most [n] characters, up to and including the first newline. *)
Fixpoint read_line (n : nat) (stream : list Z) : list Z * list Z :=
  match n, stream with
  | O, _ => ([], stream)
  | _, [] => ([], [])
  | S n', c :: rest =>
      if c =? 10 then ([c], rest)
      else let '(line, rest') := read_line n' rest in (c :: line, rest')
  end.

(** [fgets(filebuf, FILE_BUFFER_SIZE, blacklistFile)]: [None] is the [NULL]
    at the end of the file; otherwise the characters read and a zero are
    stored at the start of [filebuf], the rest of which keeps what it
    held. *)
Definition fgets (filebuf stream : list Z) : option (list Z * list Z) :=
  match stream with
  | [] => None
  | _ :: _ =>
      let '(line, rest) := read_line (FILE_BUFFER_SIZE - 1) stream in
      Some (line ++ 0 :: drop (S (length line)) filebuf, rest)
  end.

(** The loop of lines 127-131, started at [k] with [n] rounds left:
    [if (filebuf[k] == '\n') { filebuf[k] = '\0'; break; }]
    [if (filebuf[k] < ' ') filebuf[k] = '\0';  filebuf[k] &= 0x7f;] *)
Fixpoint strip (n k : nat) (filebuf : list Z) : list Z :=
  match n with
  | O => filebuf
  | S n' =>
      if cell filebuf k =? 10 then <[k := 0]> filebuf
      else
        let filebuf1 :=
          if char_to_int (cell filebuf k) <? 32 then <[k := 0]> filebuf else filebuf in
        strip n' (S k) (<[k := Z.land (char_to_int (cell filebuf1 k)) 127]> filebuf1)
  end.

(** The loop [while (bufPtr)] with the [fgets] that feeds it.  [r] holds
    the [size] strings stored so far, [allocated] is the capacity of the
    array; [realloc_ok c] tells whether the [realloc] to the capacity [c]
    succeeds.  The two [malloc] calls and [strdup] are not checked by the
    code and are taken to succeed.  The result is the value returned and
    the list left in [blacklist]. *)
Fixpoint filter_loop (fuel : nat) (realloc_ok : nat → bool)
    (filebuf stream : list Z) (r : list (list Z)) (allocated : nat)
    : res (Z * blacklist_s) :=
  match fuel with
  | O => Fault OutOfFuel
  | S fuel' =>
      match fgets filebuf stream with
      | None => Ok (0, r)
      | Some (filebuf, stream') =>
          if cell filebuf 0 =? 35 then
            filter_loop fuel' realloc_ok filebuf stream' r allocated
          else
            let filebuf :=
              <[(FILE_BUFFER_SIZE - 1)%nat := 0]> (strip FILE_BUFFER_SIZE 0 filebuf) in
            if (length r =? allocated)%nat then
              if realloc_ok (allocated + ALLOC_SIZE)%nat then
                filter_loop fuel' realloc_ok filebuf stream' (r ++ [cstring filebuf])
                            (allocated + ALLOC_SIZE)%nat
              else Ok (0, r)
            else
              filter_loop fuel' realloc_ok filebuf stream' (r ++ [cstring filebuf])
                          allocated
      end
  end.

(** The whole function: [file] is what [fopen] gives, [None] when it
    fails.  [EXIT_FAILURE] is 1, [EXIT_SUCCESS] is 0. *)
Definition getDnsFilter (realloc_ok : nat → bool) (file : option (list Z))
    : res (Z * blacklist_s) :=
  match file with
  | None => Ok (1, [])
  | Some stream =>
      filter_loop (S (length stream)) realloc_ok (replicate FILE_BUFFER_SIZE 0)
                  stream [] ALLOC_SIZE
  end.

(** A [realloc] that always succeeds. *)
Definition enough_memory : nat → bool := λ _, true.

(** *** Notions for the statements about getDnsFilter *)

(** The characters an entry can hold: from the space to character 127. *)
Definition printable (c : Z) : bool := (32 <=? c) && (c <? 128).

(** The longest run of such characters at the start of a line. *)
Fixpoint printable_prefix (line : list Z) : list Z :=
  match line with
  | [] => []
  | c :: line' => if printable c then c :: printable_prefix line' else []
  end.

(** A line that starts with the character #. *)
Definition is_comment (line : list Z) : bool :=
  match line with
  | c :: _ => c =? 35
  | [] => false
  end.

(** The entries of the pieces [fgets] cuts the stream into. *)
Fixpoint file_entries (fuel : nat) (stream : list Z) : list (list Z) :=
  match fuel with
  | O => []
  | S fuel' =>
      match stream with
      | [] => []
      | _ :: _ =>
          let '(line, rest) := read_line (FILE_BUFFER_SIZE - 1) stream in
          if is_comment line then file_entries fuel' rest
          else printable_prefix line :: file_entries fuel' rest
      end
  end.

(** The entries of a list of lines. *)
Fixpoint line_entries (lines : list (list Z)) : list (list Z) :=
  match lines with
  | [] => []
  | line :: lines' =>
      if is_comment line then line_entries lines'
      else printable_prefix line :: line_entries lines'
  end.

(** The text file with the lines [lines], each closed by a newline. *)
Definition text_file (lines : list (list Z)) : list Z :=
  concat (map (λ line, line ++ [10]) lines).

(** The loop of lines 127-131 on the list that starts at index [k]. *)
Fixpoint strip_list (n : nat) (l : list Z) : list Z :=
  match n, l with
  | O, _ => l
  | _, [] => []
  | S n', c :: l' =>
      if c =? 10 then 0 :: l'
      else Z.land (char_to_int (if char_to_int c <? 32 then 0 else c)) 127
           :: strip_list n' l'
  end.

(** The third and the fourth octet of a header after the six assignments
    of an error answer. *)
Definition answer_octet2 (b : Z) : Z := Z.lor (Z.land (Z.lor (Z.land b 127) 128) 251) 4.
Definition answer_octet3 (rcode b : Z) : Z :=
  Z.lor (Z.land (Z.lor (Z.land b 127) 128) 240) rcode.

(** What is checked of them, octet by octet. *)
Definition octet2_check (b : Z) : bool :=
  Z.testbit (answer_octet2 b) 7 && Z.testbit (answer_octet2 b) 2
  && Bool.eqb (Z.testbit (answer_octet2 b) 0) (Z.testbit b 0)
  && Bool.eqb (Z.testbit (answer_octet2 b) 1) (Z.testbit b 1)
  && (Z.land (Z.shiftr (answer_octet2 b) 3) 15 =? Z.land (Z.shiftr b 3) 15).

Definition octet3_check (b rcode : Z) : bool :=
  Z.testbit (answer_octet3 rcode b) 7
  && (Z.land (answer_octet3 rcode b) 15 =? rcode)
  && Bool.eqb (Z.testbit (answer_octet3 rcode b) 6) (Z.testbit b 6)
  && Bool.eqb (Z.testbit (answer_octet3 rcode b) 5) (Z.testbit b 5)
  && Bool.eqb (Z.testbit (answer_octet3 rcode b) 4) (Z.testbit b 4).

(** ** printIp (dns.c, lines 176-183) *)

(** What is written to the standard output: the characters of a string,
    or a number printed by [%d]. *)
Inductive printed : Type :=
  | Text (s : list Z)
  | Decimal (n : Z).

(** [printf("%d.%d.%d.%d#%d\t", bytes[3], bytes[2], bytes[1], bytes[0], port)];
    the tabulator is character 9. *)
Definition printIp (ip port : Z) : list printed :=
  let bytes0 := Z.land ip 255 in
  let bytes1 := Z.land (Z.shiftr ip 8) 255 in
  let bytes2 := Z.land (Z.shiftr ip 16) 255 in
  let bytes3 := Z.land (Z.shiftr ip 24) 255 in
  [Decimal bytes3; Text (octets_of_string "."); Decimal bytes2;
   Text (octets_of_string "."); Decimal bytes1; Text (octets_of_string ".");
   Decimal bytes0; Text (octets_of_string "#"); Decimal port; Text [9]].

(** [ntohl] of the address field that holds the octets [a], [b], [c], [d]
    in this order: the argument [main] passes on. *)
Definition ntohl_octets (a b c d : Z) : Z := ((a * 256 + b) * 256 + c) * 256 + d.

(** ** processArgs (dns.c, lines 262-332) *)

Definition AF_INET : Z := 2.

(** [char serverName[20]] of [main], the destination of the two [strcpy]. *)
Definition SERVER_NAME_SIZE : nat := 20.

(** What the C library answers: whether [inet_pton(AF_INET, s, _)] is 1;
    for [gethostbyname(s)], [h_addrtype] and the text [inet_ntoa] makes of
    the first address, or [None] for [NULL]; for [strtol(s, &ptr, 10)] the
    value and the number of characters [ptr] has moved; the octets of the
    file [fopen] opens, or [None]; and whether a [realloc] succeeds. *)
Record library : Type := Library {
  inet_pton : list Z → bool;
  gethostbyname : list Z → option (Z * list Z);
  strtol : list Z → Z * nat;
  fopen : list Z → option (list Z);
  realloc : nat → bool
}.

(** [int port = strtol(...)]: the [long] is converted to [int], which with
    the compilers of the target keeps the low 32 bits. *)
Definition int_of_long (v : Z) : Z := (v + 2147483648) mod 4294967296 - 2147483648.

(** [strcpy(dst, src)] into an array of [size] characters: the characters
    of [src] and a zero are written. *)
Definition strcpy (size : nat) (src : list Z) : res (list Z) :=
  if (length src <? size)%nat then Ok src
  else Fault (WriteOutOfBounds (Z.of_nat size)).

(** The variables the function sets: the global [verbose] and [blacklist],
    the two destinations it is passed, and its two flags. *)
Record arguments : Type := Args {
  verbose : bool;
  serverName : list Z;
  portNumber : Z;
  loaded_blacklist : blacklist_s;
  serverSelected : bool;
  filterFileSelected : bool
}.

(** What is printed while the options are read:
    - "[-v] Verbose mode turned on." on the standard output,
    - "[-s] Server ip selection: " and the name, on the standard output,
    - "[-s] Server name must be valid (or valid IPv4 address).",
    - "[-f] Filter file name selection: " and the name,
    - "[-p] Incorrect port number (it has to be integer value from 0 to 65535).",
    - "[-p] Port selection: " and the number,
    - "[-s] You have to input server name.",
    - "[-f] You have to input name of filter table.",
    these six on the standard error;
    - by [getDnsFilter], on the standard error, "Error opening filter
      file: " and the name (line 114), and "Could not reallocate array of
      filer names. ... Program will continue with " and the number of names
      loaded (line 138);
    - by [printHelp], on the standard output, the usage text. *)
Inductive notice : Type :=
  | VerboseOn
  | ServerSelection (name : list Z)
  | InvalidServer
  | FilterSelection (file : list Z)
  | IncorrectPort
  | PortSelection (port : Z)
  | MissingServer
  | MissingFilter
  | FilterOpenError (name : list Z)
  | OutOfMemory (size : nat)
  | Usage.

(** What [getDnsFilter] prints: the loop of [filter_loop] once more, with
    the number [size] of the strings stored in place of the strings. *)
Fixpoint filter_loop_stderr (fuel : nat) (realloc_ok : nat → bool)
    (filebuf stream : list Z) (size allocated : nat) : list notice :=
  match fuel with
  | O => []
  | S fuel' =>
      match fgets filebuf stream with
      | None => []
      | Some (filebuf, stream') =>
          if cell filebuf 0 =? 35 then
            filter_loop_stderr fuel' realloc_ok filebuf stream' size allocated
          else
            let filebuf :=
              <[(FILE_BUFFER_SIZE - 1)%nat := 0]> (strip FILE_BUFFER_SIZE 0 filebuf) in
            if (size =? allocated)%nat then
              if realloc_ok (allocated + ALLOC_SIZE)%nat then
                filter_loop_stderr fuel' realloc_ok filebuf stream' (S size)
                                   (allocated + ALLOC_SIZE)%nat
              else [OutOfMemory size]
            else
              filter_loop_stderr fuel' realloc_ok filebuf stream' (S size) allocated
      end
  end.

Definition getDnsFilter_stderr (realloc_ok : nat → bool) (name : list Z)
    (file : option (list Z)) : list notice :=
  match file with
  | None => [FilterOpenError name]
  | Some stream =>
      filter_loop_stderr (S (length stream)) realloc_ok (replicate FILE_BUFFER_SIZE 0)
                         stream 0 ALLOC_SIZE
  end.

(** How the function ends: it returns, or [printHelp] has called
    [exit(EXIT_FAILURE)]. *)
Inductive finish : Type :=
  | Returned (status : Z)
  | Help.

Definition say (ns : list notice) (r : res (finish * arguments * list notice))
    : res (finish * arguments * list notice) :=
  '(f, a, out) ← r; Ok (f, a, ns ++ out).

(** The loop over the options: [opts] are the values [getopt] returns
    before -1, each with its [optarg] (the characters of the argument). *)
Fixpoint processArgs (env : library) (opts : list (Z * list Z)) (a : arguments)
    : res (finish * arguments * list notice) :=
  match opts with
  | [] =>
      if negb (serverSelected a) then Ok (Returned 1, a, [MissingServer])
      else if negb (filterFileSelected a) then Ok (Returned 1, a, [MissingFilter])
      else Ok (Returned 0, a, [])
  | (c, optarg) :: opts' =>
      if c =? 118 then
        say [VerboseOn]
            (processArgs env opts'
               (Args true (serverName a) (portNumber a) (loaded_blacklist a)
                     (serverSelected a) (filterFileSelected a)))
      else if c =? 115 then
        if inet_pton env optarg then
          name ← strcpy SERVER_NAME_SIZE optarg;
          say (if verbose a then [ServerSelection name] else [])
              (processArgs env opts'
                 (Args (verbose a) name (portNumber a) (loaded_blacklist a)
                       true (filterFileSelected a)))
        else
          match gethostbyname env optarg with
          | Some (h_addrtype, text) =>
              if h_addrtype =? AF_INET then
                name ← strcpy SERVER_NAME_SIZE text;
                say (if verbose a then [ServerSelection name] else [])
                    (processArgs env opts'
                       (Args (verbose a) name (portNumber a) (loaded_blacklist a)
                             true (filterFileSelected a)))
              else Ok (Returned 1, a, [InvalidServer])
          | None => Ok (Returned 1, a, [InvalidServer])
          end
      else if c =? 102 then
        '(status, bl) ← getDnsFilter (realloc env) (fopen env optarg);
        let printed := getDnsFilter_stderr (realloc env) optarg (fopen env optarg) in
        if status =? 1 then
          Ok (Returned 1,
              Args (verbose a) (serverName a) (portNumber a) bl
                   (serverSelected a) (filterFileSelected a), printed)
        else
          say (printed ++ if verbose a then [FilterSelection optarg] else [])
              (processArgs env opts'
                 (Args (verbose a) (serverName a) (portNumber a) bl
                       (serverSelected a) true))
      else if c =? 112 then
        let '(value, consumed) := strtol env optarg in
        let port := int_of_long value in
        if negb (cell optarg consumed =? 0) || (consumed =? 0)%nat
           || (port >? 65535) || (port <? 0) then
          Ok (Returned 1, a, [IncorrectPort])
        else
          say (if verbose a then [PortSelection port] else [])
              (processArgs env opts'
                 (Args (verbose a) (serverName a) port (loaded_blacklist a)
                       (serverSelected a) (filterFileSelected a)))
      else Ok (Help, a, [Usage])
  end.

(** The variables as [main] has them before the call: [serverName] is the
    empty string, [portNumber] is 53, [blacklist] points to nothing. *)
Definition no_arguments : arguments := Args false [] 53 [] false false.

(** ** The start of main (dns.c, lines 335-411) *)

(** What the system answers: whether the two [socket] and the two [bind]
    calls succeed, the value of [inet_addr], and what the memory of the
    buffer and of [clientAddress] holds. *)
Record system : Type := System {
  socket_client : bool;
  bind_client : Z → bool;
  socket_server : bool;
  bind_server : bool;
  inet_addr : list Z → Z;
  malloc_buffer : list Z;
  stack_address : sockaddr_in
}.

(** [htons] on the target, which stores the low octet first. *)
Definition htons (x : Z) : Z := 256 * (x mod 256) + (x / 256) mod 256.

Inductive action : Type :=
  | Said (n : notice)
  | Complained (msg : string)
  | Opened (s : socket)
  | Bound (s : socket) (port : Z)
  | Closed (s : socket).

(** [main] up to the loop: it has stopped with a status, or it enters the
    loop. *)
Inductive started : Type :=
  | Stopped (status : Z) (log : list action)
  | Looping (cfg : config) (st : state) (a : arguments) (log : list action).

Definition startup (argc : Z) (env : library) (sys : system)
    (opts : list (Z * list Z)) : res started :=
  if argc <? 2 then Ok (Stopped 1 [Said Usage])
  else
    '(f, a, out) ← processArgs env opts no_arguments;
    match f with
    | Help => Ok (Stopped 1 (map Said out))
    | Returned status =>
        if negb (status =? 0) then Ok (Stopped 1 (map Said out))
        else if negb (socket_client sys) then
          Ok (Stopped 1 (map Said out
                         ++ [Complained "Could not create a new client socket"]))
        else if negb (bind_client sys (htons (portNumber a))) then
          Ok (Stopped 1 (map Said out
                         ++ [Opened clientSocketDescritor;
                             Complained "Could not bind a client listen socket.";
                             Closed clientSocketDescritor]))
        else if negb (socket_server sys) then
          Ok (Stopped 1 (map Said out
                         ++ [Opened clientSocketDescritor;
                             Bound clientSocketDescritor (htons (portNumber a));
                             Complained "Could not create a new server socket";
                             Closed clientSocketDescritor]))
        else if negb (bind_server sys) then
          Ok (Stopped 1 (map Said out
                         ++ [Opened clientSocketDescritor;
                             Bound clientSocketDescritor (htons (portNumber a));
                             Opened serverSocketDescritor;
                             Complained "Could not bind a server socket.";
                             Closed serverSocketDescritor;
                             Closed clientSocketDescritor]))
        else
          Ok (Looping
                (Config (loaded_blacklist a)
                        (SockAddr (htons 53) (inet_addr sys (serverName a))))
                (initial_state (malloc_buffer sys) (stack_address sys)) a
                (map Said out
                 ++ [Opened clientSocketDescritor;
                     Bound clientSocketDescritor (htons (portNumber a));
                     Opened serverSocketDescritor;
                     Bound serverSocketDescritor (htons 0)]))
    end.

(** [main]: the start and then the loop over the wakeups [ws]. *)
Definition main (argc : Z) (env : library) (sys : system)
    (opts : list (Z * list Z)) (ws : list wakeup) : res (list action * outcome) :=
  s ← startup argc env sys opts;
  match s with
  | Stopped status log => Ok (log, Exited status [])
  | Looping cfg st _ log => Ok (log, run cfg st ws)
  end.

(** *** Notions for the statements about the command line and the start *)

(** The letters of the options. *)
Definition known_option (c : Z) : Prop := c = 118 ∨ c = 115 ∨ c = 102 ∨ c = 112.

(** The option [-s] with an argument that is accepted. *)
Definition server_given (env : library) (opts : list (Z * list Z)) : Prop :=
  ∃ optarg,
    (115, optarg) ∈ opts
    ∧ (inet_pton env optarg = true
       ∨ ∃ text, gethostbyname env optarg = Some (AF_INET, text)).

(** The last option [-s] has put [name] in [serverName]: its argument when
    [inet_pton] accepts it, and else the text of the address that
    [gethostbyname] gives for it. *)
Definition server_name_given (env : library) (opts : list (Z * list Z))
    (name : list Z) : Prop :=
  ∃ before optarg after,
    opts = before ++ (115, optarg) :: after
    ∧ Forall (λ o, o.1 ≠ 115) after
    ∧ if inet_pton env optarg then name = optarg
      else gethostbyname env optarg = Some (AF_INET, name).

(** The last option [-f] names a file that was opened, and [bl] is what
    [getDnsFilter] has made of it. *)
Definition filter_given (env : library) (opts : list (Z * list Z)) (bl : blacklist_s)
    : Prop :=
  ∃ before file after stream,
    opts = before ++ (102, file) :: after
    ∧ Forall (λ o, o.1 ≠ 102) after
    ∧ fopen env file = Some stream
    ∧ getDnsFilter (realloc env) (Some stream) = Ok (0, bl).


(** The sockets opened and the sockets closed, in the order of the calls. *)
Definition opened (log : list action) : list socket :=
  flat_map (λ x, match x with Opened s => [s] | _ => [] end) log.

Definition closed (log : list action) : list socket :=
  flat_map (λ x, match x with Closed s => [s] | _ => [] end) log.

(** The ports the sockets were bound to. *)
Definition bound (log : list action) : list (socket * Z) :=
  flat_map (λ x, match x with Bound s port => [(s, port)] | _ => [] end) log.

(** What an iteration or the loop has put out. *)
Definition outputs (o : outcome) : list output :=
  match o with
  | Polling _ out => out
  | Exited _ out => out
  end.

(** The senders of the datagrams received on the client socket. *)
Definition client_sources (ws : list wakeup) : list sockaddr_in :=
  flat_map (λ w, match client_in w with
                 | Some (Datagram _ src) => [src]
                 | _ => []
                 end) ws.

(** A datagram sent on the server socket goes to the server address; one
    sent on the client socket goes to one of [clients], or to the address
    and port 0. *)
Definition destination_ok (cfg : config) (clients : list sockaddr_in) (o : output)
    : Prop :=
  match o with
  | Sendto serverSocketDescritor _ dest => dest = serverAddress cfg
  | Sendto clientSocketDescritor _ dest => dest = SockAddr 0 0 ∨ dest ∈ clients
  | _ => True
  end.

(** Every slot of the table holds the port and the address of one of
    [clients], or zeros. *)
Definition addressed (clients : list sockaddr_in) (t : table) : Prop :=
  ∀ j, SockAddr (e_port (slot t j)) (e_addr (slot t j)) = SockAddr 0 0
       ∨ SockAddr (e_port (slot t j)) (e_addr (slot t j)) ∈ clients.

(** ** Notions used in the statements *)

(** The value of the length octet the walk stands on. *)
Definition next_length (ls : list (list Z)) : Z :=
  match ls with
  | [] => 0
  | l :: _ => Z.of_nat (length l)
  end.

(** What the walk writes for the labels [ls]: a dot before every label,
    except before the label at the very start of the name. *)
Definition written (first : bool) (ls : list (list Z)) : list Z :=
  if first then dotted ls else concat (map (λ l, 46 :: l) ls).

(** Quotient and remainder of [a] by 31, for [lia]. *)
Ltac mod31 a :=
  pose proof (Nat.div_mod_eq a 31);
  pose proof (Nat.mod_upper_bound a 31 ltac:(lia)).

(** What the table holds after the entries [es] were recorded in a table
    of zeros: the counter is the number of entries modulo 31; each of the
    last 31 entries sits in the slot of its rank modulo 31; the slots not
    reached yet and slot 31 hold zeros; and every slot holds zeros or one
    of the last 31 entries. *)
Definition ring_inv (es : list entry) (t : table) : Prop :=
  table_ok t ∧
  portsCounter t = Z.of_nat (length es mod 31) ∧
  (∀ i e, (length es <= i + 31)%nat → es !! i = Some e → slot t (i mod 31) = e) ∧
  (∀ j, (length es <= j ∨ 31 <= j)%nat → slot t j = zero_entry) ∧
  (∀ j, slot t j = zero_entry ∨
        ∃ i, (length es <= i + 31)%nat ∧ (i mod 31)%nat = j ∧ es !! i = Some (slot t j)).

(** ** Proof steps *)

(** The outputs that are no datagrams, in a statement on destinations. *)
Ltac destinations :=
  repeat match goal with
         | |- Forall _ [] => constructor
         | |- Forall _ (_ :: _) => constructor
         | |- Forall _ (_ ++ _) => apply Forall_app; split
         | |- destination_ok _ _ (VerboseEntry _ _) => exact I
         | |- destination_ok _ _ (Stderr _) => exact I
         end.

(** A decidable statement about sample data, by evaluation. *)
Ltac by_decision :=
  match goal with
  | |- ?P => apply (bool_decide_unpack P); vm_compute; exact I
  end.

(** ** Sample data *)

Definition sample_heap : list Z := replicate 1000 0.

(** Port 54321 of 127.0.0.1 and port 53 of 8.8.8.8, as stored. *)
Definition sample_client : sockaddr_in := SockAddr 12756 16777343.
Definition sample_server : sockaddr_in := SockAddr 13568 134744072.

Definition sample_config : config := Config [octets_of_string "ads"] sample_server.

Definition sample_state : state := initial_state sample_heap (SockAddr 0 0).

(** A query with recursion desired and one question. *)
Definition query (id : Z) (names : list string) (qtype qclass : Z) : list Z :=
  query_header id 1 0 1 0 ++ encode_question (labels_of names) qtype qclass.

(** An answer header (response, recursion desired and available, one
    question, one answer) before a question of nine labels of 63 octets:
    593 octets in all, a name of 575 octets with its dots. *)
Definition overlong_answer (id : Z) : list Z :=
  query_header id 129 128 1 1 ++ encode_question (replicate 9 (replicate 63 97)) 1 1.

(** The same question in a query. *)
Definition overlong_query (id : Z) : list Z :=
  query_header id 1 0 1 0 ++ encode_question (replicate 9 (replicate 63 97)) 1 1.

(** A query for www followed by a compression pointer to offset 12. *)
Definition pointer_query (id : Z) : list Z :=
  query_header id 1 0 1 0 ++ [3; 119; 119; 119; 192; 12; 0; 1; 0; 1].

(** The state after the query 7 of [sample_client] was passed on. *)
Definition sample_pending : state :=
  State (pad_to 1000 (query 7 ["example"; "com"]%string 1 1)) 29 sample_client
        (record fresh_table (sin_port sample_client) 7 (sin_addr sample_client)).

(** An answer to the query 7 for example.com, without records. *)
Definition sample_answer : list Z :=
  query_header 7 129 128 1 0 ++ encode_question (labels_of ["example"; "com"]%string) 1 1.

(** A message with the response flag set, sent to the client side. *)
Definition response_as_query : list Z :=
  query_header 7 129 0 1 0 ++ encode_question (labels_of ["example"; "com"]%string) 1 1.

(** 32 entries with the identifiers [base] to [base + 31]. *)
Definition numbered_entries (base : Z) : list entry :=
  map (λ i, Entry (base + Z.of_nat i) (4000 + Z.of_nat i) 16777343) (seq 0 32).

(** The output of the client branch, if it returned. *)
Definition question_output (r : res (bool * state * list output)) : list output :=
  match r with
  | Ok (_, _, out) => out
  | Fault _ => []
  end.

(** The response codes of the datagrams sent to clients. *)
Definition client_rcodes (out : list output) : list Z :=
  map (λ pd, hdr_rcode (header_of pd.1)) (client_payloads out).

(** A filter file: a comment, a name, and a name before a carriage
    return; and the names it holds. *)
Definition sample_lines : list (list Z) :=
  [octets_of_string "# advertising"; octets_of_string "ads.example.com";
   octets_of_string "tracker.example.org" ++ [13]].

Definition sample_names : list (list Z) :=
  [octets_of_string "ads.example.com"; octets_of_string "tracker.example.org"].

(** A [realloc] that always fails. *)
Definition no_memory : nat → bool := λ _, false.

(** A library that accepts the address 8.8.8.8, resolves no name, reads
    every port argument as 5353 and has the one file filter.txt. *)
Definition sample_library : library :=
  Library (λ s, bool_decide (s = octets_of_string "8.8.8.8"))
          (λ _, None)
          (λ s, (5353, length s))
          (λ f, if bool_decide (f = octets_of_string "filter.txt")
                then Some (text_file sample_lines) else None)
          enough_memory.

(** The options -s 8.8.8.8 -f filter.txt -p 5353, and what they set. *)
Definition sample_options : list (Z * list Z) :=
  [(115, octets_of_string "8.8.8.8"); (102, octets_of_string "filter.txt");
   (112, octets_of_string "5353")].

Definition sample_arguments : arguments :=
  Args false (octets_of_string "8.8.8.8") 5353 sample_names true true.

(** A system in which every call succeeds but, when [server_bind] is
    [false], the [bind] of the server socket. *)
Definition sample_system (server_bind : bool) : system :=
  System true (λ _, true) true server_bind (λ _, 134744072) sample_heap (SockAddr 0 0).

(** Variables overwritten with the letter a. *)
Definition sample_frame : frame :=
  Frame (replicate 12 97) (replicate 3 97)
        (State sample_heap 0 (SockAddr 24929 1633771873)
               (Table (replicate 32 24929) (replicate 32 24929)
                      (replicate 32 1633771873) 24929))
        1633771873 1633771873 true (SockAddr 24929 1633771873).

(** Variables that an access outside [tmpName] has left as they were while
    the answer with the identifier [id] and the overlong name was read. *)
Definition kept_frame (id : Z) : frame :=
  Frame (header_of (overlong_answer id)) [] sample_pending 0 0 false sample_server.

(** A query of [sample_client] and then the answer of the server. *)
Definition sample_wakeups : list wakeup :=
  [Wakeup false (Some (Datagram (query 7 ["example"; "com"]%string 1 1) sample_client))
          None false false sample_frame;
   Wakeup false None (Some (Datagram sample_answer sample_server)) false false
          sample_frame].

(** The test of [octets], computed. *)
Definition octetsb (l : list Z) : bool := forallb (λ b, (0 <=? b) && (b <? 256)) l.

(** * Properties *)

(** ** The error monad *)

Lemma bind_ok_inv {A B} (m : res A) (k : A → res B) (b : B) :
  m ≫= k = Ok b → ∃ a, m = Ok a ∧ k a = Ok b.
Proof. destruct m as [a|f]; [|done]. intros H. by exists a. Qed.

Lemma ok_bind {A B} (a : A) (k : A → res B) : Ok a ≫= k = k a.
Proof. reflexivity. Qed.

(** ** The header *)

Lemma octets_lookup (l : list Z) (i : nat) : octets l → 0 <= octet l i < 256.
Proof.
  intros Hl. unfold octet. destruct (l !! i) as [b|] eqn:E; simpl.
  - apply (Forall_lookup_1 _ _ _ _ Hl E).
  - lia.
Qed.

Lemma octets_take (l : list Z) (n : nat) : octets l → octets (take n l).
Proof. apply Forall_take. Qed.

Lemma host_short_zero (h : HEADER) (i : nat) :
  octets h → (host_short h i <= 0 ↔ wire_short h i <= 0).
Proof.
  intros Hh. unfold host_short, wire_short, ntohs_octets.
  pose proof (octets_lookup h i Hh). pose proof (octets_lookup h (S i) Hh). lia.
Qed.

Lemma host_short_pos (h : HEADER) (i : nat) :
  octets h → (0 < host_short h i ↔ 0 < wire_short h i).
Proof.
  intros Hh. unfold host_short, wire_short, ntohs_octets.
  pose proof (octets_lookup h i Hh). pose proof (octets_lookup h (S i) Hh). lia.
Qed.

Lemma length_set_bits i s w v h : length (set_bits i s w v h) = length h.
Proof. unfold set_bits. apply length_insert. Qed.

Lemma length_set_short i v h : length (set_short i v h) = length h.
Proof. unfold set_short. by rewrite !length_insert. Qed.

Lemma length_answer_header rcode h : length (answer_header rcode h) = length h.
Proof.
  unfold answer_header, set_nscount, set_ancount, set_rcode, set_ra, set_aa, set_qr.
  by rewrite !length_set_short, !length_set_bits.
Qed.

Lemma octet_set_bits_ne i j s w v h : i ≠ j → octet (set_bits i s w v h) j = octet h j.
Proof. intros. unfold set_bits, octet. by rewrite list_lookup_insert_ne. Qed.

Lemma octet_set_bits_eq i s w v h :
  (i < length h)%nat →
  octet (set_bits i s w v h) i
  = Z.lor (Z.land (octet h i) (255 - Z.shiftl (2 ^ w - 1) s)) (Z.shiftl v s).
Proof. intros. unfold set_bits. unfold octet at 1. by rewrite list_lookup_insert_eq. Qed.

Lemma octet_set_short_ne i j v h : i ≠ j → S i ≠ j → octet (set_short i v h) j = octet h j.
Proof. intros. unfold set_short, octet. by rewrite !list_lookup_insert_ne. Qed.

(** The identifier and the question count are not touched. *)
Lemma answer_header_keeps rcode h j :
  j ∉ [2; 3; 6; 7; 8; 9]%nat → octet (answer_header rcode h) j = octet h j.
Proof.
  intros Hj. rewrite !not_elem_of_cons in Hj.
  unfold answer_header, set_nscount, set_ancount, set_rcode, set_ra, set_aa, set_qr.
  rewrite !octet_set_short_ne, !octet_set_bits_ne by lia. done.
Qed.

Lemma take_answer_header rcode h : take 2 (answer_header rcode h) = take 2 h.
Proof.
  unfold answer_header, set_nscount, set_ancount, set_rcode, set_ra, set_aa, set_qr.
  unfold set_short, set_bits. by rewrite !take_insert_ge by lia.
Qed.

Lemma answer_header_rcode rcode h :
  (4 <= length h)%nat → 0 <= rcode < 16 → hdr_rcode (answer_header rcode h) = rcode.
Proof.
  intros Hlen Hr. unfold hdr_rcode.
  unfold answer_header, set_nscount, set_ancount, set_rcode, set_ra, set_aa, set_qr.
  rewrite !octet_set_short_ne by lia.
  rewrite octet_set_bits_eq by (rewrite !length_set_bits; lia).
  change (255 - Z.shiftl (2 ^ 4 - 1) 0) with 240. rewrite Z.shiftl_0_r.
  rewrite Z.land_lor_distr_l, <- Z.land_assoc. change (Z.land 240 15) with 0.
  rewrite Z.land_0_r, Z.lor_0_l.
  change 15 with (Z.ones 4). rewrite Z.land_ones by lia.
  apply Z.mod_small. lia.
Qed.

Lemma answer_header_qr rcode h :
  (4 <= length h)%nat → hdr_qr (answer_header rcode h) = 1.
Proof.
  intros Hlen. unfold hdr_qr, bit.
  unfold answer_header, set_nscount, set_ancount, set_rcode, set_ra, set_aa, set_qr.
  rewrite !octet_set_short_ne by lia.
  do 2 rewrite octet_set_bits_ne by lia.
  rewrite octet_set_bits_eq by (rewrite length_set_bits; lia).
  rewrite octet_set_bits_eq by lia.
  rewrite Z.lor_spec, Z.land_spec, Z.lor_spec.
  change (Z.testbit (Z.shiftl 1 7) 7) with true.
  by rewrite orb_true_r.
Qed.

Lemma octet_set_short_lo i v h :
  (S i < length h)%nat → octet (set_short i v h) i = v mod 256.
Proof.
  intros. unfold set_short, octet.
  rewrite list_lookup_insert_ne by lia. by rewrite list_lookup_insert_eq by lia.
Qed.

Lemma octet_set_short_hi i v h :
  (S i < length h)%nat → octet (set_short i v h) (S i) = v / 256.
Proof.
  intros. unfold set_short, octet.
  by rewrite list_lookup_insert_eq by (rewrite length_insert; lia).
Qed.

Lemma answer_header_counts rcode h :
  (10 <= length h)%nat →
  hdr_ancount (answer_header rcode h) = 0 ∧ hdr_nscount (answer_header rcode h) = 0.
Proof.
  intros Hlen. unfold hdr_ancount, hdr_nscount, host_short.
  unfold answer_header, set_nscount, set_ancount, set_rcode, set_ra, set_aa, set_qr.
  split.
  - rewrite !(octet_set_short_ne 8) by lia.
    rewrite octet_set_short_lo, octet_set_short_hi by (rewrite !length_set_bits; lia).
    done.
  - rewrite octet_set_short_lo, octet_set_short_hi
      by (rewrite length_set_short, !length_set_bits; lia).
    done.
Qed.

(** ** Receiving and answering *)

Lemma length_received_octets data :
  (length (received_octets data) <= 1000)%nat.
Proof. unfold received_octets. rewrite length_take. change (Z.to_nat BUFFER_SIZE) with 1000%nat. lia. Qed.

Lemma header_of_received data :
  header_of (received_octets data) = header_of data.
Proof.
  unfold header_of, received_octets. rewrite take_take. f_equal.
Qed.

Lemma header_of_recv_into buffer data :
  (12 <= length data)%nat → header_of (recv_into buffer data) = header_of data.
Proof.
  intros Hlen. rewrite <- (header_of_received data). unfold header_of, recv_into.
  apply take_app_le. unfold received_octets. rewrite length_take.
  change (Z.to_nat HEADER_SIZE) with 12%nat. change (Z.to_nat BUFFER_SIZE) with 1000%nat. lia.
Qed.

Lemma length_header_of data :
  (12 <= length data)%nat → length (header_of data) = 12%nat.
Proof.
  intros. unfold header_of. rewrite length_take.
  change (Z.to_nat HEADER_SIZE) with 12%nat. lia.
Qed.

Lemma length_recv_into buffer data :
  length buffer = Z.to_nat BUFFER_SIZE → length (recv_into buffer data) = Z.to_nat BUFFER_SIZE.
Proof.
  intros Hb. unfold recv_into. rewrite length_app, length_drop, Hb.
  pose proof (length_received_octets data). change (Z.to_nat BUFFER_SIZE) with 1000%nat. lia.
Qed.

(** What is sent when nothing was written to the buffer since the
    [recvfrom]: the octets received. *)
Lemma sendto_received s st data dest :
  sendto s (recvfrom st data) dest = Sendto s (received_octets data) dest.
Proof.
  unfold sendto, recvfrom, recv_into. simpl. f_equal.
  rewrite Nat2Z.id. apply take_app_length.
Qed.

(** What is sent after the header was rewritten in the buffer. *)
Lemma sendto_answer st data rcode :
  (12 <= length data)%nat →
  take (Z.to_nat (resp_length (recvfrom st data)))
       (put_header (answer_header rcode (header_of data)) (resp_buffer (recvfrom st data)))
  = answer_header rcode (header_of data) ++ after_header (received_octets data).
Proof.
  intros Hlen. unfold recvfrom, put_header, recv_into, after_header. simpl.
  rewrite Nat2Z.id.
  assert (Hr : (12 <= length (received_octets data))%nat).
  { unfold received_octets. rewrite length_take. change (Z.to_nat BUFFER_SIZE) with 1000%nat. lia. }
  change (Z.to_nat HEADER_SIZE) with 12%nat.
  rewrite drop_app_le by lia.
  rewrite take_app_ge by (rewrite length_answer_header, length_header_of; lia).
  f_equal. rewrite length_answer_header, length_header_of by lia.
  rewrite take_app_le by (rewrite length_drop; lia).
  apply take_ge. rewrite length_drop. lia.
Qed.

Lemma header_of_answer rcode h rest :
  length h = 12%nat → header_of (answer_header rcode h ++ rest) = answer_header rcode h.
Proof.
  intros Hh. unfold header_of. change (Z.to_nat HEADER_SIZE) with 12%nat.
  apply take_app_length'. by rewrite length_answer_header.
Qed.

Lemma after_header_answer rcode h rest :
  length h = 12%nat → after_header (answer_header rcode h ++ rest) = rest.
Proof.
  intros Hh. unfold after_header. change (Z.to_nat HEADER_SIZE) with 12%nat.
  apply drop_app_length'. by rewrite length_answer_header.
Qed.

(** The test of line 429 in terms of the fields of the header on the wire. *)
Lemma badPacket_true (h : HEADER) :
  octets h →
  hdr_qr h = 1 ∨ hdr_unused h = 1 ∨ hdr_cd h = 1 ∨ wire_qdcount h <= 0 ∨ wire_ancount h > 0 →
  badPacket h = true.
Proof.
  intros Hh Hbad. unfold badPacket.
  destruct Hbad as [H|[H|[H|[H|H]]]].
  - rewrite H. done.
  - rewrite H. by rewrite orb_true_r.
  - rewrite H. simpl. by rewrite !orb_true_r.
  - apply (host_short_zero h 4 Hh) in H. fold (hdr_qdcount h) in H.
    apply Z.leb_le in H. rewrite H. simpl. by rewrite !orb_true_r.
  - assert (H' : 0 < wire_short h 6) by (unfold wire_ancount in H; lia).
    apply (host_short_pos h 6 Hh) in H'. fold (hdr_ancount h) in H'.
    apply Z.ltb_lt in H'. rewrite H'. by rewrite !orb_true_r.
Qed.

(** ** The client branch, case by case *)

Lemma client_question_bad cfg st data src failed :
  let st0 := set_clientAddress (recvfrom st data) src in
  badPacket (header_of (resp_buffer st0)) = true →
  client_question cfg st (Datagram data src) failed
  = Ok (true, (error_answer st0 (header_of (resp_buffer st0)) 1 failed).1,
        format_error_log ++ (error_answer st0 (header_of (resp_buffer st0)) 1 failed).2).
Proof.
  intros st0 Hbad. unfold client_question. fold st0. rewrite Hbad. simpl.
  unfold decide_query. simpl. done.
Qed.

Lemma client_question_decoded cfg st data src failed name type class :
  let st0 := set_clientAddress (recvfrom st data) src in
  badPacket (header_of (resp_buffer st0)) = false →
  getDnsRequestData (resp_buffer st0) (Some 0) (Some 0) = Ok (name, Some type, Some class) →
  client_question cfg st (Datagram data src) failed
  = Ok (decide_query cfg st0 (header_of (resp_buffer st0)) false name type class failed).
Proof.
  intros st0 Hbad Hdec. unfold client_question. fold st0. rewrite Hbad, Hdec. done.
Qed.

(** The payload of an error answer to a datagram that has a header. *)
Lemma error_answer_received st data src rcode failed :
  (12 <= length data)%nat →
  let st0 := set_clientAddress (recvfrom st data) src in
  (error_answer st0 (header_of (resp_buffer st0)) rcode failed).2
  = Sendto clientSocketDescritor
      (answer_header rcode (header_of data) ++ after_header (received_octets data)) src
    :: send_error failed.
Proof.
  intros Hlen st0. unfold error_answer. simpl. f_equal.
  unfold sendto. simpl. f_equal.
  rewrite header_of_recv_into by done.
  apply (sendto_answer st data rcode Hlen).
Qed.

(** An error answer is the datagram received with a rewritten header. *)
Lemma error_reply_facts (data : list Z) (rcode : Z) :
  (12 <= length data)%nat → 0 <= rcode < 16 →
  let reply := answer_header rcode (header_of data) ++ after_header (received_octets data) in
  hdr_rcode (header_of reply) = rcode
  ∧ hdr_qr (header_of reply) = 1
  ∧ length reply = length (received_octets data)
  ∧ hdr_id (header_of reply) = hdr_id (header_of data)
  ∧ take 2 reply = take 2 (received_octets data)
  ∧ after_header reply = after_header (received_octets data).
Proof.
  intros Hlen Hr reply. unfold reply.
  assert (Hh : length (header_of data) = 12%nat) by by apply length_header_of.
  rewrite header_of_answer, after_header_answer by done.
  rewrite answer_header_rcode, answer_header_qr by lia.
  repeat split; try done.
  - rewrite length_app, length_answer_header, Hh. unfold after_header.
    rewrite length_drop. change (Z.to_nat HEADER_SIZE) with 12%nat.
    assert (12 <= length (received_octets data))%nat; [|lia].
    unfold received_octets. rewrite length_take.
    change (Z.to_nat BUFFER_SIZE) with 1000%nat. lia.
  - unfold hdr_id. rewrite !answer_header_keeps; [done| |];
      rewrite !not_elem_of_cons; repeat split; try lia; apply not_elem_of_nil.
  - rewrite take_app_le by (rewrite length_answer_header; lia).
    rewrite take_answer_header. unfold header_of, received_octets.
    rewrite !take_take. done.
Qed.

(** The answer to a query with a malformed header. *)
Lemma client_question_format_error (cfg : config) (st : state) (data : list Z)
    (src : sockaddr_in) (failed : bool) :
  octets data →
  (12 <= length data)%nat →
  hdr_qr (header_of data) = 1 ∨ hdr_unused (header_of data) = 1 ∨
  hdr_cd (header_of data) = 1 ∨ wire_qdcount (header_of data) <= 0 ∨
  wire_ancount (header_of data) > 0 →
  ∃ st' reply,
    client_question cfg st (Datagram data src) failed
    = Ok (true, st',
          format_error_log ++ Sendto clientSocketDescritor reply src :: send_error failed)
    ∧ pending st' = pending st
    ∧ hdr_rcode (header_of reply) = 1
    ∧ hdr_qr (header_of reply) = 1
    ∧ length reply = length (received_octets data)
    ∧ hdr_id (header_of reply) = hdr_id (header_of data)
    ∧ take 2 reply = take 2 (received_octets data)
    ∧ after_header reply = after_header (received_octets data).
Proof.
  intros Hoct Hlen Hbad.
  eexists _, _. split; [|split].
  - rewrite client_question_bad.
    + rewrite error_answer_received by done. reflexivity.
    + simpl. rewrite header_of_recv_into by done.
      apply badPacket_true; [by apply octets_take|done].
  - done.
  - by apply error_reply_facts.
Qed.

(** C3. A query whose header has the response flag, the reserved bit or
    the checking-disabled bit set, or a question count of 0, or an answer
    count above 0, is answered with response code 1: nothing is decoded
    (the statement holds whatever follows the header, and the name logged
    is the fixed text of [format_error_log]); the answer is the datagram
    received with the 12 octets of the header rewritten, so it has the
    same length, the same identifier and the same octets after the
    header. *)
Theorem format_error_reply (cfg : config) (st : state) (data : list Z)
    (src : sockaddr_in) (failed : bool) :
  octets data →
  (12 <= length data)%nat →
  hdr_qr (header_of data) = 1 ∨ hdr_unused (header_of data) = 1 ∨
  hdr_cd (header_of data) = 1 ∨ wire_qdcount (header_of data) <= 0 ∨
  wire_ancount (header_of data) > 0 →
  ∃ st' reply,
    client_question cfg st (Datagram data src) failed
    = Ok (true, st',
          format_error_log ++ Sendto clientSocketDescritor reply src :: send_error failed)
    ∧ pending st' = pending st
    ∧ hdr_rcode (header_of reply) = 1
    ∧ hdr_qr (header_of reply) = 1
    ∧ length reply = length (received_octets data)
    ∧ hdr_id (header_of reply) = hdr_id (header_of data)
    ∧ take 2 reply = take 2 (received_octets data)
    ∧ after_header reply = after_header (received_octets data).
Proof. apply client_question_format_error. Qed.

Lemma badPacket_false (h : HEADER) : octets h → header_sane h → badPacket h = false.
Proof.
  intros Hh (Hqr & Hun & Hcd & Hqd & Han). unfold badPacket.
  rewrite Hqr, Hun, Hcd. simpl.
  assert (Hq : ¬ hdr_qdcount h <= 0).
  { intros H. apply (host_short_zero h 4 Hh) in H. unfold wire_qdcount in Hqd. lia. }
  assert (Ha : ¬ 0 < hdr_ancount h).
  { intros H. apply (host_short_pos h 6 Hh) in H. unfold wire_ancount in Han. lia. }
  apply Z.leb_nle in Hq. apply Z.ltb_nlt in Ha. by rewrite Hq, Ha.
Qed.

Lemma upstream_payloads_app out1 out2 :
  upstream_payloads (out1 ++ out2) = upstream_payloads out1 ++ upstream_payloads out2.
Proof.
  induction out1 as [|[[]| | |] out1 IH]; simpl; by rewrite ?IH.
Qed.

Lemma client_payloads_app out1 out2 :
  client_payloads (out1 ++ out2) = client_payloads out1 ++ client_payloads out2.
Proof.
  induction out1 as [|[[]| | |] out1 IH]; simpl; by rewrite ?IH.
Qed.

Lemma upstream_payloads_send_error failed : upstream_payloads (send_error failed) = [].
Proof. by destruct failed. Qed.

Lemma client_payloads_send_error failed : client_payloads (send_error failed) = [].
Proof. by destruct failed. Qed.

(** ** The blacklist *)

Lemma starts_with_spec (hay needle : list Z) :
  starts_with hay needle = true ↔ ∃ rest, hay = needle ++ rest.
Proof.
  revert hay. induction needle as [|n needle IH]; intros hay; simpl.
  - split; [by exists hay|done].
  - destruct hay as [|h hay].
    + split; [done|]. by intros [rest ?].
    + rewrite andb_true_iff, Z.eqb_eq, IH. split.
      * intros [-> [rest ->]]. by exists rest.
      * intros [rest [= -> ->]]. eauto.
Qed.

Lemma strstr_spec (hay needle : list Z) :
  strstr hay needle = true ↔ substring needle hay.
Proof.
  unfold substring. induction hay as [|h hay IH]; simpl.
  - rewrite orb_false_r, starts_with_spec. split.
    + intros [rest ->]. by exists [], rest.
    + intros ([|b before] & after & H); [by exists after|done].
  - rewrite orb_true_iff, starts_with_spec, IH. split.
    + intros [[rest ->]|(before & after & ->)].
      * by exists [], rest.
      * by exists (h :: before), after.
    + intros ([|b before] & after & H).
      * left. by exists after.
      * right. injection H as -> ->. by exists before, after.
Qed.

(** [isBlacklisted] is 1 exactly when some entry of the list occurs in the
    C string [name]. *)
Lemma isBlacklisted_spec (bl : blacklist_s) (name : list Z) :
  isBlacklisted bl name = true ↔ ∃ entry, entry ∈ bl ∧ substring entry (cstring name).
Proof.
  induction bl as [|e bl IH]; simpl.
  - split; [done|]. intros (entry & Hin & _). by apply elem_of_nil in Hin.
  - destruct (strstr (cstring name) e) eqn:E.
    + split; [|done]. intros _. exists e. split; [by left|]. by apply strstr_spec.
    + rewrite IH. split.
      * intros (entry & Hin & Hsub). exists entry. split; [by right|done].
      * intros (entry & Hin & Hsub). apply elem_of_cons in Hin as [->|Hin].
        -- apply strstr_spec in Hsub. congruence.
        -- eauto.
Qed.

(** The loop stops at the first entry that matches: what follows it in the
    list has no influence. *)
Lemma isBlacklisted_first_match (before after : blacklist_s) (e name : list Z) :
  strstr (cstring name) e = true →
  isBlacklisted (before ++ e :: after) name = isBlacklisted (before ++ [e]) name.
Proof.
  intros He. induction before as [|b before IH]; simpl.
  - by rewrite He.
  - by rewrite IH.
Qed.

(** ** The answers of the client branch *)

(** C4. A query that passes the test of the header and decodes with a type
    and a class above 0, of which one is not 1, is answered with response
    code 4.  The blacklist is not consulted: the statement holds for every
    configuration, also one whose blacklist matches the name. *)
Theorem not_implemented_reply (cfg : config) (st : state) (data : list Z)
    (src : sockaddr_in) (failed : bool) (name : list Z) (type class : Z) :
  octets data →
  (12 <= length data)%nat →
  header_sane (header_of data) →
  getDnsRequestData (recv_into (resp_buffer st) data) (Some 0) (Some 0)
  = Ok (name, Some type, Some class) →
  0 < type → 0 < class → type ≠ 1 ∨ class ≠ 1 →
  ∃ st' reply,
    client_question cfg st (Datagram data src) failed
    = Ok (true, st',
          not_implemented_log name ++ Sendto clientSocketDescritor reply src
          :: send_error failed)
    ∧ pending st' = pending st
    ∧ hdr_rcode (header_of reply) = 4
    ∧ hdr_qr (header_of reply) = 1
    ∧ length reply = length (received_octets data)
    ∧ hdr_id (header_of reply) = hdr_id (header_of data)
    ∧ take 2 reply = take 2 (received_octets data)
    ∧ after_header reply = after_header (received_octets data).
Proof.
  intros Hoct Hlen Hsane Hdec Ht Hc Hne.
  eexists _, _. split; [|split].
  - erewrite client_question_decoded; [| |exact Hdec].
    + unfold decide_query.
      assert (E1 : ((type <=? 0) || (class <=? 0) || false) = false).
      { apply Z.leb_gt in Ht, Hc. by rewrite Ht, Hc. }
      assert (E2 : (negb (type =? 1) || negb (class =? 1)) = true).
      { destruct Hne as [H|H]; apply Z.eqb_neq in H; rewrite H; simpl; [done|].
        by rewrite orb_true_r. }
      rewrite E1, E2.
      rewrite (surjective_pairing (error_answer _ _ _ _)).
      rewrite error_answer_received by done. reflexivity.
    + simpl. rewrite header_of_recv_into by done.
      apply badPacket_false; [by apply octets_take|done].
  - done.
  - apply error_reply_facts; [done|lia].
Qed.

Lemma decide_query_blacklisted cfg st h name type class failed :
  isBlacklisted (blacklist cfg) name = true →
  ∃ rcode,
    decide_query cfg st h false name type class failed
    = (true, (error_answer st h rcode failed).1,
       (if rcode =? 1 then format_error_log
        else if rcode =? 4 then not_implemented_log name
        else blacklisted_log name) ++ (error_answer st h rcode failed).2)
    ∧ (rcode = 1 ∨ rcode = 4 ∨ rcode = 5)
    ∧ (type = 1 → class = 1 → rcode = 5).
Proof.
  intros Hbl. unfold decide_query. rewrite Hbl.
  destruct ((type <=? 0) || (class <=? 0) || false) eqn:E1;
    [|destruct (negb (type =? 1) || negb (class =? 1)) eqn:E2].
  - exists 1. split; [done|]. split; [by left|]. intros -> ->. done.
  - exists 4. split; [done|]. split; [by right; left|]. intros -> ->. done.
  - exists 5. split; [done|]. split; [by right; right|]. done.
Qed.

(** C2, as the code has it.  A query that passes the test of the header and
    whose decoded name contains an entry of the blacklist is never passed
    upstream and leaves the table as it was; the client gets an error
    answer, whose response code is 5 when the query has type 1 and class 1
    (for other types and classes the code is 1 or 4, which are decided
    before the blacklist is looked at). *)
Theorem blacklisted_reply (cfg : config) (st : state) (data : list Z)
    (src : sockaddr_in) (failed : bool) (name : list Z) (type class : Z) :
  octets data →
  (12 <= length data)%nat →
  header_sane (header_of data) →
  getDnsRequestData (recv_into (resp_buffer st) data) (Some 0) (Some 0)
  = Ok (name, Some type, Some class) →
  (∃ entry, entry ∈ blacklist cfg ∧ substring entry (cstring name)) →
  ∃ st' out reply,
    client_question cfg st (Datagram data src) failed = Ok (true, st', out)
    ∧ upstream_payloads out = []
    ∧ client_payloads out = [(reply, src)]
    ∧ pending st' = pending st
    ∧ (hdr_rcode (header_of reply) = 1 ∨ hdr_rcode (header_of reply) = 4 ∨
       hdr_rcode (header_of reply) = 5)
    ∧ (type = 1 → class = 1 →
       out = blacklisted_log name ++ Sendto clientSocketDescritor reply src
             :: send_error failed
       ∧ hdr_rcode (header_of reply) = 5
       ∧ hdr_qr (header_of reply) = 1
       ∧ length reply = length (received_octets data)
       ∧ hdr_id (header_of reply) = hdr_id (header_of data)
       ∧ after_header reply = after_header (received_octets data)).
Proof.
  intros Hoct Hlen Hsane Hdec Hbl. apply isBlacklisted_spec in Hbl.
  set (st0 := set_clientAddress (recvfrom st data) src).
  destruct (decide_query_blacklisted cfg st0 (header_of (resp_buffer st0))
              name type class failed Hbl) as (rcode & Hq & Hr & H5).
  pose proof (error_answer_received st data src rcode failed Hlen) as Hout.
  cbv zeta in Hout. fold st0 in Hout. rewrite Hout in Hq.
  assert (Hrange : 0 <= rcode < 16) by lia.
  destruct (error_reply_facts data rcode Hlen Hrange) as (F1 & F2 & F3 & F4 & F5 & F6).
  eexists _, _, _. split; [|split; [|split; [|split; [|split]]]].
  - erewrite client_question_decoded; [| |exact Hdec].
    + fold st0. rewrite Hq. reflexivity.
    + simpl. rewrite header_of_recv_into by done.
      apply badPacket_false; [by apply octets_take|done].
  - rewrite upstream_payloads_app. simpl. rewrite upstream_payloads_send_error.
    destruct Hr as [->|[->| ->]]; done.
  - rewrite client_payloads_app. simpl. rewrite client_payloads_send_error.
    destruct Hr as [->|[->| ->]]; done.
  - done.
  - by rewrite F1.
  - intros Ht Hc. specialize (H5 Ht Hc). subst rcode. done.
Qed.

Lemma isBlacklisted_false (bl : blacklist_s) (name : list Z) :
  (∀ entry, entry ∈ bl → ¬ substring entry (cstring name)) →
  isBlacklisted bl name = false.
Proof.
  intros Hno. destruct (isBlacklisted bl name) eqn:E; [|done].
  apply isBlacklisted_spec in E as (entry & Hin & Hsub). by destruct (Hno entry Hin).
Qed.

(** The forwarding path: the datagram goes upstream as it was received and
    the client is recorded under the identifier of the query. *)
Lemma client_question_forward cfg st data src failed name :
  octets data →
  (12 <= length data)%nat →
  header_sane (header_of data) →
  getDnsRequestData (recv_into (resp_buffer st) data) (Some 0) (Some 0)
  = Ok (name, Some 1, Some 1) →
  isBlacklisted (blacklist cfg) name = false →
  client_question cfg st (Datagram data src) failed
  = Ok (false,
        State (recv_into (resp_buffer st) data)
              (Z.of_nat (length (received_octets data))) src
              (record (pending st) (sin_port src) (hdr_id (header_of data)) (sin_addr src)),
        query_log name ++ Sendto serverSocketDescritor (received_octets data)
                                 (serverAddress cfg) :: send_error failed).
Proof.
  intros Hoct Hlen Hsane Hdec Hbl.
  erewrite client_question_decoded; [| |exact Hdec].
  - unfold decide_query. rewrite Hbl. simpl.
    rewrite header_of_recv_into by done. do 4 f_equal.
    unfold sendto. simpl. f_equal. unfold recv_into.
    rewrite Nat2Z.id. apply take_app_length.
  - simpl. rewrite header_of_recv_into by done.
    apply badPacket_false; [by apply octets_take|done].
Qed.

(** The answer path: when the walk over the name returns and the
    identifier is found, the datagram goes to the address of the slot as
    it was received. *)
Lemma server_answer_resolved cfg st data tmpAddress tmpName port addr :
  getDnsRequestData (recv_into (resp_buffer st) data) None None = Ok (tmpName, None, None) →
  resolve (pending st) (hdr_id (header_of (recv_into (resp_buffer st) data)))
  = Some (port, addr) →
  server_answer cfg st (Datagram data tmpAddress)
  = Ok (set_clientAddress (recvfrom st data) (SockAddr port addr),
        source_warning cfg tmpAddress ++
        [VerboseEntry "answer" (cstring tmpName);
         Sendto clientSocketDescritor (received_octets data) (SockAddr port addr)]).
Proof.
  intros Hdec Hres. unfold server_answer.
  change (resp_buffer (recvfrom st data)) with (recv_into (resp_buffer st) data).
  change (pending (recvfrom st data)) with (pending st).
  rewrite Hdec. unfold mbind, res_bind. rewrite Hres.
  change (sendto clientSocketDescritor
            (set_clientAddress (recvfrom st data) (SockAddr port addr))
            (clientAddress (set_clientAddress (recvfrom st data) (SockAddr port addr))))
    with (sendto clientSocketDescritor (recvfrom st data) (SockAddr port addr)).
  by rewrite sendto_received.
Qed.

(** The walk with two [NULL] destinations returns no type and no class. *)
Lemma getDnsRequestData_NULL buffer name type class :
  getDnsRequestData buffer None None = Ok (name, type, class) → type = None ∧ class = None.
Proof.
  unfold getDnsRequestData. intros H.
  apply bind_ok_inv in H as (c0 & _ & H).
  apply bind_ok_inv in H as ([counter url] & _ & H).
  apply bind_ok_inv in H as (_ & _ & H).
  by injection H as _ <- <-.
Qed.

Lemma client_payloads_source_warning cfg a : client_payloads (source_warning cfg a) = [].
Proof. unfold source_warning. by destruct (decide _). Qed.

Lemma upstream_payloads_source_warning cfg a : upstream_payloads (source_warning cfg a) = [].
Proof. unfold source_warning. by destruct (decide _). Qed.


Lemma at_lookup_ok st data fr tmpName type class :
  getDnsRequestData (recv_into (resp_buffer st) data) None None
  = Ok (tmpName, type, class) →
  at_lookup st data fr
  = (recvfrom st data, header_of (recv_into (resp_buffer st) data), tmpName, []).
Proof. unfold at_lookup. cbn [recvfrom resp_buffer]. by intros ->. Qed.

Lemma at_lookup_fault st data fr f :
  getDnsRequestData (recv_into (resp_buffer st) data) None None = Fault f →
  at_lookup st data fr
  = (State (recv_into (resp_buffer st) data)
           (Z.of_nat (length (received_octets data)))
           (clientAddress (stray_state fr)) (pending (stray_state fr)),
     stray_header fr, stray_name fr, [Undefined f]).
Proof. unfold at_lookup. cbn [recvfrom resp_buffer resp_length]. by intros ->. Qed.

(** Whatever the walk did, line 524 finds the octets received in the
    buffer. *)
Lemma at_lookup_buffer st data fr :
  resp_buffer (at_lookup st data fr).1.1.1 = recv_into (resp_buffer st) data
  ∧ resp_length (at_lookup st data fr).1.1.1 = Z.of_nat (length (received_octets data)).
Proof.
  unfold at_lookup. cbn [recvfrom resp_buffer resp_length].
  by destruct (getDnsRequestData _ None None) as [[[tmpName ty] cl]|].
Qed.

Lemma server_branch_ok cfg st r failed fr st' out :
  server_answer cfg st r = Ok (st', out) →
  server_branch cfg st r failed fr = (st', out).
Proof.
  destruct r as [|data tmpAddress]; unfold server_answer, server_branch.
  - by intros [= <- <-].
  - intros H. apply bind_ok_inv in H as ([[tmpName ty] cl] & Hdec & H).
    cbn [recvfrom resp_buffer] in Hdec. rewrite (at_lookup_ok _ _ _ _ _ _ Hdec).
    unfold answer_lookup. cbn [recvfrom pending resp_buffer] in H |- *.
    destruct (resolve _ _) as [[port addr]|]; injection H as <- <-; [done|].
    by rewrite app_nil_r.
Qed.

Lemma answer_lookup_resolved st dnsHeader tmpName port addr :
  resolve (pending st) (hdr_id dnsHeader) = Some (port, addr) →
  answer_lookup st dnsHeader tmpName
  = (set_clientAddress st (SockAddr port addr),
     [VerboseEntry "answer" (cstring tmpName);
      Sendto clientSocketDescritor (take (Z.to_nat (resp_length st)) (resp_buffer st))
             (SockAddr port addr)]).
Proof. unfold answer_lookup. by intros ->. Qed.

Lemma client_payloads_marks st data fr :
  client_payloads (at_lookup st data fr).2 = []
  ∧ upstream_payloads (at_lookup st data fr).2 = [].
Proof.
  unfold at_lookup. by destruct (getDnsRequestData _ None None) as [[[tmpName ty] cl]|].
Qed.

(** The server branch on an answer whose identifier line 524 finds in the
    table. *)
Lemma server_branch_resolved cfg st data tmpAddress failed fr port addr :
  resolve (pending (at_lookup st data fr).1.1.1)
          (hdr_id (at_lookup st data fr).1.1.2) = Some (port, addr) →
  ∃ st' out,
    server_branch cfg st (Datagram data tmpAddress) failed fr = (st', out)
    ∧ client_payloads out = [(received_octets data, SockAddr port addr)]
    ∧ upstream_payloads out = []
    ∧ pending st' = pending (at_lookup st data fr).1.1.1.
Proof.
  intros Hres. unfold server_branch.
  destruct (client_payloads_marks st data fr) as [Hm1 Hm2].
  destruct (at_lookup_buffer st data fr) as [Hbuf Hlen].
  destruct (at_lookup st data fr) as [[[st_l dnsHeader] tmpName] marks].
  cbn [fst snd] in *.
  rewrite (answer_lookup_resolved _ _ tmpName _ _ Hres).
  eexists _, _. split; [reflexivity|].
  rewrite !client_payloads_app, !upstream_payloads_app,
    client_payloads_source_warning, upstream_payloads_source_warning, Hm1, Hm2,
    Hbuf, Hlen.
  cbn. rewrite Nat2Z.id. unfold recv_into. rewrite take_app_length. done.
Qed.

(** C1.  (1) A query with a sane header that decodes with type 1 and
    class 1 to a name in which no entry of the blacklist occurs is sent to
    the upstream address exactly as it was received, and the client is
    recorded in the table.  (2) Every upstream answer whose identifier the
    lookup of line 524 finds in the table is sent exactly as it was
    received to the port and address of the slot found, whether or not
    the walk over its name, made for the log line, has stayed inside its
    arrays.  (3) When the walk has stayed inside, line 524 finds the table
    as it was before the answer came, and the identifier of the answer. *)
Theorem forward_unmodified :
  (∀ (cfg : config) (st : state) (data : list Z) (src : sockaddr_in)
     (failed : bool) (name : list Z),
     octets data →
     (12 <= length data)%nat →
     header_sane (header_of data) →
     getDnsRequestData (recv_into (resp_buffer st) data) (Some 0) (Some 0)
     = Ok (name, Some 1, Some 1) →
     (∀ entry, entry ∈ blacklist cfg → ¬ substring entry (cstring name)) →
     ∃ st' out,
       client_question cfg st (Datagram data src) failed = Ok (false, st', out)
       ∧ upstream_payloads out = [received_octets data]
       ∧ client_payloads out = []
       ∧ out = query_log name ++ Sendto serverSocketDescritor (received_octets data)
                                        (serverAddress cfg) :: send_error failed
       ∧ pending st' = record (pending st) (sin_port src) (hdr_id (header_of data))
                              (sin_addr src))
  ∧
  (∀ (cfg : config) (st : state) (data : list Z) (tmpAddress : sockaddr_in)
     (failed : bool) (fr : frame) (port addr : Z),
     resolve (pending (at_lookup st data fr).1.1.1)
             (hdr_id (at_lookup st data fr).1.1.2) = Some (port, addr) →
     ∃ st' out,
       server_branch cfg st (Datagram data tmpAddress) failed fr = (st', out)
       ∧ client_payloads out = [(received_octets data, SockAddr port addr)]
       ∧ upstream_payloads out = []
       ∧ pending st' = pending (at_lookup st data fr).1.1.1)
  ∧
  (∀ (st : state) (data : list Z) (fr : frame),
     is_ok (getDnsRequestData (recv_into (resp_buffer st) data) None None) = true →
     pending (at_lookup st data fr).1.1.1 = pending st
     ∧ (at_lookup st data fr).1.1.2 = header_of (recv_into (resp_buffer st) data)).
Proof.
  split; [|split].
  - intros cfg st data src failed name Hoct Hlen Hsane Hdec Hbl.
    apply isBlacklisted_false in Hbl.
    eexists _, _. split; [by apply client_question_forward|].
    simpl. rewrite upstream_payloads_send_error, client_payloads_send_error. done.
  - intros cfg st data tmpAddress failed fr port addr. apply server_branch_resolved.
  - intros st data fr Hok.
    destruct (getDnsRequestData _ None None) as [[[tmpName ty] cl]|] eqn:Hdec; [|done].
    by rewrite (at_lookup_ok _ _ _ _ _ _ Hdec).
Qed.

(** ** The table of pending queries *)

Lemma table_ok_fresh : table_ok fresh_table.
Proof. unfold table_ok, fresh_table. cbn [ports ids addresses portsCounter]. rewrite !length_replicate. lia. Qed.

Lemma slot_fresh j : slot fresh_table j = zero_entry.
Proof.
  unfold slot, fresh_table, cell. cbn [ports ids addresses].
  destruct (decide (j < TABLE_SIZE)%nat).
  - by rewrite !lookup_replicate_2 by done.
  - by rewrite !lookup_ge_None_2 by (rewrite length_replicate; lia).
Qed.

(** The counter after a store: one more, and 0 instead of 31. *)
Lemma record_counter t port id addr :
  0 <= portsCounter t < 31 →
  portsCounter (record t port id addr)
  = (if portsCounter t =? 30 then 0 else portsCounter t + 1).
Proof.
  intros Hc. unfold record. simpl.
  rewrite Z.mod_small by lia.
  destruct (portsCounter t =? 30) eqn:E.
  - apply Z.eqb_eq in E. rewrite E. done.
  - apply Z.eqb_neq in E. destruct (portsCounter t + 1 =? 31) eqn:E'; [|done].
    apply Z.eqb_eq in E'. lia.
Qed.

(** The counter never leaves 0..30, so the stores stay inside the arrays. *)
Lemma record_counter_range t port id addr :
  table_ok t → table_ok (record t port id addr).
Proof.
  intros (Hp & Hi & Ha & Hc). unfold table_ok.
  rewrite record_counter by done. unfold record. simpl.
  rewrite !length_insert. repeat split; try done;
    destruct (portsCounter t =? 30) eqn:E; try lia.
Qed.

Lemma table_ok_record_all t es : table_ok t → table_ok (record_all t es).
Proof.
  revert t. induction es as [|e es IH]; intros t Ht; [done|].
  simpl. apply IH. by apply record_counter_range.
Qed.

(** A store fills the slot under the counter and no other. *)
Lemma slot_record_eq t e :
  table_ok t → slot (record_entry t e) (Z.to_nat (portsCounter t)) = e.
Proof.
  intros (Hp & Hi & Ha & Hc). unfold slot, record_entry, record, cell. simpl.
  unfold TABLE_SIZE in *.
  rewrite !list_lookup_insert_eq by lia. by destruct e.
Qed.

Lemma slot_record_ne t e j :
  j ≠ Z.to_nat (portsCounter t) → slot (record_entry t e) j = slot t j.
Proof.
  intros Hj. unfold slot, record_entry, record, cell. simpl.
  by rewrite !list_lookup_insert_ne by done.
Qed.

(** The scan returns the first slot that holds the identifier. *)
Lemma resolve_from_first n t i id j :
  (i <= j < i + n)%nat →
  e_id (slot t j) = id →
  (∀ k, (i <= k < j)%nat → e_id (slot t k) ≠ id) →
  resolve_from n t i id = Some (e_port (slot t j), e_addr (slot t j)).
Proof.
  revert i. induction n as [|n IH]; intros i Hj Hid Hbefore; [lia|].
  simpl. destruct (decide (i = j)) as [->|Hne].
  - simpl in Hid. apply Z.eqb_eq in Hid. by rewrite Hid.
  - assert (Hi : e_id (slot t i) ≠ id) by (apply Hbefore; lia).
    simpl in Hi. apply Z.eqb_neq in Hi. rewrite Hi.
    apply IH; [lia|done|]. intros k Hk. apply Hbefore. lia.
Qed.

Lemma resolve_from_none n t i id :
  (∀ j, (i <= j < i + n)%nat → e_id (slot t j) ≠ id) →
  resolve_from n t i id = None.
Proof.
  revert i. induction n as [|n IH]; intros i Hno; [done|].
  simpl. assert (Hi : e_id (slot t i) ≠ id) by (apply Hno; lia).
  simpl in Hi. apply Z.eqb_neq in Hi. rewrite Hi.
  apply IH. intros j Hj. apply Hno. lia.
Qed.

(** When every slot that holds the identifier holds the same port and
    address, and there is such a slot, the scan returns them. *)
Lemma resolve_from_any n t i id port addr :
  (∃ j, (i <= j < i + n)%nat ∧ e_id (slot t j) = id) →
  (∀ j, (i <= j < i + n)%nat → e_id (slot t j) = id →
        e_port (slot t j) = port ∧ e_addr (slot t j) = addr) →
  resolve_from n t i id = Some (port, addr).
Proof.
  revert i. induction n as [|n IH]; intros i (j & Hj & Hid) Hall; [lia|].
  simpl. destruct (cell (ids t) i =? id) eqn:E.
  - apply Z.eqb_eq in E. destruct (Hall i) as [Hp Ha]; [lia|done|].
    simpl in Hp, Ha. by rewrite Hp, Ha.
  - apply Z.eqb_neq in E. apply IH.
    + exists j. split; [|done]. destruct (decide (i = j)) as [->|]; [done|lia].
    + intros k Hk. apply Hall. lia.
Qed.

(** *** The ring of 31 slots *)

Lemma ring_inv_fresh : ring_inv [] fresh_table.
Proof.
  split; [apply table_ok_fresh|]. split; [done|]. split; [done|].
  split; intros j; [intros _|left]; apply slot_fresh.
Qed.

Lemma ring_inv_record es t e :
  ring_inv es t → ring_inv (es ++ [e]) (record_entry t e).
Proof.
  intros (Hok & Hc & Hlive & Hzero & Hall).
  assert (Hcur : Z.to_nat (portsCounter t) = (length es mod 31)%nat) by lia.
  assert (Hrange : 0 <= portsCounter t < 31) by apply Hok.
  mod31 (length es).
  split; [by apply record_counter_range|].
  rewrite length_app. change (length [e]) with 1%nat.
  split; [|split; [|split]].
  - unfold record_entry. rewrite record_counter by done.
    mod31 (length es + 1)%nat.
    destruct (portsCounter t =? 30) eqn:E; lia.
  - intros i e0 Hi Hlook.
    destruct (decide (i < length es)%nat) as [Hlt|Hge].
    + rewrite lookup_app_l in Hlook by done.
      rewrite slot_record_ne by (mod31 i; lia). apply Hlive; [lia|done].
    + apply lookup_lt_Some in Hlook as Hlen. rewrite length_app in Hlen. simpl in Hlen.
      assert (i = length es) as -> by lia.
      rewrite list_lookup_middle in Hlook by done. injection Hlook as <-.
      rewrite <- Hcur. by apply slot_record_eq.
  - intros j Hj. rewrite slot_record_ne by lia. apply Hzero. lia.
  - intros j. destruct (decide (j = Z.to_nat (portsCounter t))) as [->|Hne].
    + right. exists (length es). rewrite slot_record_eq by done.
      split; [lia|]. split; [lia|]. by apply list_lookup_middle.
    + rewrite slot_record_ne by done. destruct (Hall j) as [Hz|(i & Hi & Hmod & Hlook)].
      * by left.
      * right. exists i. split; [mod31 i; lia|]. split; [done|].
        by apply lookup_app_l_Some.
Qed.

Lemma record_all_snoc t es e :
  record_all t (es ++ [e]) = record_entry (record_all t es) e.
Proof. unfold record_all. by rewrite foldl_app. Qed.

Lemma ring_inv_record_all es : ring_inv es (record_all fresh_table es).
Proof.
  induction es as [|e es IH] using rev_ind; [apply ring_inv_fresh|].
  rewrite record_all_snoc. by apply ring_inv_record.
Qed.

(** An entry of rank [i] among the last 31 is an element of [live es]. *)
Lemma lookup_live es i e :
  (length es <= i + 31)%nat → es !! i = Some e →
  live es !! (i - (length es - 31))%nat = Some e.
Proof.
  intros Hi Hlook. unfold live. rewrite lookup_drop. rewrite <- Hlook. f_equal. lia.
Qed.

(** Slot 31 is never written and the counter never reaches it. *)
Lemma slot_31_never_written es :
  slot (record_all fresh_table es) 31 = zero_entry
  ∧ 0 <= portsCounter (record_all fresh_table es) < 31.
Proof.
  destruct (ring_inv_record_all es) as (Hok & _ & _ & Hzero & _).
  split; [apply Hzero; lia|apply Hok].
Qed.

(** The identifier 0 resolves to the zeros of an unwritten slot as long
    as no live entry has that identifier. *)
Lemma resolve_zero_id es :
  Forall (λ e, e_id e ≠ 0) (live es) →
  resolve (record_all fresh_table es) 0 = Some (0, 0).
Proof.
  intros Hlive. destruct (ring_inv_record_all es) as (Hok & _ & _ & Hzero & Hall).
  apply resolve_from_any.
  - exists 31%nat. split; [unfold TABLE_SIZE; lia|]. by rewrite Hzero by lia.
  - intros j _ Hid. destruct (Hall j) as [Hz|(i & Hi & _ & Hlook)].
    + by rewrite Hz.
    + apply (lookup_live es i _ Hi) in Hlook.
      by apply (Forall_lookup_1 _ _ _ _ Hlive) in Hlook.
Qed.

(** While fewer than 31 entries follow it, an entry stays in its slot [c],
    and the slots below [c] that did not hold its identifier still do not,
    provided the entries that follow have other identifiers. *)
Lemma slot_kept (c : nat) (X P A : Z) (later : list entry) :
  ∀ (t : table) (k : nat),
    table_ok t → (c < 31)%nat →
    Z.to_nat (portsCounter t) = ((c + 1 + k) mod 31)%nat →
    slot t c = Entry X P A →
    (∀ j, (j < c)%nat → e_id (slot t j) ≠ X) →
    (k + length later <= 30)%nat →
    Forall (λ e, e_id e ≠ X) later →
    slot (record_all t later) c = Entry X P A
    ∧ ∀ j, (j < c)%nat → e_id (slot (record_all t later) j) ≠ X.
Proof.
  induction later as [|e later IH]; intros t k Hok Hc Hcur Hslot Hlow Hlen Hne; [done|].
  simpl in Hlen. inversion Hne as [|e' later' He Hne']; subst e' later'.
  assert (Hrange : 0 <= portsCounter t < 31) by apply Hok.
  mod31 (c + 1 + k)%nat. mod31 (c + 1 + S k)%nat.
  simpl. apply (IH (record_entry t e) (S k)).
  - by apply record_counter_range.
  - done.
  - unfold record_entry. rewrite record_counter by done.
    destruct (portsCounter t =? 30) eqn:E; lia.
  - rewrite slot_record_ne by lia. done.
  - intros j Hj. destruct (decide (j = Z.to_nat (portsCounter t))) as [->|Hjne].
    + by rewrite slot_record_eq.
    + rewrite slot_record_ne by done. by apply Hlow.
  - lia.
  - done.
Qed.

(** C7, as the code has it.  In a table where no slot below the counter
    holds the identifier X, after X is recorded with port P and address A,
    and after up to 30 more entries with other identifiers, looking X up
    returns exactly (P, A). *)
Theorem record_then_resolve (t : table) (X P A : Z) (later : list entry) :
  table_ok t →
  (∀ j, (j < Z.to_nat (portsCounter t))%nat → e_id (slot t j) ≠ X) →
  (length later <= 30)%nat →
  Forall (λ e, e_id e ≠ X) later →
  resolve (record_all (record t P X A) later) X = Some (P, A).
Proof.
  intros Hok Hlow Hlen Hne.
  assert (Hrange : 0 <= portsCounter t < 31) by apply Hok.
  set (c := Z.to_nat (portsCounter t)).
  destruct (slot_kept c X P A later (record t P X A) 0) as [Hslot Hbelow].
  - by apply record_counter_range.
  - unfold c. lia.
  - rewrite record_counter by done. mod31 (c + 1 + 0)%nat. unfold c in *.
    destruct (portsCounter t =? 30) eqn:E; lia.
  - apply (slot_record_eq t (Entry X P A) Hok).
  - intros j Hj. change (record t P X A) with (record_entry t (Entry X P A)).
    rewrite slot_record_ne by (unfold c in Hj; lia). by apply Hlow.
  - lia.
  - done.
  - unfold resolve.
    rewrite (resolve_from_first TABLE_SIZE _ 0 X c).
    + by rewrite Hslot.
    + unfold TABLE_SIZE, c. lia.
    + by rewrite Hslot.
    + intros k Hk. apply Hbelow. lia.
Qed.

(** C8, as the code has it.  A store fills the slot under the counter and
    moves the counter on, from 30 back to 0; so slot 31 is never written.
    After 32 entries with distinct identifiers were recorded in a table of
    zeros, the slot of the first entry holds the last one, and looking the
    first identifier up finds nothing if that identifier is not 0; if it
    is 0 the lookup finds the zeros of slot 31. *)
Theorem ring_overwrite :
  (∀ (t : table) (e : entry), table_ok t →
     slot (record_entry t e) (Z.to_nat (portsCounter t)) = e
     ∧ (∀ j, j ≠ Z.to_nat (portsCounter t) → slot (record_entry t e) j = slot t j)
     ∧ portsCounter (record_entry t e)
       = (if portsCounter t =? 30 then 0 else portsCounter t + 1))
  ∧ (∀ es : list entry,
       slot (record_all fresh_table es) 31 = zero_entry
       ∧ 0 <= portsCounter (record_all fresh_table es) < 31)
  ∧ (∀ (es : list entry) (first : entry),
       length es = 32%nat → NoDup (e_id <$> es) → es !! 0%nat = Some first →
       slot (record_all fresh_table (take 31 es)) 0 = first
       ∧ es !! 31%nat = Some (slot (record_all fresh_table es) 0)
       ∧ (e_id first ≠ 0 → resolve (record_all fresh_table es) (e_id first) = None)
       ∧ (e_id first = 0 → resolve (record_all fresh_table es) (e_id first) = Some (0, 0))).
Proof.
  split; [|split].
  - intros t e Hok. split; [by apply slot_record_eq|]. split.
    + intros j Hj. by apply slot_record_ne.
    + apply record_counter, Hok.
  - apply slot_31_never_written.
  - intros es first Hlen Hnodup Hfirst.
    destruct (ring_inv_record_all es) as (Hok & _ & Hlive & Hzero & Hall).
    rewrite Hlen in *.
    assert (Hold : ∀ j, e_id (slot (record_all fresh_table es) j) = e_id first →
                   slot (record_all fresh_table es) j = zero_entry).
    { intros j Hid. destruct (Hall j) as [Hz|(i & Hi & _ & Hlook)]; [done|].
      assert (i = 0%nat); [|lia].
      apply (NoDup_lookup _ i 0%nat (e_id first) Hnodup).
      - by rewrite list_lookup_fmap, Hlook, <- Hid.
      - by rewrite list_lookup_fmap, Hfirst. }
    split; [|split; [|split]].
    + destruct (ring_inv_record_all (take 31 es)) as (_ & _ & Hlive' & _ & _).
      apply (Hlive' 0%nat).
      * rewrite length_take. lia.
      * by rewrite lookup_take_lt by lia.
    + destruct (lookup_lt_is_Some_2 es 31) as [e31 He31]; [lia|].
      rewrite He31. f_equal. symmetry. apply (Hlive 31%nat); [lia|done].
    + intros Hnz. apply resolve_from_none. intros j _ Hid.
      apply Hold in Hid as Hz. rewrite Hz in Hid. simpl in Hid. congruence.
    + intros Hz. apply resolve_from_any.
      * exists 31%nat. split; [unfold TABLE_SIZE; lia|]. rewrite Hzero by lia. by rewrite Hz.
      * intros j _ Hid. by rewrite (Hold j Hid).
Qed.

(** ** The tables the loop can reach *)

Lemma decide_query_pending cfg st h bad name type class failed :
  let '(_, st', _) := decide_query cfg st h bad name type class failed in
  pending st' = pending st ∨ ∃ e, pending st' = record_entry (pending st) e.
Proof.
  unfold decide_query.
  destruct ((type <=? 0) || (class <=? 0) || bad); [by left|].
  destruct (negb (type =? 1) || negb (class =? 1)); [by left|].
  destruct (isBlacklisted (blacklist cfg) name); [by left|].
  right. by exists (Entry (hdr_id h) (sin_port (clientAddress st)) (sin_addr (clientAddress st))).
Qed.

Lemma client_question_pending cfg st r failed continue st' out :
  client_question cfg st r failed = Ok (continue, st', out) →
  pending st' = pending st ∨ ∃ e, pending st' = record_entry (pending st) e.
Proof.
  destruct r as [|data src]; unfold client_question.
  - intros [= _ <- _]. by left.
  - intros H. apply bind_ok_inv in H as ([[name type] class] & _ & H).
    injection H as H.
    match type of H with
    | decide_query ?a ?b ?c ?d ?e ?f ?g ?h = _ =>
        pose proof (decide_query_pending a b c d e f g h) as Hp
    end.
    rewrite H in Hp. done.
Qed.

Lemma server_answer_pending cfg st r st' out :
  server_answer cfg st r = Ok (st', out) → pending st' = pending st.
Proof.
  destruct r as [|data src]; unfold server_answer.
  - by intros [= <- _].
  - intros H. apply bind_ok_inv in H as ([[name type] class] & _ & H).
    destruct (resolve _ _) as [[port addr]|]; by injection H as <- _.
Qed.

Lemma defined_app out1 out2 : defined (out1 ++ out2) ↔ defined out1 ∧ defined out2.
Proof. apply Forall_app. Qed.

Lemma client_branch_defined cfg st r failed fr continue st' out :
  client_branch cfg st r failed fr = (continue, st', out) → defined out →
  client_question cfg st r failed = Ok (continue, st', out).
Proof.
  unfold client_branch, client_question. destruct r as [|data src].
  - by intros [= <- <- <-].
  - cbv zeta. destruct (if badPacket _ then _ else _) as [[[name ty] cl]|f].
    + by intros <- _.
    + destruct (decide_query _ _ _ _ _ _ _ _) as [[c1 s1] o1].
      intros [= _ _ <-] Hd. by inversion Hd.
Qed.

Lemma server_branch_defined cfg st r failed fr st' out :
  server_branch cfg st r failed fr = (st', out) → defined out →
  server_answer cfg st r = Ok (st', out).
Proof.
  destruct r as [|data tmpAddress].
  - unfold server_branch, server_answer. by intros [= <- <-].
  - intros H Hd.
    destruct (getDnsRequestData (recv_into (resp_buffer st) data) None None)
      as [[[tmpName ty] cl]|f] eqn:Hdec.
    + destruct (server_answer cfg st (Datagram data tmpAddress)) as [[st2 out2]|f] eqn:Hs.
      * rewrite (server_branch_ok _ _ _ failed fr _ _ Hs) in H. by injection H as -> ->.
      * unfold server_answer in Hs. cbn [recvfrom resp_buffer] in Hs.
        rewrite Hdec, ok_bind in Hs. by destruct (resolve _ _) as [[port addr]|].
    + unfold server_branch in H. rewrite (at_lookup_fault _ _ _ _ Hdec) in H.
      destruct (answer_lookup _ _ _) as [st2 out2]. injection H as _ <-.
      apply defined_app in Hd as [_ Hd]. by inversion Hd.
Qed.

Lemma iteration_pending cfg st w st' out :
  iteration cfg st w = Polling st' out → defined out →
  pending st' = pending st ∨ ∃ e, pending st' = record_entry (pending st) e.
Proof.
  unfold iteration. destruct (poll_failed w); [done|].
  destruct (match client_in w with
            | Some r => client_branch cfg st r (sendto_failed w) (stray w)
            | None => (false, st, [])
            end) as [[continue st1] out1] eqn:Hc.
  intros H Hd.
  assert (H1 : defined out1 →
               pending st1 = pending st ∨ ∃ e, pending st1 = record_entry (pending st) e).
  { intros Hd1. destruct (client_in w) as [r|].
    - apply client_branch_defined in Hc; [|done]. by apply client_question_pending in Hc.
    - injection Hc as _ <- _. by left. }
  destruct continue; [injection H as <- <-; by apply H1|].
  destruct (server_in w) as [r|]; [|injection H as <- <-; by apply H1].
  destruct (server_branch cfg st1 r _ _) as [st2 out2] eqn:Hs. injection H as <- <-.
  apply defined_app in Hd as [Hd1 Hd2].
  apply server_branch_defined in Hs; [|done].
  apply server_answer_pending in Hs. rewrite Hs. by apply H1.
Qed.

(** As long as no walk has left its arrays, every table the loop reaches
    is the table it started from with some entries recorded. *)
Lemma run_pending cfg ws :
  ∀ st st' out, run cfg st ws = Polling st' out → defined out →
  ∃ es, pending st' = record_all (pending st) es.
Proof.
  induction ws as [|w ws IH]; intros st st' out H Hd; simpl in H.
  - injection H as <- _. by exists [].
  - destruct (iteration cfg st w) as [st1 out1|] eqn:Ho; [|done].
    destruct (run cfg st1 ws) as [st2 out2|] eqn:Ho'; [|done].
    injection H as <- <-. apply defined_app in Hd as [Hd1 Hd2].
    apply IH in Ho' as [es Hes]; [|done].
    apply iteration_pending in Ho as [Hsame|[e He]]; [| |done].
    + exists es. by rewrite Hes, Hsame.
    + exists (e :: es). by rewrite Hes, He.
Qed.

Lemma run_pending_initial cfg heap addr ws st' out :
  run cfg (initial_state heap addr) ws = Polling st' out → defined out →
  ∃ es, pending st' = record_all fresh_table es.
Proof. intros H Hd. by apply run_pending in H. Qed.

(** C10.  The table starts as zeros in every slot.  In every table reached
    by recording entries in it, as long as no live entry (one that was not
    overwritten since) has the identifier 0, looking 0 up finds a slot of
    zeros: port 0, address 0.  So an upstream answer for which line 524
    looks up the identifier 0 in such a table is sent to address 0, port 0
    and not dropped; and when the walk over the name of the answer has
    stayed inside its arrays, that is every answer with the identifier 0
    that arrives in such a state.  ([run_pending_initial]: the tables the
    loop reaches from its start are of this kind.) *)
Theorem zero_id_matches :
  (∀ j, slot fresh_table j = zero_entry)
  ∧ (∀ es : list entry,
       Forall (λ e, e_id e ≠ 0) (live es) →
       resolve (record_all fresh_table es) 0 = Some (0, 0))
  ∧ (∀ (cfg : config) (st : state) (es : list entry) (data : list Z)
       (tmpAddress : sockaddr_in) (failed : bool) (fr : frame),
       pending (at_lookup st data fr).1.1.1 = record_all fresh_table es →
       Forall (λ e, e_id e ≠ 0) (live es) →
       hdr_id (at_lookup st data fr).1.1.2 = 0 →
       ∃ st' out,
         server_branch cfg st (Datagram data tmpAddress) failed fr = (st', out)
         ∧ client_payloads out = [(received_octets data, SockAddr 0 0)])
  ∧ (∀ (st : state) (data : list Z) (fr : frame),
       is_ok (getDnsRequestData (recv_into (resp_buffer st) data) None None) = true →
       pending (at_lookup st data fr).1.1.1 = pending st
       ∧ (at_lookup st data fr).1.1.2 = header_of (recv_into (resp_buffer st) data)).
Proof.
  split; [apply slot_fresh|]. split; [apply resolve_zero_id|]. split.
  - intros cfg st es data tmpAddress failed fr Hst Hlive Hid.
    destruct (server_branch_resolved cfg st data tmpAddress failed fr 0 0)
      as (st' & out & Hs & Hcl & _).
    + rewrite Hid, Hst. by apply resolve_zero_id.
    + by exists st', out.
  - intros st data fr Hok.
    destruct (getDnsRequestData _ None None) as [[[tmpName ty] cl]|] eqn:Hdec; [|done].
    by rewrite (at_lookup_ok _ _ _ _ _ _ Hdec).
Qed.

(** ** The invariant of the loop *)

Lemma length_put_header rcode buffer :
  length buffer = Z.to_nat BUFFER_SIZE →
  length (put_header (answer_header rcode (header_of buffer)) buffer)
  = Z.to_nat BUFFER_SIZE.
Proof.
  intros Hb. unfold put_header, header_of.
  rewrite length_app, length_answer_header, length_take, length_drop, Hb.
  change (Z.to_nat HEADER_SIZE) with 12%nat. change (Z.to_nat BUFFER_SIZE) with 1000%nat.
  lia.
Qed.

Lemma decide_query_state_ok cfg st h bad name type class failed :
  h = header_of (resp_buffer st) →
  state_ok st →
  state_ok (decide_query cfg st h bad name type class failed).1.2.
Proof.
  intros -> [Hb Ht]. unfold decide_query.
  destruct ((type <=? 0) || (class <=? 0) || bad);
    [split; [by apply length_put_header|done]|].
  destruct (negb (type =? 1) || negb (class =? 1));
    [split; [by apply length_put_header|done]|].
  destruct (isBlacklisted (blacklist cfg) name);
    [split; [by apply length_put_header|done]|].
  split; [done|]. by apply record_counter_range.
Qed.

Lemma client_question_state_ok cfg st r failed continue st' out :
  state_ok st → client_question cfg st r failed = Ok (continue, st', out) → state_ok st'.
Proof.
  intros [Hb Ht]. destruct r as [|data src]; unfold client_question.
  - by intros [= _ <- _].
  - intros H. apply bind_ok_inv in H as ([[name type] class] & _ & H).
    injection H as H.
    match type of H with
    | decide_query ?a ?b ?c ?d ?e ?f ?g ?h = _ =>
        pose proof (decide_query_state_ok a b c d e f g h eq_refl) as Hok
    end.
    rewrite H in Hok. apply Hok. split; [|done]. by apply length_recv_into.
Qed.

Lemma server_answer_state_ok cfg st r st' out :
  state_ok st → server_answer cfg st r = Ok (st', out) → state_ok st'.
Proof.
  intros [Hb Ht]. destruct r as [|data src]; unfold server_answer.
  - by intros [= <- _].
  - intros H. apply bind_ok_inv in H as ([[name type] class] & _ & H).
    destruct (resolve _ _) as [[port addr]|]; injection H as <- _;
      (split; [by apply length_recv_into|done]).
Qed.

(** The buffer keeps its 1000 octets, the arrays their 32 elements, and the
    counter stays in 0..30: every store of the loop into the table is
    inside the arrays. *)
Lemma iteration_defined cfg st w st' out :
  iteration cfg st w = Polling st' out → defined out →
  ∃ continue st1 out1,
    match client_in w with
    | Some r => client_question cfg st r (sendto_failed w)
    | None => Ok (false, st, [])
    end = Ok (continue, st1, out1)
    ∧ if (continue : bool) then st' = st1 ∧ out = out1
      else match server_in w with
           | Some r => ∃ out2, server_answer cfg st1 r = Ok (st', out2)
                               ∧ out = out1 ++ out2
           | None => st' = st1 ∧ out = out1
           end.
Proof.
  unfold iteration. destruct (poll_failed w); [done|].
  destruct (match client_in w with
            | Some r => client_branch cfg st r (sendto_failed w) (stray w)
            | None => (false, st, [])
            end) as [[continue st1] out1] eqn:Hc.
  intros H Hd. exists continue, st1, out1.
  assert (Hd1 : defined out1).
  { destruct continue; [by injection H as _ <-|].
    destruct (server_in w) as [r|]; [|by injection H as _ <-].
    destruct (server_branch cfg st1 r _ _) as [st2 out2]. injection H as _ <-.
    by apply defined_app in Hd as [Hd1 _]. }
  split.
  { destruct (client_in w) as [r|]; [|by rewrite Hc].
    by apply client_branch_defined in Hc. }
  destruct continue; [by injection H as <- <-|].
  destruct (server_in w) as [r|]; [|by injection H as <- <-].
  destruct (server_branch cfg st1 r _ _) as [st2 out2] eqn:Hs. injection H as <- <-.
  apply defined_app in Hd as [_ Hd2]. exists out2. split; [|done].
  by apply server_branch_defined in Hs.
Qed.

Lemma iteration_state_ok cfg st w st' out :
  state_ok st → iteration cfg st w = Polling st' out → defined out → state_ok st'.
Proof.
  intros Hok H Hd.
  destruct (iteration_defined _ _ _ _ _ H Hd) as (continue & st1 & out1 & Hc & Hrest).
  assert (H1 : state_ok st1).
  { destruct (client_in w) as [r|].
    - by apply (client_question_state_ok _ _ _ _ _ _ _ Hok) in Hc.
    - by injection Hc as _ <- _. }
  destruct continue; [by destruct Hrest as [-> _]|].
  destruct (server_in w) as [r|]; [|by destruct Hrest as [-> _]].
  destruct Hrest as (out2 & Hs & _).
  by apply (server_answer_state_ok _ _ _ _ _ H1) in Hs.
Qed.

Lemma run_state_ok cfg ws :
  ∀ st st' out,
    state_ok st → run cfg st ws = Polling st' out → defined out → state_ok st'.
Proof.
  induction ws as [|w ws IH]; intros st st' out Hok H Hd; simpl in H.
  - by injection H as <- _.
  - destruct (iteration cfg st w) as [st1 out1|] eqn:Ho; [|done].
    destruct (run cfg st1 ws) as [st2 out2|] eqn:Ho'; [|done].
    injection H as <- <-. apply defined_app in Hd as [Hd1 Hd2].
    apply (IH st1 st2 out2); [|done|done].
    by apply (iteration_state_ok _ _ _ _ _ Hok) in Ho.
Qed.

Lemma state_ok_initial heap addr :
  length heap = Z.to_nat BUFFER_SIZE → state_ok (initial_state heap addr).
Proof. intros Hh. split; [done|apply table_ok_fresh]. Qed.

(** ** getDnsRequestData: termination *)

Lemma bind_no_fuel_fault {A B} (m : res A) (k : A → res B) :
  m ≠ Fault OutOfFuel → (∀ a, m = Ok a → k a ≠ Fault OutOfFuel) →
  m ≫= k ≠ Fault OutOfFuel.
Proof.
  destruct m as [a|f]; intros Hm Hk; [by apply Hk|].
  unfold mbind, res_bind. intros [= ->]. by apply Hm.
Qed.

Lemma load_no_fuel_fault mem i : load mem i ≠ Fault OutOfFuel.
Proof. unfold load. destruct (i <? 0); [done|]. by destruct (mem !! Z.to_nat i). Qed.

Lemma load_ok mem i b : load mem i = Ok b → 0 <= i < Z.of_nat (length mem).
Proof.
  unfold load. destruct (i <? 0) eqn:E; [done|]. apply Z.ltb_ge in E.
  destruct (mem !! Z.to_nat i) eqn:El; [|done]. intros _.
  apply lookup_lt_Some in El. lia.
Qed.

Lemma store_url_no_fuel_fault url c : store_url url c ≠ Fault OutOfFuel.
Proof. unfold store_url. by destruct (counterDst url <? NAME_SIZE). Qed.

Lemma read_short_no_fuel_fault ptr i dst : read_short ptr i dst ≠ Fault OutOfFuel.
Proof.
  destruct dst; [|done]. simpl.
  apply bind_no_fuel_fault; [apply load_no_fuel_fault|]. intros hi _.
  apply bind_no_fuel_fault; [apply load_no_fuel_fault|]. done.
Qed.

(** One round of each loop. *)
Lemma copy_label_S fuel ptr limit counter url :
  copy_label (S fuel) ptr limit counter url
  = if counter <=? limit then
      c ← load ptr counter;
      url' ← store_url url c;
      copy_label fuel ptr limit (counter + 1) url'
    else Ok (counter, url).
Proof. reflexivity. Qed.

Lemma name_loop_S fuel ptr sum offset counter url :
  name_loop (S fuel) ptr sum offset counter url
  = if sum =? 0 then Ok (counter, url)
    else
      url1 ← (if offset =? 0 then Ok url else store_url url 46);
      '(counter1, url2) ← copy_label (S (length ptr)) ptr (offset + sum) counter url1;
      c ← load ptr counter1;
      name_loop fuel ptr (char_to_int c) counter1 (counter1 + 1) url2.
Proof. reflexivity. Qed.

(** The inner loop only moves [counter] forward. *)
Lemma copy_label_counter fuel ptr limit :
  ∀ counter url counter' url',
    copy_label fuel ptr limit counter url = Ok (counter', url') → counter <= counter'.
Proof.
  induction fuel as [|fuel IH]; intros counter url counter' url' H; [done|].
  simpl in H. destruct (counter <=? limit).
  - apply bind_ok_inv in H as (c & _ & H). apply bind_ok_inv in H as (url1 & _ & H).
    apply IH in H. lia.
  - injection H as <- _. lia.
Qed.

(** The inner loop ends: each round reads [ptr[counter]] with a larger
    [counter], which faults beyond the array. *)
Lemma copy_label_terminates fuel ptr limit :
  ∀ counter url,
    (1 <= fuel)%nat → Z.of_nat (length ptr) - counter + 1 <= Z.of_nat fuel →
    copy_label fuel ptr limit counter url ≠ Fault OutOfFuel.
Proof.
  induction fuel as [|fuel IH]; intros counter url H1 Hfuel; [lia|].
  simpl. destruct (counter <=? limit); [|done].
  apply bind_no_fuel_fault; [apply load_no_fuel_fault|]. intros c Hc.
  apply load_ok in Hc.
  apply bind_no_fuel_fault; [apply store_url_no_fuel_fault|]. intros url1 _.
  apply IH; lia.
Qed.

(** So does the outer loop. *)
Lemma name_loop_terminates fuel ptr :
  ∀ sum offset counter url,
    (1 <= fuel)%nat → Z.of_nat (length ptr) - counter + 1 <= Z.of_nat fuel →
    0 <= counter →
    name_loop fuel ptr sum offset counter url ≠ Fault OutOfFuel.
Proof.
  induction fuel as [|fuel IH]; intros sum offset counter url H1 Hfuel Hc; [lia|].
  rewrite name_loop_S. destruct (sum =? 0); [done|].
  apply bind_no_fuel_fault.
  { destruct (offset =? 0); [done|apply store_url_no_fuel_fault]. }
  intros url1 _.
  apply bind_no_fuel_fault.
  { apply (copy_label_terminates (S (length ptr))); lia. }
  intros [counter1 url2] Hcopy. apply copy_label_counter in Hcopy.
  apply bind_no_fuel_fault; [apply load_no_fuel_fault|]. intros c Hload.
  apply load_ok in Hload. apply IH; lia.
Qed.

Lemma getDnsRequestData_terminates buffer type class :
  getDnsRequestData buffer type class ≠ Fault OutOfFuel.
Proof.
  unfold getDnsRequestData.
  apply bind_no_fuel_fault; [apply load_no_fuel_fault|]. intros c0 _.
  apply bind_no_fuel_fault.
  { apply name_loop_terminates; lia. }
  intros [counter url] _.
  apply bind_no_fuel_fault.
  { by destruct (counterDst url <? NAME_SIZE). }
  intros _ _.
  apply bind_no_fuel_fault; [apply read_short_no_fuel_fault|]. intros type' _.
  apply bind_no_fuel_fault; [apply read_short_no_fuel_fault|]. done.
Qed.

(** ** getDnsRequestData: well-formed questions *)

Lemma load_app (pre rest : list Z) (i b : Z) :
  0 <= i → rest !! Z.to_nat i = Some b →
  load (pre ++ rest) (Z.of_nat (length pre) + i) = Ok b.
Proof.
  intros Hi Hb. unfold load.
  destruct (Z.of_nat (length pre) + i <? 0) eqn:E1; [apply Z.ltb_lt in E1; lia|].
  replace (Z.to_nat (Z.of_nat (length pre) + i)) with (length pre + Z.to_nat i)%nat by lia.
  rewrite lookup_app_r by lia.
  replace (length pre + Z.to_nat i - length pre)%nat with (Z.to_nat i) by lia.
  by rewrite Hb.
Qed.

Lemma load_middle (pre rest : list Z) (b : Z) :
  load (pre ++ b :: rest) (Z.of_nat (length pre)) = Ok b.
Proof.
  replace (Z.of_nat (length pre)) with (Z.of_nat (length pre) + 0) by lia.
  by apply load_app.
Qed.

Lemma store_url_ok url c :
  (length url < 512)%nat → store_url url c = Ok (url ++ [c]).
Proof.
  intros H. unfold store_url, counterDst, NAME_SIZE.
  destruct (Z.of_nat (length url) <? 512) eqn:E; [done|apply Z.ltb_ge in E; lia].
Qed.

(** The inner loop copies a label that lies in the packet. *)
Lemma copy_label_copies (l : list Z) :
  ∀ (fuel : nat) (pre rest url : list Z),
    (length l < fuel)%nat →
    (length url + length l <= 512)%nat →
    copy_label fuel (pre ++ l ++ rest)
      (Z.of_nat (length pre + length l) - 1) (Z.of_nat (length pre)) url
    = Ok (Z.of_nat (length pre + length l), url ++ l).
Proof.
  induction l as [|b l IH]; intros fuel pre rest url Hfuel Hroom;
    (destruct fuel as [|fuel]; [simpl in Hfuel; lia|]); rewrite copy_label_S.
  - simpl. destruct (Z.of_nat (length pre) <=? Z.of_nat (length pre + 0) - 1) eqn:E;
      [apply Z.leb_le in E; lia|].
    by rewrite Nat.add_0_r, app_nil_r.
  - simpl in Hfuel, Hroom.
    destruct (Z.of_nat (length pre) <=? Z.of_nat (length pre + length (b :: l)) - 1) eqn:E;
      [|apply Z.leb_gt in E; simpl in E; lia].
    change ((b :: l) ++ rest) with (b :: l ++ rest).
    rewrite load_middle. unfold mbind at 1, res_bind at 1.
    rewrite store_url_ok by lia. unfold mbind at 1, res_bind at 1.
    replace (pre ++ b :: l ++ rest) with ((pre ++ [b]) ++ l ++ rest)
      by (by rewrite <- app_assoc).
    replace (Z.of_nat (length pre + length (b :: l)) - 1)
      with (Z.of_nat (length (pre ++ [b]) + length l) - 1)
      by (rewrite length_app; simpl; lia).
    replace (Z.of_nat (length pre) + 1) with (Z.of_nat (length (pre ++ [b])))
      by (rewrite length_app; simpl; lia).
    rewrite IH by (rewrite ?length_app; simpl; lia).
    rewrite <- app_assoc. do 2 f_equal. rewrite length_app. simpl. lia.
Qed.

Lemma char_to_int_small b : 0 <= b < 128 → char_to_int b = b.
Proof.
  intros H. unfold char_to_int. destruct (b <? 128) eqn:E; [done|].
  apply Z.ltb_ge in E. lia.
Qed.

Lemma next_length_small ls :
  Forall (λ l, 1 <= length l <= 127)%nat ls → 0 <= next_length ls < 128.
Proof. intros [|l ls' Hl _]; simpl; lia. Qed.

Lemma encoded_head ls tail :
  concat (map encode_label ls) ++ 0 :: tail
  = next_length ls :: drop 1 (concat (map encode_label ls) ++ 0 :: tail).
Proof. by destruct ls. Qed.

(** The outer loop on a well-formed sequence of labels. *)
Lemma name_loop_labels (ls : list (list Z)) :
  ∀ (fuel : nat) (pre tail url : list Z),
    Forall (λ l, 1 <= length l <= 127)%nat ls →
    (length ls < fuel)%nat →
    (length url + length (written (bool_decide (length pre = 0%nat)) ls) <= 512)%nat →
    name_loop fuel (pre ++ concat (map encode_label ls) ++ 0 :: tail)
      (next_length ls) (Z.of_nat (length pre)) (Z.of_nat (length pre) + 1) url
    = Ok (Z.of_nat (length pre + length (concat (map encode_label ls))) + 1,
          url ++ written (bool_decide (length pre = 0%nat)) ls).
Proof.
  induction ls as [|l ls IH]; intros fuel pre tail url Hls Hfuel Hroom;
    (destruct fuel as [|fuel]; [simpl in Hfuel; lia|]).
  - rewrite name_loop_S. simpl. rewrite Nat.add_0_r.
    by destruct (bool_decide (length pre = 0%nat)); rewrite app_nil_r.
  - inversion Hls as [|l' ls' Hl Hls']; subst l' ls'.
    simpl in Hfuel.
    set (first := bool_decide (length pre = 0%nat)) in *.
    set (url1 := if first then url else url ++ [46]).
    set (rest := concat (map encode_label ls) ++ 0 :: tail).
    set (pre1 := pre ++ [Z.of_nat (length l)]).
    assert (Hpre1 : length pre1 = S (length pre)).
    { unfold pre1. rewrite length_app. simpl. lia. }
    assert (Hptr : pre ++ concat (map encode_label (l :: ls)) ++ 0 :: tail
                   = pre1 ++ l ++ rest).
    { unfold rest, pre1, encode_label. simpl. by rewrite <- !app_assoc. }
    assert (Henc : length (concat (map encode_label (l :: ls)))
                   = S (length l + length (concat (map encode_label ls)))).
    { simpl. by rewrite length_app. }
    assert (Hout : written first (l :: ls) = (if first then [] else [46]) ++ l
                   ++ written false ls).
    { unfold written. destruct first; simpl; done. }
    rewrite Hptr, Henc, Hout. rewrite Hout, !length_app in Hroom.
    rewrite name_loop_S.
    change (next_length (l :: ls)) with (Z.of_nat (length l)).
    destruct (Z.of_nat (length l) =? 0) eqn:E; [apply Z.eqb_eq in E; lia|]. clear E.
    assert (Hurl1 : (if Z.of_nat (length pre) =? 0 then Ok url else store_url url 46)
                    = Ok url1).
    { unfold url1, first in *. destruct (Z.of_nat (length pre) =? 0) eqn:E.
      - apply Z.eqb_eq in E. by rewrite bool_decide_eq_true_2 by lia.
      - apply Z.eqb_neq in E. rewrite bool_decide_eq_false_2 by lia. apply store_url_ok.
        rewrite bool_decide_eq_false_2 in Hroom by lia. simpl in Hroom. lia. }
    rewrite Hurl1. unfold mbind at 1, res_bind at 1.
    assert (Hlen1 : (length url1 + length l + length (written false ls) <= 512)%nat).
    { unfold url1. destruct first; rewrite ?length_app; simpl in *; lia. }
    replace (Z.of_nat (length pre) + Z.of_nat (length l))
      with (Z.of_nat (length pre1 + length l) - 1) by lia.
    replace (Z.of_nat (length pre) + 1) with (Z.of_nat (length pre1)) by lia.
    rewrite copy_label_copies by (rewrite ?length_app; lia).
    unfold mbind at 1, res_bind at 1.
    assert (Hload : load (pre1 ++ l ++ rest) (Z.of_nat (length pre1 + length l))
                    = Ok (next_length ls)).
    { rewrite app_assoc, <- length_app. unfold rest. rewrite encoded_head.
      apply load_middle. }
    rewrite Hload. unfold mbind at 1, res_bind at 1.
    rewrite char_to_int_small by by apply next_length_small.
    specialize (IH fuel (pre1 ++ l) tail (url1 ++ l) Hls').
    rewrite bool_decide_eq_false_2 in IH by (rewrite length_app; lia).
    fold rest in IH. rewrite <- app_assoc in IH.
    rewrite <- (length_app pre1 l).
    rewrite IH by (rewrite ?length_app; lia).
    f_equal. f_equal.
    + rewrite length_app. lia.
    + unfold url1. destruct first; by rewrite <- ?app_assoc.
Qed.

Lemma length_encoded ls : (length ls <= length (concat (map encode_label ls)))%nat.
Proof.
  induction ls as [|l ls IH]; simpl; [lia|]. rewrite length_app. lia.
Qed.

(** The walk from the first octet of the question. *)
Lemma name_loop_question (ls : list (list Z)) (fuel : nat) (tail : list Z) :
  Forall (λ l, 1 <= length l <= 127)%nat ls →
  (length ls < fuel)%nat →
  (length (dotted ls) <= 512)%nat →
  name_loop fuel (concat (map encode_label ls) ++ 0 :: tail) (next_length ls) 0 1 []
  = Ok (Z.of_nat (length (concat (map encode_label ls))) + 1, dotted ls).
Proof.
  intros Hls Hfuel Hroom. exact (name_loop_labels ls fuel [] tail [] Hls Hfuel Hroom).
Qed.

Lemma read_short_at (pre rest : list Z) (v : Z) (dst : option Z) (k : Z) :
  0 <= k →
  rest !! Z.to_nat k = Some (v / 256) →
  rest !! Z.to_nat (k + 1) = Some (v mod 256) →
  read_short (pre ++ rest) (Z.of_nat (length pre) + k) dst = Ok ((λ _, v) <$> dst).
Proof.
  intros Hk Hhi Hlo. destruct dst as [old|]; [|done]. simpl.
  rewrite (load_app pre rest k (v / 256)) by done. unfold mbind at 1, res_bind at 1.
  replace (Z.of_nat (length pre) + k + 1) with (Z.of_nat (length pre) + (k + 1)) by lia.
  rewrite (load_app pre rest (k + 1) (v mod 256)) by (done || lia).
  unfold mbind, res_bind, ntohs_octets. do 2 f_equal.
  pose proof (Z.div_mod v 256). lia.
Qed.

(** On a packet whose question is a sequence of labels of 1 to 127 octets
    closed by a zero octet, with the type and the class behind it, and
    whose name with its dots has fewer than 512 octets, the function
    stays inside both arrays and returns the name, the type and the
    class. *)
Lemma getDnsRequestData_question (hdr : list Z) (ls : list (list Z))
    (qtype qclass : Z) (tail : list Z) (type class : option Z) :
  length hdr = 12%nat →
  Forall (λ l, 1 <= length l <= 127)%nat ls →
  (length (dotted ls) < 512)%nat →
  getDnsRequestData (hdr ++ encode_question ls qtype qclass ++ tail) type class
  = Ok (dotted ls, (λ _, qtype) <$> type, (λ _, qclass) <$> class).
Proof.
  intros Hhdr Hls Hname. unfold getDnsRequestData.
  change (Z.to_nat HEADER_SIZE) with 12%nat. rewrite drop_app_length' by done.
  unfold encode_question.
  set (enc := concat (map encode_label ls)).
  set (qt := [qtype / 256; qtype mod 256; qclass / 256; qclass mod 256] ++ tail).
  assert (Hptr : (enc ++ [0; qtype / 256; qtype mod 256; qclass / 256; qclass mod 256])
                 ++ tail = enc ++ 0 :: qt).
  { unfold qt. simpl. by rewrite <- app_assoc. }
  rewrite Hptr.
  assert (Hload : load (enc ++ 0 :: qt) 0 = Ok (next_length ls)).
  { unfold enc. rewrite encoded_head. done. }
  rewrite Hload. unfold mbind at 1, res_bind at 1.
  rewrite char_to_int_small by by apply next_length_small.
  pose proof (name_loop_question ls (S (length (enc ++ 0 :: qt))) qt Hls) as Hloop.
  fold enc in Hloop. rewrite Hloop; [| |lia].
  - unfold mbind at 1, res_bind at 1.
    unfold counterDst, NAME_SIZE.
    destruct (Z.of_nat (length (dotted ls)) <? 512) eqn:E;
      [|apply Z.ltb_ge in E; lia].
    unfold mbind at 1, res_bind at 1.
    replace (enc ++ 0 :: qt) with ((enc ++ [0]) ++ qt) by (by rewrite <- app_assoc).
    replace (Z.of_nat (length enc) + 1) with (Z.of_nat (length (enc ++ [0])) + 0)
      by (rewrite length_app; simpl; lia).
    rewrite (read_short_at (enc ++ [0]) qt qtype type 0) by done.
    unfold mbind at 1, res_bind at 1.
    replace (Z.of_nat (length (enc ++ [0])) + 0 + 2)
      with (Z.of_nat (length (enc ++ [0])) + 2) by lia.
    rewrite (read_short_at (enc ++ [0]) qt qclass class 2) by done.
    done.
  - rewrite length_app. pose proof (length_encoded ls) as Hle.
    fold enc in Hle. lia.
Qed.

(** C5, as the code has it.  [getDnsRequestData] always terminates, but
    it takes neither the length of the datagram nor a bound for the name
    and it has no error result.  It stays inside the receive buffer and
    inside the 512 octets of the name, and returns the name with its
    dots, the type and the class, on every packet whose question is a
    sequence of labels of 1 to 127 octets closed by a zero octet and
    followed by type and class, provided the name with its dots is
    shorter than 512 octets. *)
Theorem decode_terminates_unchecked :
  (∀ (buffer : list Z) (type class : option Z),
     getDnsRequestData buffer type class ≠ Fault OutOfFuel)
  ∧ (∀ (hdr : list Z) (ls : list (list Z)) (qtype qclass : Z) (tail : list Z)
       (type class : option Z),
       length hdr = 12%nat →
       Forall (λ l, 1 <= length l <= 127)%nat ls →
       (length (dotted ls) < 512)%nat →
       getDnsRequestData (hdr ++ encode_question ls qtype qclass ++ tail) type class
       = Ok (dotted ls, (λ _, qtype) <$> type, (λ _, qclass) <$> class)).
Proof.
  split.
  - apply getDnsRequestData_terminates.
  - apply getDnsRequestData_question.
Qed.

(** A length octet above 127 is a negative [sum]: the inner loop does not
    run. *)
Lemma copy_label_negative fuel ptr sum offset counter url :
  sum < 0 → offset < counter →
  copy_label (S fuel) ptr (offset + sum) counter url = Ok (counter, url).
Proof.
  intros Hs Ho. rewrite copy_label_S.
  destruct (counter <=? offset + sum) eqn:E; [apply Z.leb_le in E; lia|done].
Qed.

Lemma char_to_int_high c : 128 <= c < 256 → char_to_int c = c - 256.
Proof.
  intros H. unfold char_to_int. destruct (c <? 128) eqn:E; [|done].
  apply Z.ltb_lt in E. lia.
Qed.

(** C6, as the code has it.  A length octet with the two high bits set is
    not an error for [getDnsRequestData]: read through a [char] it is a
    negative length, for which the loop copies nothing; it writes a dot
    (unless the octet is the first of the name) and goes on with the next
    octet as a length.  In particular, when such an octet stands before a
    well-formed sequence of labels the function returns those labels,
    each with a dot in front. *)
Theorem pointer_octet_skipped :
  (∀ (fuel : nat) (ptr : list Z) (c offset counter : Z) (url : list Z),
     192 <= c < 256 → offset < counter →
     name_loop (S fuel) ptr (char_to_int c) offset counter url
     = (url1 ← (if offset =? 0 then Ok url else store_url url 46);
        next ← load ptr counter;
        name_loop fuel ptr (char_to_int next) counter (counter + 1) url1))
  ∧ (∀ (hdr : list Z) (c : Z) (ls : list (list Z)) (qtype qclass : Z)
       (tail : list Z) (type class : option Z),
       192 <= c < 256 →
       length hdr = 12%nat →
       Forall (λ l, 1 <= length l <= 127)%nat ls →
       (length (written false ls) < 512)%nat →
       getDnsRequestData (hdr ++ c :: encode_question ls qtype qclass ++ tail) type class
       = Ok (written false ls, (λ _, qtype) <$> type, (λ _, qclass) <$> class)).
Proof.
  split.
  - intros fuel ptr c offset counter url Hc Ho.
    rewrite name_loop_S, char_to_int_high by lia.
    destruct (c - 256 =? 0) eqn:E; [apply Z.eqb_eq in E; lia|].
    destruct (if offset =? 0 then Ok url else store_url url 46) as [url1|f]; [|done].
    rewrite !ok_bind. rewrite copy_label_negative by lia. by rewrite ok_bind.
  - intros hdr c ls qtype qclass tail type class Hc Hhdr Hls Hname.
    unfold getDnsRequestData.
    change (Z.to_nat HEADER_SIZE) with 12%nat. rewrite drop_app_length' by done.
    unfold encode_question.
    set (enc := concat (map encode_label ls)).
    set (qt := [qtype / 256; qtype mod 256; qclass / 256; qclass mod 256] ++ tail).
    assert (Hptr : c :: (enc ++ [0; qtype / 256; qtype mod 256; qclass / 256;
                                 qclass mod 256]) ++ tail = [c] ++ enc ++ 0 :: qt).
    { unfold qt. simpl. by rewrite <- app_assoc. }
    rewrite Hptr.
    change (load ([c] ++ enc ++ 0 :: qt) 0) with (Ok (A := Z) c).
    rewrite ok_bind.
    rewrite name_loop_S, char_to_int_high by lia.
    destruct (c - 256 =? 0) eqn:E; [apply Z.eqb_eq in E; lia|]. clear E.
    change (0 =? 0) with true. cbv iota. rewrite ok_bind.
    rewrite copy_label_negative by lia. rewrite ok_bind.
    assert (Hload : load ([c] ++ enc ++ 0 :: qt) 1 = Ok (next_length ls)).
    { unfold enc. rewrite encoded_head. done. }
    rewrite Hload. rewrite ok_bind.
    rewrite char_to_int_small by by apply next_length_small.
    pose proof (name_loop_labels ls (length ([c] ++ enc ++ 0 :: qt)) [c] qt [] Hls)
      as Hloop.
    fold enc in Hloop.
    change (bool_decide (length [c] = 0%nat)) with false in Hloop.
    change (Z.of_nat (length [c])) with 1 in Hloop.
    change (1 + 1) with 2 in *.
    rewrite Hloop.
    + rewrite ok_bind. change ([] ++ written false ls) with (written false ls).
      unfold counterDst, NAME_SIZE.
      destruct (Z.of_nat (length (written false ls)) <? 512) eqn:E;
        [|apply Z.ltb_ge in E; lia].
      rewrite ok_bind.
      replace ([c] ++ enc ++ 0 :: qt) with (([c] ++ enc ++ [0]) ++ qt)
        by (by rewrite <- !app_assoc).
      replace (Z.of_nat (length [c] + length enc) + 1)
        with (Z.of_nat (length ([c] ++ enc ++ [0])) + 0)
        by (rewrite !length_app; simpl; lia).
      rewrite (read_short_at ([c] ++ enc ++ [0]) qt qtype type 0) by done.
      rewrite ok_bind.
      replace (Z.of_nat (length ([c] ++ enc ++ [0])) + 0 + 2)
        with (Z.of_nat (length ([c] ++ enc ++ [0])) + 2) by lia.
      rewrite (read_short_at ([c] ++ enc ++ [0]) qt qclass class 2) by done.
      done.
    + rewrite !length_app. pose proof (length_encoded ls) as Hle.
      fold enc in Hle. simpl. lia.
    + change (length (written false ls) <= 512)%nat. lia.
Qed.

(** ** The loop and its errors *)



Lemma iteration_polls cfg st w :
  poll_failed w = false → ∃ st' out, iteration cfg st w = Polling st' out.
Proof.
  intros Hp. unfold iteration. rewrite Hp.
  destruct (match client_in w with
            | Some r => client_branch cfg st r (sendto_failed w) (stray w)
            | None => (false, st, [])
            end) as [[continue st1] out1].
  destruct continue; [by eexists _, _|].
  destruct (server_in w) as [r|]; [|by eexists _, _].
  destruct (server_branch cfg st1 r _ _) as [st2 out2]. by eexists _, _.
Qed.






(** * Examples and counterexamples on sample data *)

Lemma octetsb_octets (l : list Z) : octetsb l = true → octets l.
Proof.
  unfold octetsb, octets. induction l as [|b l IH]; simpl; [constructor|].
  rewrite !andb_true_iff. intros [[H1 H2] Hl].
  apply Z.leb_le in H1. apply Z.ltb_lt in H2. constructor; [lia|by apply IH].
Qed.

Lemma isBlacklisted_false_inv (bl : blacklist_s) (name : list Z) :
  isBlacklisted bl name = false →
  ∀ entry, entry ∈ bl → ¬ substring entry (cstring name).
Proof.
  intros Hbl entry Hin Hsub.
  assert (isBlacklisted bl name = true) by (apply isBlacklisted_spec; eauto).
  congruence.
Qed.

Example decode_example_com :
  getDnsRequestData (pad_to 1000 (query 7 ["example"; "com"]%string 1 1)) (Some 0) (Some 0)
  = Ok (octets_of_string "example.com", Some 1, Some 1).
Proof. vm_compute. reflexivity. Qed.

(** The scenario of the specification: a query for ads.example.com with
    the entry ads in the blacklist is answered with code 5 and not passed
    on. *)
Example ads_example_com_refused :
  client_rcodes (question_output
    (client_question sample_config sample_state
       (Datagram (query 7 ["ads"; "example"; "com"]%string 1 1) sample_client) false))
  = [5]
  ∧ upstream_payloads (question_output
      (client_question sample_config sample_state
         (Datagram (query 7 ["ads"; "example"; "com"]%string 1 1) sample_client) false))
    = [].
Proof. vm_compute. done. Qed.

(** A zero octet inside a label ends the C string: the entry ads is not
    seen behind it and the query is passed on. *)
Example zero_octet_hides_name :
  upstream_payloads (question_output
    (client_question sample_config sample_state
       (Datagram (query_header 7 1 0 1 0
                  ++ encode_question [[120; 0; 97; 100; 115]; octets_of_string "com"] 1 1)
                 sample_client) false))
  = [query_header 7 1 0 1 0
     ++ encode_question [[120; 0; 97; 100; 115]; octets_of_string "com"] 1 1].
Proof. vm_compute. reflexivity. Qed.

(** A message with the response flag set is answered with code 1 without
    a look at its question, here one that the walk would not survive. *)
Example malformed_header_not_decoded :
  getDnsRequestData (recv_into (resp_buffer sample_state) (overlong_answer 7))
                    (Some 0) (Some 0)
  = Fault (WriteOutOfBounds 512)
  ∧ client_rcodes (question_output
      (client_question sample_config sample_state
         (Datagram (overlong_answer 7) sample_client) false))
    = [1].
Proof. vm_compute. done. Qed.

(** C2 does not hold as stated: this query for ads.example.com has type 15;
    its decoded name contains the entry ads, and the answer has code 4,
    not 5. *)
Lemma blacklisted_MX_gets_code_4 :
  getDnsRequestData
    (recv_into (resp_buffer sample_state) (query 7 ["ads"; "example"; "com"]%string 15 1))
    (Some 0) (Some 0)
  = Ok (octets_of_string "ads.example.com", Some 15, Some 1)
  ∧ isBlacklisted (blacklist sample_config) (octets_of_string "ads.example.com") = true
  ∧ client_rcodes (question_output
      (client_question sample_config sample_state
         (Datagram (query 7 ["ads"; "example"; "com"]%string 15 1) sample_client) false))
    = [4].
Proof. vm_compute. done. Qed.

(** C5 does not hold as stated: on a question of nine labels of 63 octets
    the function writes at index 512 of a name of 512 octets instead of
    failing, also when called from the loop; and a datagram of two octets
    is not refused for its length: the header is read from what the
    buffer held before, and the two octets are passed on. *)
Lemma decode_writes_out_of_bounds :
  getDnsRequestData (recv_into (resp_buffer sample_state) (overlong_query 7))
                    (Some 0) (Some 0)
  = Fault (WriteOutOfBounds 512)
  ∧ client_question sample_config sample_state
      (Datagram (overlong_query 7) sample_client) false
    = Fault (WriteOutOfBounds 512)
  ∧ upstream_payloads (question_output
      (client_question sample_config sample_pending (Datagram [0; 9] sample_client) false))
    = [[0; 9]].
Proof. vm_compute. done. Qed.

(** C6 does not hold as stated: the question is www followed by the
    compression pointer 192, 12; the function returns, with a name that
    is not the name asked for. *)
Lemma pointer_not_rejected :
  getDnsRequestData (recv_into (resp_buffer sample_state) (pointer_query 7))
                    (Some 0) (Some 0)
  = Ok (octets_of_string "www.." ++ [0; 1; 0; 1; 0; 0; 0; 0; 0; 0; 0; 0], Some 0, Some 0).
Proof. vm_compute. reflexivity. Qed.

(** C7 does not hold as stated: the identifier 7 is recorded for port 1111,
    then for port 2222; the lookup returns the older entry.  And when 31
    entries with other identifiers follow an entry, it is overwritten and
    the lookup finds nothing. *)
Lemma older_entry_wins :
  resolve (record (record fresh_table 1111 7 100) 2222 7 200) 7 = Some (1111, 100)
  ∧ resolve (record (record fresh_table 1111 7 100) 2222 7 200) 7 ≠ Some (2222, 200)
  ∧ resolve (record_all (record fresh_table 2222 7 200) (take 31 (numbered_entries 100))) 7
    = None.
Proof. vm_compute. done. Qed.

(** C8 does not hold as stated: 32 entries with the identifiers 0 to 31;
    the first one is overwritten, but its identifier 0 is found in slot 31,
    which was never written. *)
Lemma first_id_zero_still_found :
  length (numbered_entries 0) = 32%nat
  ∧ NoDup (e_id <$> numbered_entries 0)
  ∧ numbered_entries 0 !! 0%nat = Some (Entry 0 4000 16777343)
  ∧ resolve (record_all fresh_table (numbered_entries 0)) 0 = Some (0, 0).
Proof.
  split; [done|]. split; [|by vm_compute].
  apply (bool_decide_unpack (NoDup (e_id <$> numbered_entries 0))). vm_compute. exact I.
Qed.


(** * The theorems at sample inputs *)

Lemma forward_unmodified_witness :
  (octets (query 7 ["example"; "com"]%string 1 1)
   ∧ header_sane (header_of (query 7 ["example"; "com"]%string 1 1))
   ∧ upstream_payloads (question_output
       (client_question sample_config sample_state
          (Datagram (query 7 ["example"; "com"]%string 1 1) sample_client) false))
     = [query 7 ["example"; "com"]%string 1 1])
  ∧ (resolve (pending (at_lookup sample_pending sample_answer sample_frame).1.1.1)
             (hdr_id (at_lookup sample_pending sample_answer sample_frame).1.1.2)
     = Some (sin_port sample_client, sin_addr sample_client)
     ∧ ∃ st' out,
         server_branch sample_config sample_pending
           (Datagram sample_answer sample_server) false sample_frame = (st', out)
         ∧ client_payloads out = [(sample_answer, sample_client)])
  ∧ (resolve (pending (at_lookup sample_pending (overlong_answer 7)
                         (kept_frame 7)).1.1.1)
             (hdr_id (at_lookup sample_pending (overlong_answer 7)
                        (kept_frame 7)).1.1.2)
     = Some (sin_port sample_client, sin_addr sample_client)
     ∧ ∃ st' out,
         server_branch sample_config sample_pending
           (Datagram (overlong_answer 7) sample_server) false
           (kept_frame 7) = (st', out)
         ∧ client_payloads out = [(overlong_answer 7, sample_client)])
  ∧ (is_ok (getDnsRequestData (recv_into (resp_buffer sample_pending) sample_answer)
                              None None) = true
     ∧ pending (at_lookup sample_pending sample_answer sample_frame).1.1.1
       = pending sample_pending).
Proof.
  destruct forward_unmodified as (Hquery & Hanswer & Hwalk).
  split; [|split; [|split]].
  - assert (Hoct : octets (query 7 ["example"; "com"]%string 1 1))
      by (apply octetsb_octets; vm_compute; reflexivity).
    assert (Hsane : header_sane (header_of (query 7 ["example"; "com"]%string 1 1)))
      by (vm_compute; repeat split; (reflexivity || discriminate)).
    split; [exact Hoct|]. split; [exact Hsane|].
    destruct (Hquery sample_config sample_state
                (query 7 ["example"; "com"]%string 1 1) sample_client false
                (octets_of_string "example.com") Hoct)
      as (st' & out & Hq & Hup & _).
    + vm_compute. lia.
    + exact Hsane.
    + vm_compute. reflexivity.
    + apply isBlacklisted_false_inv. vm_compute. reflexivity.
    + rewrite Hq. exact Hup.
  - assert (Hres : resolve (pending (at_lookup sample_pending sample_answer
                                       sample_frame).1.1.1)
                     (hdr_id (at_lookup sample_pending sample_answer sample_frame).1.1.2)
                   = Some (sin_port sample_client, sin_addr sample_client))
      by (vm_compute; reflexivity).
    split; [exact Hres|].
    destruct (Hanswer sample_config sample_pending sample_answer sample_server false
                sample_frame _ _ Hres) as (st' & out & Hs & Hcl & _).
    exists st', out. split; [exact Hs|exact Hcl].
  - assert (Hres : resolve
                     (pending (at_lookup sample_pending (overlong_answer 7)
                                 (kept_frame 7)).1.1.1)
                     (hdr_id (at_lookup sample_pending (overlong_answer 7)
                                (kept_frame 7)).1.1.2)
                   = Some (sin_port sample_client, sin_addr sample_client))
      by (vm_compute; reflexivity).
    split; [exact Hres|].
    destruct (Hanswer sample_config sample_pending (overlong_answer 7) sample_server false
                (kept_frame 7) _ _ Hres)
      as (st' & out & Hs & Hcl & _).
    exists st', out. split; [exact Hs|exact Hcl].
  - assert (Hok : is_ok (getDnsRequestData
                           (recv_into (resp_buffer sample_pending) sample_answer)
                           None None) = true) by (vm_compute; reflexivity).
    split; [exact Hok|].
    exact (proj1 (Hwalk sample_pending sample_answer sample_frame Hok)).
Defined.

Lemma blacklisted_reply_witness :
  octets (query 7 ["ads"; "example"; "com"]%string 1 1)
  ∧ header_sane (header_of (query 7 ["ads"; "example"; "com"]%string 1 1))
  ∧ substring (octets_of_string "ads") (cstring (octets_of_string "ads.example.com"))
  ∧ ∃ st' out reply,
      client_question sample_config sample_state
        (Datagram (query 7 ["ads"; "example"; "com"]%string 1 1) sample_client) false
      = Ok (true, st', out)
      ∧ upstream_payloads out = []
      ∧ client_payloads out = [(reply, sample_client)]
      ∧ hdr_rcode (header_of reply) = 5.
Proof.
  assert (Hoct : octets (query 7 ["ads"; "example"; "com"]%string 1 1))
    by (apply octetsb_octets; vm_compute; reflexivity).
  assert (Hsane : header_sane (header_of (query 7 ["ads"; "example"; "com"]%string 1 1)))
    by (vm_compute; repeat split; (reflexivity || discriminate)).
  assert (Hsub : substring (octets_of_string "ads")
                           (cstring (octets_of_string "ads.example.com")))
    by (apply strstr_spec; vm_compute; reflexivity).
  split; [exact Hoct|]. split; [exact Hsane|]. split; [exact Hsub|].
  destruct (blacklisted_reply sample_config sample_state
              (query 7 ["ads"; "example"; "com"]%string 1 1) sample_client false
              (octets_of_string "ads.example.com") 1 1 Hoct)
    as (st' & out & reply & Hq & Hup & Hcl & _ & _ & H5).
  - vm_compute. lia.
  - exact Hsane.
  - vm_compute. reflexivity.
  - exists (octets_of_string "ads"). split; [apply list_elem_of_here|exact Hsub].
  - exists st', out, reply. split; [exact Hq|]. split; [exact Hup|]. split; [exact Hcl|].
    destruct (H5 eq_refl eq_refl) as (_ & Hr & _). exact Hr.
Defined.

Lemma format_error_reply_witness :
  octets response_as_query
  ∧ (12 <= length response_as_query)%nat
  ∧ hdr_qr (header_of response_as_query) = 1
  ∧ ∃ st' reply,
      client_question sample_config sample_state
        (Datagram response_as_query sample_client) false
      = Ok (true, st',
            format_error_log ++ Sendto clientSocketDescritor reply sample_client
            :: send_error false)
      ∧ hdr_rcode (header_of reply) = 1
      ∧ after_header reply = after_header (received_octets response_as_query).
Proof.
  assert (Hoct : octets response_as_query)
    by (apply octetsb_octets; vm_compute; reflexivity).
  assert (Hlen : (12 <= length response_as_query)%nat) by (vm_compute; lia).
  assert (Hqr : hdr_qr (header_of response_as_query) = 1) by (vm_compute; reflexivity).
  split; [exact Hoct|]. split; [exact Hlen|]. split; [exact Hqr|].
  destruct (format_error_reply sample_config sample_state response_as_query
              sample_client false Hoct Hlen (or_introl Hqr))
    as (st' & reply & Hq & _ & Hr & _ & _ & _ & _ & Hafter).
  exists st', reply. split; [exact Hq|]. split; [exact Hr|exact Hafter].
Defined.

Lemma not_implemented_reply_witness :
  octets (query 7 ["example"; "com"]%string 15 1)
  ∧ header_sane (header_of (query 7 ["example"; "com"]%string 15 1))
  ∧ ∃ st' reply,
      client_question sample_config sample_state
        (Datagram (query 7 ["example"; "com"]%string 15 1) sample_client) false
      = Ok (true, st',
            not_implemented_log (octets_of_string "example.com")
            ++ Sendto clientSocketDescritor reply sample_client :: send_error false)
      ∧ hdr_rcode (header_of reply) = 4.
Proof.
  assert (Hoct : octets (query 7 ["example"; "com"]%string 15 1))
    by (apply octetsb_octets; vm_compute; reflexivity).
  assert (Hsane : header_sane (header_of (query 7 ["example"; "com"]%string 15 1)))
    by (vm_compute; repeat split; (reflexivity || discriminate)).
  split; [exact Hoct|]. split; [exact Hsane|].
  destruct (not_implemented_reply sample_config sample_state
              (query 7 ["example"; "com"]%string 15 1) sample_client false
              (octets_of_string "example.com") 15 1 Hoct)
    as (st' & reply & Hq & _ & Hr & _).
  - vm_compute. lia.
  - exact Hsane.
  - vm_compute. reflexivity.
  - lia.
  - lia.
  - left. lia.
  - exists st', reply. split; [exact Hq|exact Hr].
Defined.

Lemma decode_terminates_unchecked_witness :
  length (query_header 7 1 0 1 0) = 12%nat
  ∧ Forall (λ l, 1 <= length l <= 127)%nat (labels_of ["example"; "com"]%string)
  ∧ (length (dotted (labels_of ["example"; "com"]%string)) < 512)%nat
  ∧ getDnsRequestData
      (query_header 7 1 0 1 0
       ++ encode_question (labels_of ["example"; "com"]%string) 1 1 ++ replicate 971 0)
      (Some 0) (Some 0)
    = Ok (octets_of_string "example.com", Some 1, Some 1).
Proof.
  assert (Hls : Forall (λ l, 1 <= length l <= 127)%nat
                       (labels_of ["example"; "com"]%string))
    by (repeat constructor; vm_compute; lia).
  assert (Hname : (length (dotted (labels_of ["example"; "com"]%string)) < 512)%nat)
    by (vm_compute; lia).
  split; [reflexivity|]. split; [exact Hls|]. split; [exact Hname|].
  exact (proj2 decode_terminates_unchecked (query_header 7 1 0 1 0)
           (labels_of ["example"; "com"]%string) 1 1 (replicate 971 0)
           (Some 0) (Some 0) eq_refl Hls Hname).
Defined.

Lemma pointer_octet_skipped_witness :
  (192 <= 192 < 256
   ∧ name_loop 3%nat [192; 3; 99; 111; 109; 0] (char_to_int 192) 0 1 []
     = Ok (6, octets_of_string ".com"))
  ∧ (Forall (λ l, 1 <= length l <= 127)%nat (labels_of ["example"; "com"]%string)
     ∧ (length (written false (labels_of ["example"; "com"]%string)) < 512)%nat
     ∧ getDnsRequestData
         (query_header 7 1 0 1 0
          ++ 192 :: encode_question (labels_of ["example"; "com"]%string) 1 1
                    ++ replicate 970 0)
         (Some 0) (Some 0)
       = Ok (octets_of_string ".example.com", Some 1, Some 1)).
Proof.
  assert (Hc : 192 <= 192 < 256) by lia.
  split.
  - split; [exact Hc|].
    rewrite (proj1 pointer_octet_skipped 2%nat [192; 3; 99; 111; 109; 0] 192 0 1 [] Hc);
      [vm_compute; reflexivity|lia].
  - assert (Hls : Forall (λ l, 1 <= length l <= 127)%nat
                         (labels_of ["example"; "com"]%string))
      by (repeat constructor; vm_compute; lia).
    assert (Hname : (length (written false (labels_of ["example"; "com"]%string))
                     < 512)%nat)
      by (vm_compute; lia).
    split; [exact Hls|]. split; [exact Hname|].
    exact (proj2 pointer_octet_skipped (query_header 7 1 0 1 0) 192
             (labels_of ["example"; "com"]%string) 1 1 (replicate 970 0)
             (Some 0) (Some 0) Hc eq_refl Hls Hname).
Defined.

Lemma record_then_resolve_witness :
  table_ok (record fresh_table 1111 5 100)
  ∧ (∀ j, (j < Z.to_nat (portsCounter (record fresh_table 1111 5 100)))%nat →
          e_id (slot (record fresh_table 1111 5 100) j) ≠ 7)
  ∧ Forall (λ e, e_id e ≠ 7) [Entry 8 3333 300; Entry 9 4444 400]
  ∧ resolve (record_all (record (record fresh_table 1111 5 100) 2222 7 200)
                        [Entry 8 3333 300; Entry 9 4444 400]) 7
    = Some (2222, 200).
Proof.
  assert (Hok : table_ok (record fresh_table 1111 5 100))
    by (apply record_counter_range, table_ok_fresh).
  assert (Hlow : ∀ j, (j < Z.to_nat (portsCounter (record fresh_table 1111 5 100)))%nat →
                      e_id (slot (record fresh_table 1111 5 100) j) ≠ 7).
  { intros j Hj. change (j < 1)%nat in Hj. assert (j = 0%nat) as -> by lia.
    vm_compute. discriminate. }
  assert (Hne : Forall (λ e, e_id e ≠ 7) [Entry 8 3333 300; Entry 9 4444 400])
    by (repeat constructor; simpl; lia).
  split; [exact Hok|]. split; [exact Hlow|]. split; [exact Hne|].
  apply (record_then_resolve (record fresh_table 1111 5 100) 7 2222 200
           [Entry 8 3333 300; Entry 9 4444 400] Hok Hlow); [simpl; lia|exact Hne].
Defined.

Lemma ring_overwrite_witness :
  (table_ok fresh_table
   ∧ slot (record_entry fresh_table (Entry 7 2222 200)) 0 = Entry 7 2222 200
   ∧ portsCounter (record_entry fresh_table (Entry 7 2222 200)) = 1)
  ∧ (length (numbered_entries 100) = 32%nat
     ∧ NoDup (e_id <$> numbered_entries 100)
     ∧ numbered_entries 100 !! 0%nat = Some (Entry 100 4000 16777343)
     ∧ resolve (record_all fresh_table (numbered_entries 100)) 100 = None)
  ∧ (NoDup (e_id <$> numbered_entries 0)
     ∧ numbered_entries 0 !! 0%nat = Some (Entry 0 4000 16777343)
     ∧ resolve (record_all fresh_table (numbered_entries 0)) 0 = Some (0, 0)).
Proof.
  split; [|split].
  - split; [exact table_ok_fresh|].
    destruct (proj1 ring_overwrite fresh_table (Entry 7 2222 200) table_ok_fresh)
      as (Hslot & _ & Hcounter).
    split; [exact Hslot|exact Hcounter].
  - assert (Hnodup : NoDup (e_id <$> numbered_entries 100)).
    { apply (bool_decide_unpack (NoDup (e_id <$> numbered_entries 100))).
      vm_compute. exact I. }
    split; [reflexivity|]. split; [exact Hnodup|]. split; [reflexivity|].
    destruct (proj2 (proj2 ring_overwrite) (numbered_entries 100)
                (Entry 100 4000 16777343) eq_refl Hnodup eq_refl)
      as (_ & _ & Hnone & _).
    apply Hnone. simpl. lia.
  - assert (Hnodup : NoDup (e_id <$> numbered_entries 0)).
    { apply (bool_decide_unpack (NoDup (e_id <$> numbered_entries 0))).
      vm_compute. exact I. }
    split; [exact Hnodup|]. split; [reflexivity|].
    destruct (proj2 (proj2 ring_overwrite) (numbered_entries 0)
                (Entry 0 4000 16777343) eq_refl Hnodup eq_refl)
      as (_ & _ & _ & Hzero).
    apply Hzero. reflexivity.
Defined.


Lemma zero_id_matches_witness :
  Forall (λ e, e_id e ≠ 0) (live [Entry 7 (sin_port sample_client) (sin_addr sample_client)])
  ∧ resolve (record_all fresh_table
               [Entry 7 (sin_port sample_client) (sin_addr sample_client)]) 0
    = Some (0, 0)
  ∧ (∃ st' out,
       server_branch sample_config sample_pending
         (Datagram (query_header 0 129 128 1 0
                    ++ encode_question (labels_of ["example"; "com"]%string) 1 1)
                   sample_server) false sample_frame
       = (st', out)
       ∧ client_payloads out
         = [(query_header 0 129 128 1 0
             ++ encode_question (labels_of ["example"; "com"]%string) 1 1,
             SockAddr 0 0)])
  ∧ (∃ st' out,
       server_branch sample_config sample_pending
         (Datagram (overlong_answer 0) sample_server) false
         (kept_frame 0)
       = (st', out)
       ∧ client_payloads out = [(overlong_answer 0, SockAddr 0 0)])
  ∧ (is_ok (getDnsRequestData
              (recv_into (resp_buffer sample_pending)
                 (query_header 0 129 128 1 0
                  ++ encode_question (labels_of ["example"; "com"]%string) 1 1))
              None None) = true
     ∧ pending (at_lookup sample_pending
                  (query_header 0 129 128 1 0
                   ++ encode_question (labels_of ["example"; "com"]%string) 1 1)
                  sample_frame).1.1.1
       = pending sample_pending).
Proof.
  destruct zero_id_matches as (_ & Htable & Hsend & Hwalk).
  assert (Hlive : Forall (λ e, e_id e ≠ 0)
                    (live [Entry 7 (sin_port sample_client) (sin_addr sample_client)]))
    by (repeat constructor; simpl; lia).
  split; [exact Hlive|].
  split; [exact (Htable _ Hlive)|].
  split; [|split].
  - apply (Hsend sample_config sample_pending
             [Entry 7 (sin_port sample_client) (sin_addr sample_client)]
             (query_header 0 129 128 1 0
              ++ encode_question (labels_of ["example"; "com"]%string) 1 1)
             sample_server false sample_frame).
    + vm_compute. reflexivity.
    + exact Hlive.
    + vm_compute. reflexivity.
  - apply (Hsend sample_config sample_pending
             [Entry 7 (sin_port sample_client) (sin_addr sample_client)]
             (overlong_answer 0) sample_server false
             (kept_frame 0)).
    + vm_compute. reflexivity.
    + exact Hlive.
    + vm_compute. reflexivity.
  - assert (Hok : is_ok (getDnsRequestData
                           (recv_into (resp_buffer sample_pending)
                              (query_header 0 129 128 1 0
                               ++ encode_question
                                    (labels_of ["example"; "com"]%string) 1 1))
                           None None) = true) by (vm_compute; reflexivity).
    split; [exact Hok|].
    exact (proj1 (Hwalk sample_pending _ sample_frame Hok)).
Defined.

(** * Further properties of the code *)

(** ** The lookup and the store of the table *)

Lemma resolve_from_some_inv n t :
  ∀ i id port addr,
    resolve_from n t i id = Some (port, addr) →
    ∃ j, (i <= j < i + n)%nat ∧ slot t j = Entry id port addr
         ∧ ∀ k, (i <= k < j)%nat → e_id (slot t k) ≠ id.
Proof.
  induction n as [|n IH]; intros i id port addr H; [done|].
  simpl in H. destruct (cell (ids t) i =? id) eqn:E.
  - apply Z.eqb_eq in E. injection H as <- <-. exists i.
    split; [lia|]. split; [unfold slot; by rewrite E|]. intros k Hk. lia.
  - apply Z.eqb_neq in E. apply IH in H as (j & Hj & Hslot & Hbefore).
    exists j. split; [lia|]. split; [done|].
    intros k Hk. destruct (decide (k = i)) as [->|]; [done|]. apply Hbefore. lia.
Qed.

Lemma resolve_from_none_inv n t :
  ∀ i id, resolve_from n t i id = None →
          ∀ j, (i <= j < i + n)%nat → e_id (slot t j) ≠ id.
Proof.
  induction n as [|n IH]; intros i id H j Hj; [lia|].
  simpl in H. destruct (cell (ids t) i =? id) eqn:E; [done|].
  apply Z.eqb_neq in E. destruct (decide (j = i)) as [->|]; [done|].
  apply (IH (S i) id H). lia.
Qed.

(** X1.  The lookup of lines 524-533 returns the port and the address of
    the slot with the lowest index among those that hold the identifier,
    and it finds nothing exactly when none of the 32 slots holds it. *)
Theorem resolve_first_match (t : table) (id port addr : Z) :
  (resolve t id = Some (port, addr)
   ↔ ∃ j, (j < 32)%nat ∧ slot t j = Entry id port addr
          ∧ ∀ k, (k < j)%nat → e_id (slot t k) ≠ id)
  ∧ (resolve t id = None ↔ ∀ j, (j < 32)%nat → e_id (slot t j) ≠ id).
Proof.
  split; split.
  - intros H. apply resolve_from_some_inv in H as (j & Hj & Hslot & Hbefore).
    exists j. split; [unfold TABLE_SIZE in Hj; lia|]. split; [done|].
    intros k Hk. apply Hbefore. lia.
  - intros (j & Hj & Hslot & Hbefore). unfold resolve.
    rewrite (resolve_from_first TABLE_SIZE t 0 id j).
    + by rewrite Hslot.
    + unfold TABLE_SIZE. lia.
    + by rewrite Hslot.
    + intros k Hk. apply Hbefore. lia.
  - intros H j Hj. apply (resolve_from_none_inv _ _ _ _ H). unfold TABLE_SIZE. lia.
  - intros H. apply resolve_from_none. intros j Hj. apply H.
    unfold TABLE_SIZE in Hj. lia.
Qed.

Lemma resolve_from_S n t i id :
  resolve_from (S n) t i id
  = if e_id (slot t i) =? id then Some (e_port (slot t i), e_addr (slot t i))
    else resolve_from n t (S i) id.
Proof. reflexivity. Qed.

Lemma resolve_from_record_other n t port X addr Y :
  Y ≠ X → e_id (slot t (Z.to_nat (portsCounter t))) ≠ Y →
  ∀ i, resolve_from n (record t port X addr) i Y = resolve_from n t i Y.
Proof.
  intros Hne Hold. induction n as [|n IH]; intros i; [done|].
  rewrite !resolve_from_S.
  destruct (decide (i = Z.to_nat (portsCounter t))) as [->|Hi].
  - assert (Hnew : e_id (slot (record t port X addr) (Z.to_nat (portsCounter t))) ≠ Y).
    { unfold slot, record, cell. cbn [e_id ids].
      destruct (decide (Z.to_nat (portsCounter t) < length (ids t))%nat).
      - rewrite list_lookup_insert_eq by done. simpl. congruence.
      - rewrite list_insert_ge by lia. exact Hold. }
    apply Z.eqb_neq in Hnew, Hold. rewrite Hnew, Hold. apply IH.
  - change (record t port X addr) with (record_entry t (Entry X port addr)).
    rewrite (slot_record_ne t (Entry X port addr) i Hi).
    destruct (e_id (slot t i) =? Y); [done|apply IH].
Qed.

(** X2.  Recording a query leaves the lookup of every other identifier as
    it was, unless the slot that is overwritten held that identifier. *)
Theorem record_keeps_other_ids (t : table) (port X addr Y : Z) :
  Y ≠ X →
  e_id (slot t (Z.to_nat (portsCounter t))) ≠ Y →
  resolve (record t port X addr) Y = resolve t Y.
Proof. intros Hne Hold. by apply resolve_from_record_other. Qed.

(** X3.  In a table reached from the initial one, an identifier other than
    0 that exactly one live entry carries (one of the last 31 recorded)
    resolves to the port and the address of that entry. *)
Theorem live_unique_id_resolves (es : list entry) (i : nat) (e : entry) :
  es !! i = Some e →
  (length es <= i + 31)%nat →
  e_id e ≠ 0 →
  (∀ i' e', es !! i' = Some e' → (length es <= i' + 31)%nat →
            e_id e' = e_id e → i' = i) →
  resolve (record_all fresh_table es) (e_id e) = Some (e_port e, e_addr e).
Proof.
  intros Hlook Hlive Hnz Huniq.
  destruct (ring_inv_record_all es) as (Hok & _ & Hslots & _ & Hall).
  apply resolve_from_any.
  - exists (i mod 31)%nat. split.
    + mod31 i. unfold TABLE_SIZE. lia.
    + by rewrite (Hslots i e Hlive Hlook).
  - intros j _ Hid. destruct (Hall j) as [Hz|(i' & Hi' & _ & Hlook')].
    + rewrite Hz in Hid. simpl in Hid. congruence.
    + assert (i' = i) as -> by (by apply (Huniq i' _ Hlook' Hi')).
      rewrite Hlook in Hlook'. injection Hlook' as <-. done.
Qed.

(** X4.  In a table reached from the initial one, an identifier other than
    0 that no live entry carries is not found: the entries that were
    overwritten are gone. *)
Theorem dead_id_not_found (es : list entry) (id : Z) :
  id ≠ 0 →
  Forall (λ e, e_id e ≠ id) (live es) →
  resolve (record_all fresh_table es) id = None.
Proof.
  intros Hnz Hlive.
  destruct (ring_inv_record_all es) as (_ & _ & _ & _ & Hall).
  apply resolve_from_none. intros j _ Hid.
  destruct (Hall j) as [Hz|(i & Hi & _ & Hlook)].
  - rewrite Hz in Hid. simpl in Hid. congruence.
  - apply (lookup_live es i _ Hi) in Hlook.
    by apply (Forall_lookup_1 _ _ _ _ Hlive) in Hlook.
Qed.

(** ** The two branches of the loop *)

Lemma sendto_set_clientAddress s st a dest :
  sendto s (set_clientAddress st a) dest = sendto s st dest.
Proof. reflexivity. Qed.

Lemma decide_query_sends cfg st0 h bad name type class failed :
  let r := decide_query cfg st0 h bad name type class failed in
  (r.1.1 = false
   ∧ client_payloads r.2 = []
   ∧ upstream_payloads r.2
     = [take (Z.to_nat (resp_length st0)) (resp_buffer st0)])
  ∨ (r.1.1 = true
     ∧ upstream_payloads r.2 = []
     ∧ (∃ reply, client_payloads r.2 = [(reply, clientAddress st0)])
     ∧ pending r.1.2 = pending st0).
Proof.
  unfold decide_query.
  destruct ((type <=? 0) || (class <=? 0) || bad);
    [|destruct (negb (type =? 1) || negb (class =? 1));
      [|destruct (isBlacklisted (blacklist cfg) name)]].
  1-3: right; simpl; rewrite upstream_payloads_send_error, client_payloads_send_error;
       eauto.
  left. simpl. rewrite upstream_payloads_send_error, client_payloads_send_error. done.
Qed.

(** X5.  For a datagram from a client the branch calls [sendto] exactly
    once: either the octets received go to the server, or one answer goes
    back to the sender of the datagram and the table stays as it was.  It
    never does both and never neither. *)
Theorem one_send_per_query (cfg : config) (st : state) (data : list Z)
    (src : sockaddr_in) (failed continue : bool) (st' : state) (out : list output) :
  client_question cfg st (Datagram data src) failed = Ok (continue, st', out) →
  (continue = false
   ∧ client_payloads out = []
   ∧ upstream_payloads out = [received_octets data])
  ∨ (continue = true
     ∧ upstream_payloads out = []
     ∧ (∃ reply, client_payloads out = [(reply, src)])
     ∧ pending st' = pending st).
Proof.
  unfold client_question. intros H.
  apply bind_ok_inv in H as ([[name type] class] & _ & H). injection H as H.
  match type of H with
  | decide_query ?a ?b ?c ?d ?e ?f ?g ?h = _ =>
      pose proof (decide_query_sends a b c d e f g h) as Hs
  end.
  cbv zeta in Hs. rewrite H in Hs. simpl in Hs.
  destruct Hs as [(Hc & Hcl & Hup)|Hs]; [left|right; exact Hs].
  split; [done|]. split; [done|]. rewrite Hup.
  unfold recv_into. by rewrite Nat2Z.id, take_app_length.
Qed.

(** X6.  A query with a sane header whose question decodes with type 0 or
    class 0 is answered with response code 1, like a query with a
    malformed header. *)
Theorem zero_type_is_format_error (cfg : config) (st : state) (data : list Z)
    (src : sockaddr_in) (failed : bool) (name : list Z) (type class : Z) :
  octets data →
  (12 <= length data)%nat →
  header_sane (header_of data) →
  getDnsRequestData (recv_into (resp_buffer st) data) (Some 0) (Some 0)
  = Ok (name, Some type, Some class) →
  type <= 0 ∨ class <= 0 →
  ∃ st' reply,
    client_question cfg st (Datagram data src) failed
    = Ok (true, st',
          format_error_log ++ Sendto clientSocketDescritor reply src :: send_error failed)
    ∧ pending st' = pending st
    ∧ hdr_rcode (header_of reply) = 1
    ∧ length reply = length (received_octets data)
    ∧ after_header reply = after_header (received_octets data).
Proof.
  intros Hoct Hlen Hsane Hdec Hz.
  eexists _, _. split; [|split].
  - erewrite client_question_decoded; [| |exact Hdec].
    + unfold decide_query.
      assert (E : ((type <=? 0) || (class <=? 0) || false) = true).
      { destruct Hz as [H|H]; apply Z.leb_le in H; rewrite H; [done|].
        by rewrite orb_true_r. }
      rewrite E.
      rewrite (surjective_pairing (error_answer _ _ _ _)).
      rewrite error_answer_received by done. reflexivity.
    + simpl. rewrite header_of_recv_into by done.
      apply badPacket_false; [by apply octets_take|done].
  - done.
  - destruct (error_reply_facts data 1 Hlen) as (F1 & _ & F3 & _ & _ & F6); [lia|].
    done.
Qed.

(** X7.  An upstream datagram on which the walk over the name returns and
    whose identifier is in no slot is dropped: nothing is sent, and the
    table and the client address are left as they were. *)
Theorem unknown_id_dropped (cfg : config) (st : state) (data : list Z)
    (tmpAddress : sockaddr_in) :
  is_ok (getDnsRequestData (recv_into (resp_buffer st) data) None None) = true →
  resolve (pending st) (hdr_id (header_of (recv_into (resp_buffer st) data))) = None →
  ∃ st',
    server_answer cfg st (Datagram data tmpAddress)
    = Ok (st', source_warning cfg tmpAddress)
    ∧ client_payloads (source_warning cfg tmpAddress) = []
    ∧ upstream_payloads (source_warning cfg tmpAddress) = []
    ∧ pending st' = pending st
    ∧ clientAddress st' = clientAddress st.
Proof.
  intros Hok Hres.
  destruct (getDnsRequestData _ None None) as [[[tmpName ty] cl]|] eqn:Hdec; [|done].
  exists (recvfrom st data). split.
  - unfold server_answer.
    change (resp_buffer (recvfrom st data)) with (recv_into (resp_buffer st) data).
    change (pending (recvfrom st data)) with (pending st).
    by rewrite Hdec, ok_bind, Hres.
  - by rewrite client_payloads_source_warning, upstream_payloads_source_warning.
Qed.

(** X8.  The source of an upstream datagram is compared with the server
    address only to print a warning: a datagram from another address, on
    which the walk over the name returns and whose identifier is found,
    is passed to the client all the same. *)
Theorem unexpected_source_still_forwarded (cfg : config) (st : state)
    (data : list Z) (tmpAddress : sockaddr_in) (tmpName : list Z) (port addr : Z) :
  tmpAddress ≠ serverAddress cfg →
  getDnsRequestData (recv_into (resp_buffer st) data) None None
  = Ok (tmpName, None, None) →
  resolve (pending st) (hdr_id (header_of (recv_into (resp_buffer st) data)))
  = Some (port, addr) →
  ∃ st',
    server_answer cfg st (Datagram data tmpAddress)
    = Ok (st', [Stderr "Answer from unexpected source.";
                VerboseEntry "answer" (cstring tmpName);
                Sendto clientSocketDescritor (received_octets data) (SockAddr port addr)]).
Proof.
  intros Hsrc Hdec Hres. eexists.
  rewrite (server_answer_resolved cfg st data tmpAddress tmpName port addr Hdec Hres).
  unfold source_warning. by destruct (decide (tmpAddress = serverAddress cfg)).
Qed.

(** X9.  A query that is passed on and the answer with its identifier: when
    no slot below the counter held that identifier, the answer is sent,
    as received, to the address and port the query came from. *)
Theorem answer_returns_to_asker (cfg : config) (st : state) (query answer : list Z)
    (src tmpAddress : sockaddr_in) (failed : bool) (name : list Z) :
  table_ok (pending st) →
  octets query → (12 <= length query)%nat → header_sane (header_of query) →
  getDnsRequestData (recv_into (resp_buffer st) query) (Some 0) (Some 0)
  = Ok (name, Some 1, Some 1) →
  isBlacklisted (blacklist cfg) name = false →
  (∀ j, (j < Z.to_nat (portsCounter (pending st)))%nat →
        e_id (slot (pending st) j) ≠ hdr_id (header_of query)) →
  (12 <= length answer)%nat →
  hdr_id (header_of answer) = hdr_id (header_of query) →
  is_ok (getDnsRequestData
           (recv_into (recv_into (resp_buffer st) query) answer) None None) = true →
  ∃ st1 out1 st2 out2,
    client_question cfg st (Datagram query src) failed = Ok (false, st1, out1)
    ∧ upstream_payloads out1 = [received_octets query]
    ∧ server_answer cfg st1 (Datagram answer tmpAddress) = Ok (st2, out2)
    ∧ client_payloads out2 = [(received_octets answer, src)]
    ∧ upstream_payloads out2 = [].
Proof.
  intros Hok Hoct Hlen Hsane Hdec Hbl Hlow Hlen' Hid Hwalk.
  destruct (getDnsRequestData _ None None) as [[[tmpName ty] cl]|] eqn:Hdec'; [|done].
  destruct (getDnsRequestData_NULL _ _ _ _ Hdec') as [-> ->].
  destruct src as [sport saddr].
  eexists _, _, _, _. split; [by apply client_question_forward|].
  split.
  { simpl. by rewrite upstream_payloads_send_error. }
  split.
  - apply (server_answer_resolved _ _ _ _ tmpName sport saddr); [exact Hdec'|].
    cbn [resp_buffer pending sin_port sin_addr].
    rewrite header_of_recv_into, Hid by done.
    set (X := hdr_id (header_of query)) in *.
    change (record (pending st) sport X saddr)
      with (record_entry (pending st) (Entry X sport saddr)).
    unfold resolve.
    rewrite (resolve_from_first TABLE_SIZE _ 0 X (Z.to_nat (portsCounter (pending st)))).
    + by rewrite slot_record_eq.
    + destruct Hok as (_ & _ & _ & Hc). unfold TABLE_SIZE. lia.
    + by rewrite slot_record_eq.
    + intros k Hk. rewrite slot_record_ne by lia. apply Hlow. lia.
  - rewrite client_payloads_app, upstream_payloads_app,
      client_payloads_source_warning, upstream_payloads_source_warning. done.
Qed.

(** X10.  From the start of the loop and as long as no name walk has
    left its arrays, whatever the loop receives, the receive buffer keeps
    its 1000 octets, the three arrays keep their 32 elements and the
    counter stays in 0..30: every store into the table is inside the
    arrays. *)
Theorem loop_keeps_arrays (cfg : config) (heap : list Z) (addr : sockaddr_in)
    (ws : list wakeup) (st' : state) (out : list output) :
  length heap = 1000%nat →
  run cfg (initial_state heap addr) ws = Polling st' out →
  defined out →
  length (resp_buffer st') = 1000%nat
  ∧ length (ports (pending st')) = 32%nat
  ∧ length (ids (pending st')) = 32%nat
  ∧ length (addresses (pending st')) = 32%nat
  ∧ 0 <= portsCounter (pending st') < 31.
Proof.
  intros Hheap Hrun Hd.
  apply (run_state_ok cfg ws (initial_state heap addr) st' out) in Hrun.
  - destruct Hrun as (Hb & Hp & Hi & Ha & Hc). done.
  - by apply state_ok_initial.
  - done.
Qed.

(** ** getDnsRequestData: names that do not fit *)

Lemma store_url_full url c :
  length url = 512%nat → store_url url c = Fault (WriteOutOfBounds 512).
Proof.
  intros H. unfold store_url, counterDst, NAME_SIZE. rewrite H.
  reflexivity.
Qed.

Lemma fault_bind {A B} (f : fault) (k : A → res B) : Fault f ≫= k = Fault f.
Proof. reflexivity. Qed.

(** The inner loop on a label that does not fit in what is left of [url]. *)
Lemma copy_label_overflow (l : list Z) :
  ∀ (fuel : nat) (pre rest url : list Z),
    (length l < fuel)%nat →
    (length url <= 512)%nat →
    (512 < length url + length l)%nat →
    copy_label fuel (pre ++ l ++ rest)
      (Z.of_nat (length pre + length l) - 1) (Z.of_nat (length pre)) url
    = Fault (WriteOutOfBounds 512).
Proof.
  induction l as [|b l IH]; intros fuel pre rest url Hfuel Hurl Hover;
    [simpl in Hover; lia|].
  destruct fuel as [|fuel]; [simpl in Hfuel; lia|]. rewrite copy_label_S.
  simpl in Hfuel, Hover.
  destruct (Z.of_nat (length pre) <=? Z.of_nat (length pre + length (b :: l)) - 1) eqn:E;
    [|apply Z.leb_gt in E; simpl in E; lia].
  change ((b :: l) ++ rest) with (b :: l ++ rest).
  rewrite load_middle, ok_bind.
  destruct (decide (length url = 512%nat)) as [Hfull|Hroom].
  - by rewrite store_url_full.
  - rewrite store_url_ok by lia. rewrite ok_bind.
    replace (pre ++ b :: l ++ rest) with ((pre ++ [b]) ++ l ++ rest)
      by (by rewrite <- app_assoc).
    replace (Z.of_nat (length pre + length (b :: l)) - 1)
      with (Z.of_nat (length (pre ++ [b]) + length l) - 1)
      by (rewrite length_app; simpl; lia).
    replace (Z.of_nat (length pre) + 1) with (Z.of_nat (length (pre ++ [b])))
      by (rewrite length_app; simpl; lia).
    apply IH; rewrite ?length_app; simpl; lia.
Qed.

(** The outer loop on labels whose name does not fit. *)
Lemma name_loop_overflow (ls : list (list Z)) :
  ∀ (fuel : nat) (pre tail url : list Z),
    Forall (λ l, 1 <= length l <= 127)%nat ls →
    (length ls < fuel)%nat →
    (length url <= 512)%nat →
    (512 < length url + length (written (bool_decide (length pre = 0%nat)) ls))%nat →
    name_loop fuel (pre ++ concat (map encode_label ls) ++ 0 :: tail)
      (next_length ls) (Z.of_nat (length pre)) (Z.of_nat (length pre) + 1) url
    = Fault (WriteOutOfBounds 512).
Proof.
  induction ls as [|l ls IH]; intros fuel pre tail url Hls Hfuel Hurl Hover.
  { unfold written in Hover. destruct (bool_decide _); simpl in Hover; lia. }
  destruct fuel as [|fuel]; [simpl in Hfuel; lia|].
  inversion Hls as [|l' ls' Hl Hls']; subst l' ls'.
  simpl in Hfuel.
  set (first := bool_decide (length pre = 0%nat)) in *.
  set (rest := concat (map encode_label ls) ++ 0 :: tail).
  set (pre1 := pre ++ [Z.of_nat (length l)]).
  assert (Hpre1 : length pre1 = S (length pre)).
  { unfold pre1. rewrite length_app. simpl. lia. }
  assert (Hptr : pre ++ concat (map encode_label (l :: ls)) ++ 0 :: tail
                 = pre1 ++ l ++ rest).
  { unfold rest, pre1, encode_label. simpl. by rewrite <- !app_assoc. }
  assert (Hout : written first (l :: ls) = (if first then [] else [46]) ++ l
                 ++ written false ls).
  { unfold written. destruct first; simpl; done. }
  rewrite Hptr. rewrite Hout, !length_app in Hover.
  rewrite name_loop_S.
  change (next_length (l :: ls)) with (Z.of_nat (length l)).
  destruct (Z.of_nat (length l) =? 0) eqn:E; [apply Z.eqb_eq in E; lia|]. clear E.
  destruct (decide (first = false ∧ length url = 512%nat)) as [[Hf Hfull]|Hdot].
  { assert (E : (Z.of_nat (length pre) =? 0) = false).
    { apply Z.eqb_neq. unfold first in Hf. apply bool_decide_eq_false in Hf. lia. }
    rewrite E. by rewrite store_url_full. }
  set (url1 := if first then url else url ++ [46]).
  assert (Hurl1 : (if Z.of_nat (length pre) =? 0 then Ok url else store_url url 46)
                  = Ok url1).
  { unfold url1, first in *. destruct (Z.of_nat (length pre) =? 0) eqn:E.
    - apply Z.eqb_eq in E. by rewrite bool_decide_eq_true_2 by lia.
    - apply Z.eqb_neq in E. rewrite bool_decide_eq_false_2 by lia. apply store_url_ok.
      rewrite bool_decide_eq_false_2 in Hdot by lia.
      destruct (decide (length url = 512%nat)); [by destruct Hdot|lia]. }
  rewrite Hurl1, ok_bind.
  assert (Hlen1 : (length url1 <= 512)%nat
                  ∧ (512 < length url1 + length l + length (written false ls))%nat).
  { unfold url1. destruct first; rewrite ?length_app; simpl in *; [lia|].
    split; [|lia]. destruct (decide (length url = 512%nat)); [|lia].
    destruct Hdot. done. }
  destruct Hlen1 as [Hlen1 Hover1].
  replace (Z.of_nat (length pre) + Z.of_nat (length l))
    with (Z.of_nat (length pre1 + length l) - 1) by lia.
  replace (Z.of_nat (length pre) + 1) with (Z.of_nat (length pre1)) by lia.
  destruct (decide (512 < length url1 + length l)%nat) as [Hlabel|Hfits].
  { rewrite copy_label_overflow by (rewrite ?length_app; lia). done. }
  rewrite copy_label_copies by (rewrite ?length_app; lia).
  rewrite ok_bind.
  assert (Hload : load (pre1 ++ l ++ rest) (Z.of_nat (length pre1 + length l))
                  = Ok (next_length ls)).
  { rewrite app_assoc, <- length_app. unfold rest. rewrite encoded_head.
    apply load_middle. }
  rewrite Hload, ok_bind.
  rewrite char_to_int_small by by apply next_length_small.
  specialize (IH fuel (pre1 ++ l) tail (url1 ++ l) Hls').
  rewrite bool_decide_eq_false_2 in IH by (rewrite length_app; lia).
  fold rest in IH. rewrite <- app_assoc in IH.
  rewrite <- (length_app pre1 l).
  apply IH; rewrite ?length_app; lia.
Qed.

Lemma name_loop_question_overflow (ls : list (list Z)) (fuel : nat) (tail : list Z) :
  Forall (λ l, 1 <= length l <= 127)%nat ls →
  (length ls < fuel)%nat →
  (512 < length (dotted ls))%nat →
  name_loop fuel (concat (map encode_label ls) ++ 0 :: tail) (next_length ls) 0 1 []
  = Fault (WriteOutOfBounds 512).
Proof.
  intros Hls Hfuel Hover.
  apply (name_loop_overflow ls fuel [] tail [] Hls Hfuel); [simpl; lia|exact Hover].
Qed.

(** X11.  The limit of the name array is exact: on a packet whose question
    is a well-formed sequence of labels, a name that has 512 octets or
    more with its dots makes the function write at index 512 of the 512
    octets of [url] (for 512 itself it is the terminating zero that is
    written there). *)
Theorem overlong_name_overflows (hdr : list Z) (ls : list (list Z))
    (qtype qclass : Z) (tail : list Z) (type class : option Z) :
  length hdr = 12%nat →
  Forall (λ l, 1 <= length l <= 127)%nat ls →
  (512 <= length (dotted ls))%nat →
  getDnsRequestData (hdr ++ encode_question ls qtype qclass ++ tail) type class
  = Fault (WriteOutOfBounds 512).
Proof.
  intros Hhdr Hls Hname. unfold getDnsRequestData.
  change (Z.to_nat HEADER_SIZE) with 12%nat. rewrite drop_app_length' by done.
  unfold encode_question.
  set (enc := concat (map encode_label ls)).
  set (qt := [qtype / 256; qtype mod 256; qclass / 256; qclass mod 256] ++ tail).
  assert (Hptr : (enc ++ [0; qtype / 256; qtype mod 256; qclass / 256; qclass mod 256])
                 ++ tail = enc ++ 0 :: qt).
  { unfold qt. simpl. by rewrite <- app_assoc. }
  rewrite Hptr.
  assert (Hload : load (enc ++ 0 :: qt) 0 = Ok (next_length ls)).
  { unfold enc. rewrite encoded_head. done. }
  rewrite Hload, ok_bind.
  rewrite char_to_int_small by by apply next_length_small.
  assert (Hfuel : (length ls < S (length (enc ++ 0%Z :: qt)))%nat).
  { rewrite length_app. pose proof (length_encoded ls) as Hle. fold enc in Hle. lia. }
  destruct (decide (length (dotted ls) = 512%nat)) as [Heq|Hgt].
  - pose proof (name_loop_question ls (S (length (enc ++ 0 :: qt))) qt Hls Hfuel) as Hloop.
    fold enc in Hloop. rewrite Hloop by lia. rewrite ok_bind.
    unfold counterDst, NAME_SIZE. rewrite Heq. reflexivity.
  - pose proof (name_loop_question_overflow ls (S (length (enc ++ 0 :: qt))) qt
                  Hls Hfuel) as Hloop.
    fold enc in Hloop. rewrite Hloop by lia. done.
Qed.

(** X12.  The walk does not depend on the two destinations: when the call
    with destinations for type and class returns, the call with two
    [NULL] pointers (the one of the answer branch) returns the same
    name. *)
Theorem walk_ignores_destinations (buffer : list Z) (t c : Z) (name : list Z)
    (type class : option Z) :
  getDnsRequestData buffer (Some t) (Some c) = Ok (name, type, class) →
  getDnsRequestData buffer None None = Ok (name, None, None).
Proof.
  unfold getDnsRequestData. intros H.
  apply bind_ok_inv in H as (c0 & Hc0 & H). rewrite Hc0, ok_bind.
  apply bind_ok_inv in H as ([counter url] & Hloop & H). rewrite Hloop, ok_bind.
  apply bind_ok_inv in H as ([] & Hroom & H). rewrite Hroom, ok_bind.
  apply bind_ok_inv in H as (type' & _ & H).
  apply bind_ok_inv in H as (class' & _ & H).
  injection H as <- _ _. reflexivity.
Qed.

(** ** The header of an error answer *)

(** A property of all octets, checked on each of them. *)
Lemma octet_cases (P : Z → bool) :
  forallb P (map Z.of_nat (seq 0 256)) = true → ∀ b, 0 <= b < 256 → P b = true.
Proof.
  intros H b Hb. apply (proj1 (List.forallb_forall P _) H).
  apply List.in_map_iff. exists (Z.to_nat b). split; [lia|].
  apply List.in_seq. lia.
Qed.

Lemma rcode_cases (P : Z → bool) :
  forallb P (map Z.of_nat (seq 0 16)) = true → ∀ r, 0 <= r < 16 → P r = true.
Proof.
  intros H r Hr. apply (proj1 (List.forallb_forall P _) H).
  apply List.in_map_iff. exists (Z.to_nat r). split; [lia|].
  apply List.in_seq. lia.
Qed.

Lemma answer_header_octet2 rcode h :
  (4 <= length h)%nat → octet (answer_header rcode h) 2 = answer_octet2 (octet h 2).
Proof.
  intros Hlen.
  unfold answer_header, set_nscount, set_ancount, set_rcode, set_ra, set_aa, set_qr.
  rewrite !octet_set_short_ne by lia.
  do 2 rewrite octet_set_bits_ne by lia.
  rewrite octet_set_bits_eq by (rewrite length_set_bits; lia).
  rewrite octet_set_bits_eq by lia. reflexivity.
Qed.

Lemma answer_header_octet3 rcode h :
  (4 <= length h)%nat → octet (answer_header rcode h) 3 = answer_octet3 rcode (octet h 3).
Proof.
  intros Hlen.
  unfold answer_header, set_nscount, set_ancount, set_rcode, set_ra, set_aa, set_qr.
  rewrite !octet_set_short_ne by lia.
  rewrite octet_set_bits_eq by (rewrite !length_set_bits; lia).
  rewrite octet_set_bits_eq by (rewrite !length_set_bits; lia).
  do 2 rewrite octet_set_bits_ne by lia.
  unfold answer_octet3. rewrite Z.shiftl_0_r. reflexivity.
Qed.

Lemma octet2_checked b : 0 <= b < 256 → octet2_check b = true.
Proof. apply (octet_cases octet2_check). vm_compute. reflexivity. Qed.

Lemma octet3_checked b rcode :
  0 <= b < 256 → 0 <= rcode < 16 → octet3_check b rcode = true.
Proof.
  intros Hb Hr. apply (rcode_cases (octet3_check b)); [|done].
  revert b Hb.
  apply (octet_cases (λ b, forallb (octet3_check b) (map Z.of_nat (seq 0 16)))).
  vm_compute. reflexivity.
Qed.

Lemma bit_eq b b' n : Z.testbit b' n = Z.testbit b n → bit b' n = bit b n.
Proof. unfold bit. by intros ->. Qed.

(** X13.  The six assignments of an error answer change nothing but what
    they name: the answer has QR, AA and RA set, the given response code
    and no answer or authority records, and it keeps the identifier, the
    opcode, the TC and RD flags, the three bits between RA and the
    response code, and the counts of questions and additional records of
    the query. *)
Theorem answer_header_frame (rcode : Z) (h : list Z) :
  length h = 12%nat → octets h → 0 <= rcode < 16 →
  (hdr_qr (answer_header rcode h) = 1
   ∧ hdr_aa (answer_header rcode h) = 1
   ∧ hdr_ra (answer_header rcode h) = 1
   ∧ hdr_rcode (answer_header rcode h) = rcode
   ∧ hdr_ancount (answer_header rcode h) = 0
   ∧ hdr_nscount (answer_header rcode h) = 0)
  ∧ (hdr_id (answer_header rcode h) = hdr_id h
     ∧ hdr_opcode (answer_header rcode h) = hdr_opcode h
     ∧ hdr_tc (answer_header rcode h) = hdr_tc h
     ∧ hdr_rd (answer_header rcode h) = hdr_rd h
     ∧ hdr_unused (answer_header rcode h) = hdr_unused h
     ∧ hdr_ad (answer_header rcode h) = hdr_ad h
     ∧ hdr_cd (answer_header rcode h) = hdr_cd h
     ∧ hdr_qdcount (answer_header rcode h) = hdr_qdcount h
     ∧ hdr_arcount (answer_header rcode h) = hdr_arcount h
     ∧ length (answer_header rcode h) = 12%nat).
Proof.
  intros Hlen Hoct Hr.
  pose proof (octet2_checked (octet h 2) (octets_lookup h 2 Hoct)) as H2.
  pose proof (octet3_checked (octet h 3) rcode (octets_lookup h 3 Hoct) Hr) as H3.
  unfold octet2_check in H2. unfold octet3_check in H3.
  rewrite !andb_true_iff in H2, H3.
  destruct H2 as ((((Hqr & Haa) & Hrd) & Htc) & Hop).
  destruct H3 as ((((Hra & Hrc) & Hun) & Had) & Hcd).
  apply Bool.eqb_prop in Hrd, Htc, Hun, Had, Hcd. apply Z.eqb_eq in Hop, Hrc.
  assert (Hkeep : ∀ j, j ∉ [2; 3; 6; 7; 8; 9]%nat →
                       octet (answer_header rcode h) j = octet h j)
    by (intros j; apply answer_header_keeps).
  assert (Hnot : ∀ j : nat, (j < 2 ∨ 3 < j < 6 ∨ 9 < j)%nat → j ∉ [2; 3; 6; 7; 8; 9]%nat).
  { intros j Hj. rewrite !not_elem_of_cons. repeat split; try lia. apply not_elem_of_nil. }
  destruct (answer_header_counts rcode h) as [Han Hns]; [lia|].
  split.
  - unfold hdr_qr, hdr_aa, hdr_ra, hdr_rcode, bit.
    rewrite answer_header_octet2, answer_header_octet3 by lia.
    rewrite Hqr, Haa, Hra, Hrc. done.
  - unfold hdr_id, hdr_opcode, hdr_tc, hdr_rd, hdr_unused, hdr_ad, hdr_cd,
      hdr_qdcount, hdr_arcount, host_short.
    rewrite answer_header_octet2, answer_header_octet3 by lia.
    rewrite !Hkeep by (apply Hnot; lia).
    rewrite Hop, (bit_eq _ _ _ Htc), (bit_eq _ _ _ Hrd), (bit_eq _ _ _ Hun),
      (bit_eq _ _ _ Had), (bit_eq _ _ _ Hcd), length_answer_header.
    done.
Qed.

(** X14.  [isBlacklisted] returns 1 exactly when some entry of the list
    occurs somewhere in the name as a run of equal octets (the name being
    the C string in the array); so the list without entries blocks
    nothing, and an entry blocks every name it is a part of, not only the
    names that end in it. *)
Theorem isBlacklisted_iff_substring (bl : blacklist_s) (name : list Z) :
  (isBlacklisted bl name = true
   ↔ ∃ entry before after,
       entry ∈ bl ∧ cstring name = before ++ entry ++ after)
  ∧ isBlacklisted [] name = false.
Proof.
  split; [|done]. rewrite isBlacklisted_spec. unfold substring. split.
  - intros (entry & Hin & before & after & Heq). by exists entry, before, after.
  - intros (entry & before & after & Hin & Heq). exists entry. split; [done|].
    by exists before, after.
Qed.

(** ** Loading the filter file *)

Lemma read_line_spec (n : nat) (stream line rest : list Z) :
  read_line n stream = (line, rest) →
  stream = line ++ rest ∧ (length line ≤ n)%nat
  ∧ (n ≠ 0%nat → stream ≠ [] → line ≠ []).
Proof.
  revert stream line rest. induction n as [|n IH]; intros stream line rest H.
  - simpl in H. injection H as <- <-. repeat split; [simpl; lia | congruence].
  - destruct stream as [|c stream]; simpl in H.
    + injection H as <- <-. repeat split; [simpl; lia | congruence].
    + destruct (c =? 10).
      * injection H as <- <-. repeat split; [simpl; lia | congruence].
      * destruct (read_line n stream) as [line' rest'] eqn:E.
        injection H as <- <-. destruct (IH _ _ _ E) as (-> & Hlen & _).
        repeat split; [simpl; lia | congruence].
Qed.

Lemma read_line_text (n : nat) (line rest : list Z) :
  (length line < n)%nat → Forall (λ c, c ≠ 10) line →
  read_line n (line ++ 10 :: rest) = (line ++ [10], rest).
Proof.
  revert n. induction line as [|c line IH]; intros n Hn Hl.
  - destruct n; [simpl in Hn; lia | done].
  - destruct n as [|n]; [simpl in Hn; lia|]. inversion Hl as [|? ? Hc Hl']; subst.
    simpl. destruct (c =? 10) eqn:E; [apply Z.eqb_eq in E; done|].
    rewrite IH; [done | simpl in Hn; lia | done].
Qed.

Lemma strip_app (n : nat) (done l : list Z) :
  (n ≤ length l)%nat →
  strip n (length done) (done ++ l) = done ++ strip_list n l.
Proof.
  revert done l. induction n as [|n IH]; intros done l Hn; [by destruct l|].
  destruct l as [|c l]; [simpl in Hn; lia|]. simpl in Hn.
  assert (Hc : cell (done ++ c :: l) (length done) = c).
  { unfold cell. by rewrite list_lookup_middle. }
  assert (Hins : ∀ x y, <[length done := x]> (done ++ y :: l) = done ++ x :: l).
  { intros x y. rewrite insert_app_r_alt by lia. by rewrite Nat.sub_diag. }
  cbn [strip strip_list]. rewrite Hc.
  destruct (c =? 10); [apply Hins|].
  destruct (char_to_int c <? 32).
  - rewrite Hins. unfold cell at 1. rewrite list_lookup_middle by done. cbn [default].
    rewrite Hins.
    change (done ++ ?x :: l) with (done ++ [x] ++ l). rewrite app_assoc.
    replace (S (length done)) with (length (done ++ [Z.land (char_to_int 0) 127])).
    2:{ rewrite length_app. simpl. lia. }
    rewrite IH by lia. by rewrite <- app_assoc.
  - rewrite Hc, Hins.
    change (done ++ ?x :: l) with (done ++ [x] ++ l). rewrite app_assoc.
    replace (S (length done)) with (length (done ++ [Z.land (char_to_int c) 127])).
    2:{ rewrite length_app. simpl. lia. }
    rewrite IH by lia. by rewrite <- app_assoc.
Qed.

Lemma length_strip (n k : nat) (filebuf : list Z) :
  length (strip n k filebuf) = length filebuf.
Proof.
  revert k filebuf. induction n as [|n IH]; intros k filebuf; [done|].
  cbn [strip]. destruct (cell filebuf k =? 10); [by rewrite length_insert|].
  rewrite IH, length_insert. destruct (char_to_int (cell filebuf k) <? 32); [|done].
  by rewrite length_insert.
Qed.

(** With a signed [char] an octet is either printable or set to zero by
    line 129, so the mask of line 130 changes nothing. *)
Lemma printable_octet (c : Z) :
  0 <= c < 256 →
  (printable c = true → c ≠ 10 ∧ (char_to_int c <? 32) = false ∧ Z.land (char_to_int c) 127 = c ∧ c ≠ 0)
  ∧ (printable c = false → c = 10 ∨ (char_to_int c <? 32) = true).
Proof.
  intros Hc. unfold printable, char_to_int. split.
  - intros [H1 H2]%andb_prop. apply Z.leb_le in H1. apply Z.ltb_lt in H2.
    rewrite (proj2 (Z.ltb_lt c 128)) by lia.
    repeat split; [lia | by apply Z.ltb_ge | | lia].
    change 127 with (Z.ones 7). rewrite Z.land_ones by lia.
    apply Z.mod_small. change (2 ^ 7) with 128. lia.
  - intros H. right. apply andb_false_iff in H as [H|H].
    + apply Z.leb_gt in H. rewrite (proj2 (Z.ltb_lt c 128)) by lia.
      apply Z.ltb_lt. lia.
    + apply Z.ltb_ge in H. rewrite (proj2 (Z.ltb_ge c 128)) by lia.
      apply Z.ltb_lt. lia.
Qed.

Lemma cstring_strip_list (line stale : list Z) (n : nat) :
  octets line → (length line < n)%nat →
  cstring (strip_list n (line ++ 0 :: stale)) = printable_prefix line.
Proof.
  revert n. induction line as [|c line IH]; intros n Hoct Hn.
  - destruct n; [simpl in Hn; lia | done].
  - destruct n as [|n]; [simpl in Hn; lia|]. inversion Hoct as [|? ? Hc Hoct']; subst.
    destruct (printable_octet c Hc) as [Hyes Hno].
    cbn [app strip_list printable_prefix]. destruct (printable c).
    + destruct Hyes as (H10 & H32 & Hland & H0); [done|].
      rewrite (proj2 (Z.eqb_neq c 10)) by done. rewrite H32, Hland.
      cbn [cstring]. rewrite (proj2 (Z.eqb_neq c 0)) by done.
      rewrite IH; [done | done | simpl in Hn; lia].
    + destruct (c =? 10); [done|].
      destruct Hno as [->|H32]; [done | done | by rewrite H32].
Qed.

Lemma cstring_insert_zero (l : list Z) (i : nat) :
  (length (cstring l) ≤ i)%nat → cstring (<[i := 0]> l) = cstring l.
Proof.
  revert i. induction l as [|c l IH]; intros i Hi; [done|].
  simpl in Hi. destruct i as [|i].
  - simpl. destruct (c =? 0); [done | simpl in Hi; lia].
  - simpl. destruct (c =? 0); [done|]. rewrite IH; [done | simpl in Hi; lia].
Qed.

Lemma length_printable_prefix (line : list Z) :
  (length (printable_prefix line) ≤ length line)%nat.
Proof.
  induction line as [|c line IH]; simpl; [lia|]. destruct (printable c); simpl; lia.
Qed.

Lemma printable_prefix_printable (line : list Z) :
  Forall (λ c, 32 <= c < 128) (printable_prefix line).
Proof.
  induction line as [|c line IH]; simpl; [constructor|].
  destruct (printable c) eqn:E; [|constructor].
  constructor; [|done]. apply andb_prop in E as [H1 H2].
  apply Z.leb_le in H1. apply Z.ltb_lt in H2. lia.
Qed.

(** The string the loop stores for what one [fgets] has read. *)
Lemma stored_string (line filebuf : list Z) :
  octets line → (length line ≤ FILE_BUFFER_SIZE - 1)%nat →
  length filebuf = FILE_BUFFER_SIZE →
  let filebuf' := line ++ 0 :: drop (S (length line)) filebuf in
  length filebuf' = FILE_BUFFER_SIZE
  ∧ cell filebuf' 0 = match line with c :: _ => c | [] => 0 end
  ∧ length (<[(FILE_BUFFER_SIZE - 1)%nat := 0]> (strip FILE_BUFFER_SIZE 0 filebuf'))
    = FILE_BUFFER_SIZE
  ∧ cstring (<[(FILE_BUFFER_SIZE - 1)%nat := 0]> (strip FILE_BUFFER_SIZE 0 filebuf'))
    = printable_prefix line.
Proof.
  intros Hoct Hlen Hbuf filebuf'. unfold FILE_BUFFER_SIZE in *.
  assert (Hlen' : length filebuf' = 512%nat).
  { unfold filebuf'. rewrite length_app. cbn [length]. rewrite length_drop. lia. }
  split; [done|]. split; [by destruct line|].
  split; [by rewrite length_insert, length_strip|].
  assert (Hs : cstring (strip 512 0 filebuf') = printable_prefix line).
  { pose proof (strip_app 512 [] filebuf') as H. cbn [length app] in H.
    rewrite H by lia. unfold filebuf'. apply cstring_strip_list; [done | lia]. }
  rewrite cstring_insert_zero; [done|]. rewrite Hs.
  pose proof (length_printable_prefix line). lia.
Qed.

Lemma filter_loop_S fuel realloc_ok filebuf stream r allocated :
  filter_loop (S fuel) realloc_ok filebuf stream r allocated
  = match fgets filebuf stream with
    | None => Ok (0, r)
    | Some (filebuf, stream') =>
        if cell filebuf 0 =? 35 then
          filter_loop fuel realloc_ok filebuf stream' r allocated
        else
          let filebuf :=
            <[(FILE_BUFFER_SIZE - 1)%nat := 0]> (strip FILE_BUFFER_SIZE 0 filebuf) in
          if (length r =? allocated)%nat then
            if realloc_ok (allocated + ALLOC_SIZE)%nat then
              filter_loop fuel realloc_ok filebuf stream' (r ++ [cstring filebuf])
                          (allocated + ALLOC_SIZE)%nat
            else Ok (0, r)
          else
            filter_loop fuel realloc_ok filebuf stream' (r ++ [cstring filebuf])
                        allocated
    end.
Proof. reflexivity. Qed.

Lemma file_entries_S fuel stream :
  file_entries (S fuel) stream
  = match stream with
    | [] => []
    | _ :: _ =>
        let '(line, rest) := read_line (FILE_BUFFER_SIZE - 1) stream in
        if is_comment line then file_entries fuel rest
        else printable_prefix line :: file_entries fuel rest
    end.
Proof. reflexivity. Qed.

(** The loop stores the entries of the pieces of the stream until the
    stream ends or a [realloc] fails; a [realloc] is only asked for when
    the array is full. *)
Lemma filter_loop_entries (realloc_ok : nat → bool) (fuel : nat) :
  ∀ (filebuf stream : list Z) (r : list (list Z)) (allocated : nat),
    length filebuf = FILE_BUFFER_SIZE → octets stream →
    (length stream < fuel)%nat → (length r ≤ allocated)%nat →
    ∃ n : nat,
      filter_loop fuel realloc_ok filebuf stream r allocated
      = Ok (0, r ++ take n (file_entries fuel stream))
      ∧ (n ≤ length (file_entries fuel stream))%nat
      ∧ (n = length (file_entries fuel stream) ∨ (allocated - length r ≤ n)%nat)
      ∧ ((∀ c, realloc_ok c = true) → n = length (file_entries fuel stream)).
Proof.
  induction fuel as [|fuel IH]; intros filebuf stream r allocated Hbuf Hoct Hfuel Hr;
    [lia|].
  rewrite filter_loop_S, file_entries_S. unfold fgets.
  destruct stream as [|c0 stream0] eqn:Es.
  { exists 0%nat. rewrite take_0, app_nil_r. cbn [length]. auto. }
  rewrite <- Es in *. assert (Hne : stream ≠ []) by (subst; done). clear Es.
  destruct (read_line (FILE_BUFFER_SIZE - 1) stream) as [line rest] eqn:E.
  destruct (read_line_spec _ _ _ _ E) as (Heq & Hlen & Hline).
  assert (Hl : line ≠ []) by (apply Hline; [done | done]).
  assert (Hol : octets line ∧ octets rest).
  { unfold octets in *. rewrite Heq in Hoct. by apply Forall_app in Hoct. }
  destruct Hol as [Hol Hor].
  assert (Hrest : (length rest < fuel)%nat).
  { rewrite Heq, length_app in Hfuel. destruct line; [done|]. simpl in Hfuel. lia. }
  destruct (stored_string line filebuf Hol Hlen Hbuf) as (Hb1 & Hc0 & Hb2 & Hstr).
  cbv zeta in Hb1, Hc0, Hb2, Hstr. rewrite Hc0.
  assert (Hcomment : (match line with c :: _ => c | [] => 0 end =? 35) = is_comment line).
  { by destruct line. }
  rewrite Hcomment. destruct (is_comment line).
  { apply IH; done. }
  cbv zeta. rewrite Hstr.
  destruct (length r =? allocated)%nat eqn:Efull.
  - apply Nat.eqb_eq in Efull. destruct (realloc_ok (allocated + ALLOC_SIZE)%nat) eqn:Eok.
    + destruct (IH _ rest (r ++ [printable_prefix line]) (allocated + ALLOC_SIZE)%nat
                  Hb2 Hor Hrest) as (n & Hrun & Hn & Hfar & Hall).
      { rewrite length_app. unfold ALLOC_SIZE. simpl. lia. }
      exists (S n). rewrite Hrun. cbn [take length]. rewrite <- app_assoc.
      repeat split; [lia | right; lia | intros H; f_equal; auto].
    + exists 0%nat. rewrite take_0, app_nil_r. cbn [length].
      repeat split; [lia | right; lia |]. intros H. rewrite H in Eok. done.
  - apply Nat.eqb_neq in Efull.
    destruct (IH _ rest (r ++ [printable_prefix line]) allocated Hb2 Hor Hrest)
      as (n & Hrun & Hn & Hfar & Hall).
    { rewrite length_app. simpl. lia. }
    exists (S n). rewrite Hrun. cbn [take length]. rewrite <- app_assoc.
    rewrite length_app in Hfar. cbn [length] in Hfar.
    repeat split; [lia | destruct Hfar; [left; lia | right; lia] | intros H; f_equal; auto].
Qed.

Lemma file_entries_printable (fuel : nat) (stream : list Z) :
  Forall (Forall (λ c, 32 <= c < 128)) (file_entries fuel stream).
Proof.
  revert stream. induction fuel as [|fuel IH]; intros stream; [constructor|].
  rewrite file_entries_S. destruct stream; [constructor|].
  destruct (read_line _ _) as [line rest]. destruct (is_comment line); [apply IH|].
  constructor; [apply printable_prefix_printable | apply IH].
Qed.

Lemma printable_prefix_newline (line : list Z) :
  printable_prefix (line ++ [10]) = printable_prefix line.
Proof.
  induction line as [|c line IH]; [done|]. simpl. by rewrite IH.
Qed.

Lemma file_entries_text (lines : list (list Z)) (fuel : nat) :
  Forall (λ line, (length line < FILE_BUFFER_SIZE - 1)%nat ∧ Forall (λ c, c ≠ 10) line)
         lines →
  (length lines < fuel)%nat →
  file_entries fuel (text_file lines) = line_entries lines.
Proof.
  revert fuel. induction lines as [|line lines IH]; intros fuel Hall Hfuel.
  - destruct fuel; done.
  - destruct fuel as [|fuel]; [lia|]. inversion Hall as [|? ? [Hlen H10] Hall']; subst.
    rewrite file_entries_S. unfold text_file. cbn [map concat].
    fold (text_file lines). rewrite <- app_assoc. cbn [app].
    destruct (line ++ 10 :: text_file lines) as [|c0 s0] eqn:Es; [by destruct line|].
    rewrite <- Es. rewrite read_line_text by done.
    assert (Hcom : is_comment (line ++ [10]) = is_comment line).
    { destruct line as [|c line]; [done | done]. }
    rewrite Hcom, printable_prefix_newline. cbn [line_entries].
    simpl in Hfuel. rewrite IH by (done || lia). done.
Qed.

Lemma length_text_file (lines : list (list Z)) :
  (length lines ≤ length (text_file lines))%nat.
Proof.
  induction lines as [|line lines IH]; [done|].
  unfold text_file in *. cbn [map concat length]. rewrite !length_app. simpl. lia.
Qed.

Lemma octets_text_file (lines : list (list Z)) :
  Forall octets lines → octets (text_file lines).
Proof.
  induction 1 as [|line lines Hl _ IH]; [constructor|].
  unfold text_file, octets in *. cbn [map concat].
  apply Forall_app. split; [|done]. apply Forall_app. split; [done|].
  constructor; [lia | constructor].
Qed.

Lemma printable_prefix_all (line : list Z) :
  Forall (λ c, 32 <= c < 128) line → printable_prefix line = line.
Proof.
  induction 1 as [|c line Hc _ IH]; [done|]. simpl.
  unfold printable. rewrite (proj2 (Z.leb_le 32 c)), (proj2 (Z.ltb_lt c 128)) by lia.
  simpl. by rewrite IH.
Qed.

Lemma line_entries_clean (lines : list (list Z)) :
  Forall (λ line, Forall (λ c, 32 <= c < 128) line ∧ is_comment line = false) lines →
  line_entries lines = lines.
Proof.
  induction 1 as [|line lines [Hp Hc] _ IH]; [done|].
  simpl. rewrite Hc, printable_prefix_all, IH; done.
Qed.

Lemma line_entries_elem (lines : list (list Z)) (line : list Z) :
  line ∈ lines → is_comment line = false →
  printable_prefix line ∈ line_entries lines.
Proof.
  intros Hin Hc. induction lines as [|l lines IH]; [by apply elem_of_nil in Hin|].
  apply elem_of_cons in Hin as [<-|Hin].
  - simpl. rewrite Hc. apply elem_of_cons. by left.
  - simpl. destruct (is_comment l); [by apply IH|].
    apply elem_of_cons. right. by apply IH.
Qed.

Lemma getDnsFilter_entries (realloc_ok : nat → bool) (stream : list Z) :
  octets stream →
  ∃ n : nat,
    getDnsFilter realloc_ok (Some stream)
    = Ok (0, take n (file_entries (S (length stream)) stream))
    ∧ (n = length (file_entries (S (length stream)) stream) ∨ (ALLOC_SIZE ≤ n)%nat)
    ∧ ((∀ c, realloc_ok c = true)
       → n = length (file_entries (S (length stream)) stream)).
Proof.
  intros Hoct. unfold getDnsFilter.
  destruct (filter_loop_entries realloc_ok (S (length stream))
              (replicate FILE_BUFFER_SIZE 0) stream [] ALLOC_SIZE)
    as (n & Hrun & Hn & Hfar & Hall);
    [apply length_replicate | done | lia | simpl; lia |].
  exists n. rewrite Hrun. cbn [app length] in *. rewrite Nat.sub_0_r in Hfar. done.
Qed.

(** X15.  A filter file of lines that each end in a newline and are
    shorter than 511 characters, read with enough memory: the list holds,
    in the order of the file, one entry for every line that does not begin
    with #, namely the characters of the line before the first one outside
    32..127 (a control character such as a carriage return or a tab, or a
    character with the high bit set, ends the entry). *)
Theorem getDnsFilter_text_file (realloc_ok : nat → bool) (lines : list (list Z)) :
  (∀ c, realloc_ok c = true) →
  Forall (λ line, octets line ∧ (length line < FILE_BUFFER_SIZE - 1)%nat
                  ∧ Forall (λ c, c ≠ 10) line) lines →
  getDnsFilter realloc_ok (Some (text_file lines)) = Ok (0, line_entries lines).
Proof.
  intros Hmem Hlines.
  destruct (getDnsFilter_entries realloc_ok (text_file lines)) as (n & Hrun & _ & Hall).
  { apply octets_text_file. eapply Forall_impl; [|exact Hlines]. by intros line (H & _). }
  rewrite Hrun, (Hall Hmem), firstn_all. do 2 f_equal.
  apply file_entries_text.
  - eapply Forall_impl; [|exact Hlines]. by intros line (_ & H1 & H2).
  - pose proof (length_text_file lines). lia.
Qed.

(** X16.  Writing and reading back: names made of the characters 32..127,
    none beginning with # and each shorter than 511 characters, written
    one per line, are loaded as exactly these names in the same order. *)
Theorem getDnsFilter_round_trip (realloc_ok : nat → bool) (names : list (list Z)) :
  (∀ c, realloc_ok c = true) →
  Forall (λ name, Forall (λ c, 32 <= c < 128) name ∧ is_comment name = false
                  ∧ (length name < FILE_BUFFER_SIZE - 1)%nat) names →
  getDnsFilter realloc_ok (Some (text_file names)) = Ok (0, names).
Proof.
  intros Hmem Hnames.
  destruct (getDnsFilter_entries realloc_ok (text_file names)) as (n & Hrun & _ & Hall).
  { apply octets_text_file. eapply Forall_impl; [|exact Hnames].
    intros name (H & _). eapply Forall_impl; [|exact H]. simpl. lia. }
  rewrite Hrun, (Hall Hmem), firstn_all. do 2 f_equal.
  rewrite file_entries_text.
  - apply line_entries_clean. eapply Forall_impl; [|exact Hnames].
    by intros name (H1 & H2 & _).
  - eapply Forall_impl; [|exact Hnames]. intros name (H1 & _ & H2). split; [done|].
    eapply Forall_impl; [|exact H1]. simpl. lia.
  - pose proof (length_text_file names). lia.
Qed.

(** X17.  Whatever the file holds and whether or not [realloc] succeeds,
    [getDnsFilter] returns [EXIT_SUCCESS] once the file could be opened,
    and every entry it has stored consists of characters 32..127 only: no
    entry holds a newline, a carriage return or a character with the high
    bit set.  It returns [EXIT_FAILURE] when the file cannot be opened,
    with an empty list. *)
Theorem getDnsFilter_entries_printable (realloc_ok : nat → bool) (stream : list Z) :
  octets stream →
  (∃ bl, getDnsFilter realloc_ok (Some stream) = Ok (0, bl)
         ∧ Forall (Forall (λ c, 32 <= c < 128)) bl)
  ∧ getDnsFilter realloc_ok None = Ok (1, []).
Proof.
  intros Hoct. split; [|done].
  destruct (getDnsFilter_entries realloc_ok stream Hoct) as (n & Hrun & _).
  eexists. split; [exact Hrun|]. apply Forall_take, file_entries_printable.
Qed.

(** X18.  When a [realloc] fails the function still returns
    [EXIT_SUCCESS], with the entries stored so far: they are the first
    entries of the list a run with enough memory stores, and at least the
    first 20 of them (or all, when there are fewer). *)
Theorem getDnsFilter_out_of_memory (realloc_ok : nat → bool) (stream : list Z) :
  octets stream →
  ∃ (all : blacklist_s) (n : nat),
    getDnsFilter enough_memory (Some stream) = Ok (0, all)
    ∧ getDnsFilter realloc_ok (Some stream) = Ok (0, take n all)
    ∧ (n = length all ∨ (ALLOC_SIZE ≤ n)%nat).
Proof.
  intros Hoct.
  destruct (getDnsFilter_entries enough_memory stream Hoct) as (m & Hall & _ & Hm).
  destruct (getDnsFilter_entries realloc_ok stream Hoct) as (n & Hrun & Hn & _).
  rewrite (Hm (λ _, eq_refl)), firstn_all in Hall.
  exists (file_entries (S (length stream)) stream), n. done.
Qed.

(** X19.  A line of the filter file that is empty, or begins with a
    control character (so also a blank line of a file with CR LF line
    ends), is stored as the empty string, and [strstr] finds the empty
    string in every name: with such a line in the file every name is
    blacklisted. *)
Theorem blank_line_blocks_every_name (realloc_ok : nat → bool)
    (lines : list (list Z)) (line : list Z) :
  (∀ c, realloc_ok c = true) →
  Forall (λ line, octets line ∧ (length line < FILE_BUFFER_SIZE - 1)%nat
                  ∧ Forall (λ c, c ≠ 10) line) lines →
  line ∈ lines → hd 0 line < 32 →
  ∃ bl, getDnsFilter realloc_ok (Some (text_file lines)) = Ok (0, bl)
        ∧ ∀ name, isBlacklisted bl name = true.
Proof.
  intros Hmem Hlines Hin Hhd.
  destruct (getDnsFilter_entries realloc_ok (text_file lines)) as (n & Hrun & _ & Hall).
  { apply octets_text_file. eapply Forall_impl; [|exact Hlines]. by intros l (H & _). }
  rewrite (Hall Hmem), firstn_all, file_entries_text in Hrun.
  2:{ eapply Forall_impl; [|exact Hlines]. by intros l (_ & H1 & H2). }
  2:{ pose proof (length_text_file lines). lia. }
  exists (line_entries lines). split; [done|]. intros name.
  apply isBlacklisted_spec. exists []. split.
  - assert (Hc : is_comment line = false).
    { destruct line as [|c l]; [done|]. cbn [hd is_comment] in Hhd |- *.
      apply Z.eqb_neq. lia. }
    assert (Hp : printable_prefix line = []).
    { destruct line as [|c l]; [done|]. cbn [hd printable_prefix] in Hhd |- *.
      unfold printable. by rewrite (proj2 (Z.leb_gt 32 c)) by lia. }
    rewrite <- Hp. by apply line_entries_elem.
  - by exists [], (cstring name).
Qed.

(** ** The log lines *)

Lemma low_octet (q d : Z) : 0 <= d < 256 → Z.land (q * 256 + d) 255 = d.
Proof.
  intros Hd. change 255 with (Z.ones 8). rewrite Z.land_ones by lia.
  change (2 ^ 8) with 256. symmetry. apply (Z.mod_unique_pos _ _ q); lia.
Qed.

Lemma shift_octet (q d : Z) : 0 <= d < 256 → Z.shiftr (q * 256 + d) 8 = q.
Proof.
  intros Hd. rewrite Z.shiftr_div_pow2 by lia. change (2 ^ 8) with 256.
  symmetry. apply (Z.div_unique_pos _ _ q d); lia.
Qed.

(** X20.  [printIp] prints the four octets of its argument from the most
    significant to the least: given the [ntohl] of an address field, as
    [main] passes it, it prints the octets of the address in the order of
    the wire, each as a number in 0..255, then # and the port. *)
Theorem printIp_dotted (a b c d port : Z) :
  octets [a; b; c; d] →
  printIp (ntohl_octets a b c d) port
  = [Decimal a; Text (octets_of_string "."); Decimal b; Text (octets_of_string ".");
     Decimal c; Text (octets_of_string "."); Decimal d; Text (octets_of_string "#");
     Decimal port; Text [9]].
Proof.
  intros Hoct. unfold octets in Hoct.
  inversion Hoct as [|? ? Ha H1]; subst. inversion H1 as [|? ? Hb H2]; subst.
  inversion H2 as [|? ? Hc H3]; subst. inversion H3 as [|? ? Hd _]; subst.
  unfold printIp, ntohl_octets.
  change 16 with (8 + 8). change 24 with (8 + 8 + 8).
  rewrite <- !Z.shiftr_shiftr by lia.
  rewrite !(shift_octet _ d) by done. rewrite !(shift_octet _ c) by done.
  rewrite (shift_octet _ b) by done.
  rewrite (low_octet _ d), (low_octet _ c), (low_octet _ b) by done.
  replace a with (0 * 256 + a) at 1 by lia. rewrite low_octet by done. done.
Qed.

(** ** The command line *)

Lemma say_inv ns r f a out :
  say ns r = Ok (f, a, out) → ∃ out', r = Ok (f, a, out') ∧ out = ns ++ out'.
Proof.
  unfold say. intros H. apply bind_ok_inv in H as ([[f' a'] out'] & Hr & H).
  injection H as <- <- <-. by exists out'.
Qed.

Lemma filter_loop_status realloc_ok fuel :
  ∀ filebuf stream r allocated status bl,
    filter_loop fuel realloc_ok filebuf stream r allocated = Ok (status, bl) →
    status = 0.
Proof.
  induction fuel as [|fuel IH]; intros filebuf stream r allocated status bl H; [done|].
  rewrite filter_loop_S in H. destruct (fgets filebuf stream) as [[filebuf' stream']|].
  2:{ by injection H as <- _. }
  destruct (cell filebuf' 0 =? 35); [by eapply IH|]. cbv zeta in H.
  destruct (length r =? allocated)%nat; [|by eapply IH].
  destruct (realloc_ok _); [by eapply IH|]. by injection H as <- _.
Qed.

Lemma getDnsFilter_status realloc_ok file status bl :
  getDnsFilter realloc_ok file = Ok (status, bl) →
  (status = 1 ∧ file = None ∧ bl = []) ∨ (status = 0 ∧ ∃ stream, file = Some stream).
Proof.
  destruct file as [stream|]; unfold getDnsFilter.
  - intros H. right. split; [by eapply filter_loop_status | by exists stream].
  - intros [= <- <-]. by left.
Qed.

Lemma strcpy_length size src dst : strcpy size src = Ok dst → dst = src ∧ (length src < size)%nat.
Proof.
  unfold strcpy. destruct (length src <? size)%nat eqn:E; [|done].
  intros [= <-]. apply Nat.ltb_lt in E. done.
Qed.

Lemma processArgs_returns_0 env opts :
  ∀ a0 a out,
    processArgs env opts a0 = Ok (Returned 0, a, out) →
    (serverSelected a0 = true ∨ server_given env opts)
    ∧ ((filterFileSelected a0 = true ∧ loaded_blacklist a = loaded_blacklist a0
        ∧ Forall (λ o, o.1 ≠ 102) opts)
       ∨ filter_given env opts (loaded_blacklist a))
    ∧ (portNumber a = portNumber a0 ∨ 0 <= portNumber a <= 65535)
    ∧ (serverName a = serverName a0 ∨ (length (serverName a) < SERVER_NAME_SIZE)%nat)
    ∧ Forall (λ o, known_option o.1) opts.
Proof.
  induction opts as [|[c optarg] opts IH]; intros a0 a out H.
  - simpl in H. destruct (serverSelected a0); [|done].
    destruct (filterFileSelected a0); [|done]. injection H as <- <-.
    repeat split; auto.
  - cbn [processArgs] in H.
    destruct (c =? 118) eqn:Ev.
    { apply Z.eqb_eq in Ev as ->. apply say_inv in H as (out' & H & _).
      apply IH in H as (Hs & Hf & Hp & Hn & Hk). cbn [serverSelected filterFileSelected
        loaded_blacklist portNumber serverName] in *.
      split.
      { destruct Hs as [Hs|(o & Hin & Hs)]; [by left|].
        right. exists o. split; [by apply elem_of_cons; right | done]. }
      split.
      { destruct Hf as [(Hf1 & Hf2 & Hf3)|(before & file & after & stream & -> & Hf)].
        - left. repeat split; [done | done |]. constructor; [simpl; lia | done].
        - right. by exists ((118, optarg) :: before), file, after, stream. }
      repeat split; [done | done |]. constructor; [by left | done]. }
    destruct (c =? 115) eqn:Es.
    { apply Z.eqb_eq in Es as ->.
      assert (Hcase : ∃ name,
                (inet_pton env optarg = true
                 ∨ ∃ text, gethostbyname env optarg = Some (AF_INET, text))
                ∧ (length name < SERVER_NAME_SIZE)%nat
                ∧ ∃ out', processArgs env opts
                            (Args (verbose a0) name (portNumber a0) (loaded_blacklist a0)
                                  true (filterFileSelected a0))
                          = Ok (Returned 0, a, out')).
      { destruct (inet_pton env optarg) eqn:Ep.
        - apply bind_ok_inv in H as (name & Hcpy & H).
          apply strcpy_length in Hcpy as [-> Hlen]. apply say_inv in H as (out' & H & _).
          exists optarg. repeat split; [by left | done | by exists out'].
        - destruct (gethostbyname env optarg) as [[ty text]|] eqn:Eg; [|done].
          destruct (ty =? AF_INET) eqn:Et; [|done]. apply Z.eqb_eq in Et as ->.
          apply bind_ok_inv in H as (name & Hcpy & H).
          apply strcpy_length in Hcpy as [-> Hlen]. apply say_inv in H as (out' & H & _).
          exists text. repeat split; [right; by exists text | done | by exists out']. }
      destruct Hcase as (name & Hacc & Hlen & out' & H').
      apply IH in H' as (_ & Hf & Hp & Hn & Hk). cbn [serverSelected filterFileSelected
        loaded_blacklist portNumber serverName] in *.
      split.
      { right. exists optarg. split; [apply elem_of_cons; by left | done]. }
      split.
      { destruct Hf as [(Hf1 & Hf2 & Hf3)|(before & file & after & stream & -> & Hf)].
        - left. repeat split; [done | done |]. constructor; [simpl; lia | done].
        - right. by exists ((115, optarg) :: before), file, after, stream. }
      repeat split; [done | | ].
      - right. destruct Hn as [->|Hn]; done.
      - constructor; [right; by left | done]. }
    destruct (c =? 102) eqn:Ef.
    { apply Z.eqb_eq in Ef as ->.
      apply bind_ok_inv in H as ([status bl] & Hload & H).
      destruct (status =? 1) eqn:E1; [done|]. apply Z.eqb_neq in E1.
      apply getDnsFilter_status in Hload as Hst.
      destruct Hst as [(-> & _)|(-> & stream & Hopen)]; [done|].
      rewrite Hopen in Hload.
      apply say_inv in H as (out' & H & _).
      apply IH in H as (Hs & Hf & Hp & Hn & Hk). cbn [serverSelected filterFileSelected
        loaded_blacklist portNumber serverName] in *.
      split.
      { destruct Hs as [Hs|(o & Hin & Hs)]; [by left|].
        right. exists o. split; [by apply elem_of_cons; right | done]. }
      split.
      { right.
        destruct Hf as [(Hf1 & Hf2 & Hf3)|(before & file & after & stream' & -> & Hf)].
        - exists [], optarg, opts, stream. rewrite Hf2. done.
        - by exists ((102, optarg) :: before), file, after, stream'. }
      repeat split; [done | done |]. constructor; [right; right; by left | done]. }
    destruct (c =? 112) eqn:Ep; [|done].
    apply Z.eqb_eq in Ep as ->.
    destruct (strtol env optarg) as [value consumed].
    cbv zeta in H.
    destruct (negb (cell optarg consumed =? 0) || (consumed =? 0)%nat
              || (int_of_long value >? 65535) || (int_of_long value <? 0)) eqn:Ebad;
      [done|].
    apply orb_false_elim in Ebad as [Ebad Elo]. apply orb_false_elim in Ebad as [_ Ehi].
    apply Z.ltb_ge in Elo. rewrite Z.gtb_ltb in Ehi. apply Z.ltb_ge in Ehi.
    apply say_inv in H as (out' & H & _).
    apply IH in H as (Hs & Hf & Hp & Hn & Hk). cbn [serverSelected filterFileSelected
      loaded_blacklist portNumber serverName] in *.
    split.
    { destruct Hs as [Hs|(o & Hin & Hs)]; [by left|].
      right. exists o. split; [by apply elem_of_cons; right | done]. }
    split.
    { destruct Hf as [(Hf1 & Hf2 & Hf3)|(before & file & after & stream & -> & Hf)].
      - left. repeat split; [done | done |]. constructor; [simpl; lia | done].
      - right. by exists ((112, optarg) :: before), file, after, stream. }
    repeat split; [ | done | ].
    + right. destruct Hp as [->|Hp]; lia.
    + constructor; [right; right; by right | done].
Qed.

(** X22.  [processArgs] returns 0 only when an option -s was given whose
    argument [inet_pton] or [gethostbyname] accepted and an option -f
    whose file could be opened; the list then in [blacklist] is the one
    read from the file of the last -f, the port is in 0..65535, the server
    name fits the array of 20 characters, and no other option than -v, -s,
    -f, -p was seen. *)
Theorem processArgs_success (env : library) (opts : list (Z * list Z))
    (a : arguments) (out : list notice) :
  processArgs env opts no_arguments = Ok (Returned 0, a, out) →
  server_given env opts
  ∧ filter_given env opts (loaded_blacklist a)
  ∧ 0 <= portNumber a <= 65535
  ∧ (length (serverName a) < SERVER_NAME_SIZE)%nat
  ∧ Forall (λ o, known_option o.1) opts.
Proof.
  intros H. apply processArgs_returns_0 in H as (Hs & Hf & Hp & Hn & Hk).
  cbn [no_arguments serverSelected filterFileSelected portNumber serverName] in *.
  split; [by destruct Hs|]. split; [by destruct Hf as [(? & _)|]|].
  split; [destruct Hp as [->|]; lia|].
  split; [|done]. destruct Hn as [->|]; [unfold SERVER_NAME_SIZE; simpl; lia | done].
Qed.


(** The number in the line about [realloc] is the number of entries that
    [getDnsFilter] leaves in the list, and the line about the file is
    printed exactly when the function returns 1. *)
Lemma filter_loop_stderr_size realloc_ok fuel :
  ∀ filebuf stream r allocated n,
    n ∈ filter_loop_stderr fuel realloc_ok filebuf stream (length r) allocated →
    ∃ bl, filter_loop fuel realloc_ok filebuf stream r allocated = Ok (0, bl)
          ∧ n = OutOfMemory (length bl).
Proof.
  induction fuel as [|fuel IH]; intros filebuf stream r allocated n Hn.
  { by apply elem_of_nil in Hn. }
  cbn [filter_loop_stderr filter_loop] in *.
  destruct (fgets filebuf stream) as [[filebuf' stream']|];
    [|by apply elem_of_nil in Hn].
  destruct (cell filebuf' 0 =? 35); [by apply IH|]. cbv zeta in *.
  assert (Hnext : ∀ x, S (length r) = length (r ++ [x])).
  { intros x. rewrite length_app. simpl. lia. }
  destruct (length r =? allocated)%nat.
  - destruct (realloc_ok _).
    + rewrite (Hnext (cstring (<[(FILE_BUFFER_SIZE - 1)%nat:=0]>
                                 (strip FILE_BUFFER_SIZE 0 filebuf')))) in Hn.
      by apply IH.
    + apply elem_of_cons in Hn as [->|Hn]; [by exists r | by apply elem_of_nil in Hn].
  - rewrite (Hnext (cstring (<[(FILE_BUFFER_SIZE - 1)%nat:=0]>
                               (strip FILE_BUFFER_SIZE 0 filebuf')))) in Hn.
    by apply IH.
Qed.

Lemma getDnsFilter_stderr_size realloc_ok name file n :
  n ∈ getDnsFilter_stderr realloc_ok name file →
  (n = FilterOpenError name ∧ getDnsFilter realloc_ok file = Ok (1, []))
  ∨ (∃ bl, getDnsFilter realloc_ok file = Ok (0, bl) ∧ n = OutOfMemory (length bl)).
Proof.
  destruct file as [stream|]; unfold getDnsFilter_stderr, getDnsFilter; intros Hn.
  - right. by apply (filter_loop_stderr_size realloc_ok _ _ _ []).
  - left. apply elem_of_cons in Hn as [->|Hn]; [done | by apply elem_of_nil in Hn].
Qed.



(** ** Where the loop sends *)

Lemma addressed_fresh clients : addressed clients fresh_table.
Proof. intros j. rewrite slot_fresh. by left. Qed.

Lemma addressed_more clients more t :
  addressed clients t → addressed (clients ++ more) t.
Proof.
  intros H j. destruct (H j) as [H0|Hin]; [by left|].
  right. apply elem_of_app. by left.
Qed.

Lemma addressed_record clients t id src :
  table_ok t → addressed clients t → src ∈ clients →
  addressed clients (record t (sin_port src) id (sin_addr src)).
Proof.
  intros Hok Ht Hsrc j.
  change (record t (sin_port src) id (sin_addr src))
    with (record_entry t (Entry id (sin_port src) (sin_addr src))).
  destruct (decide (j = Z.to_nat (portsCounter t))) as [->|Hj].
  - rewrite slot_record_eq by done. right. by destruct src.
  - rewrite slot_record_ne by done. apply Ht.
Qed.

Lemma destination_ok_more cfg clients more o :
  destination_ok cfg clients o → destination_ok cfg (clients ++ more) o.
Proof.
  destruct o as [[|] payload dest| | |]; simpl; [|done..].
  intros [H|H]; [by left|]. right. apply elem_of_app. by left.
Qed.

Lemma destination_ok_later cfg clients before o :
  destination_ok cfg clients o → destination_ok cfg (before ++ clients) o.
Proof.
  destruct o as [[|] payload dest| | |]; simpl; [|done..].
  intros [H|H]; [by left|]. right. apply elem_of_app. by right.
Qed.

Lemma decide_query_destinations cfg st h bad name type class failed clients :
  table_ok (pending st) → addressed clients (pending st) →
  clientAddress st ∈ clients →
  let r := decide_query cfg st h bad name type class failed in
  Forall (destination_ok cfg clients) r.2 ∧ addressed clients (pending r.1.2).
Proof.
  intros Hok Ht Hsrc. unfold decide_query, error_answer, forward, sendto, send_error.
  destruct ((type <=? 0) || (class <=? 0) || bad);
    [destruct failed; cbn; (split; [destinations; by right | done])|].
  destruct (negb (type =? 1) || negb (class =? 1));
    [destruct failed; cbn; (split; [destinations; by right | done])|].
  destruct (isBlacklisted (blacklist cfg) name);
    [destruct failed; cbn; (split; [destinations; by right | done])|].
  destruct failed; cbn; (split; [destinations; done | by apply addressed_record]).
Qed.

Lemma client_question_destinations cfg st r failed continue st' out clients :
  table_ok (pending st) → addressed clients (pending st) →
  client_question cfg st r failed = Ok (continue, st', out) →
  let clients' := clients ++ match r with Datagram _ src => [src] | _ => [] end in
  Forall (destination_ok cfg clients') out ∧ addressed clients' (pending st').
Proof.
  intros Hok Ht. destruct r as [|data src]; unfold client_question.
  - intros [= _ <- <-]. cbv zeta. rewrite app_nil_r.
    split; [unfold recv_error_log; destinations | done].
  - intros H. apply bind_ok_inv in H as ([[name type] class] & _ & H).
    injection H as H. cbv zeta.
    match type of H with
    | decide_query ?a ?b ?c ?d ?e ?f ?g ?h = _ =>
        pose proof (decide_query_destinations a b c d e f g h (clients ++ [src])) as Hd
    end.
    rewrite H in Hd. apply Hd.
    + done.
    + by apply addressed_more.
    + apply elem_of_app. right. apply elem_of_cons. by left.
Qed.

Lemma server_answer_destinations cfg st r st' out clients :
  addressed clients (pending st) →
  server_answer cfg st r = Ok (st', out) →
  Forall (destination_ok cfg clients) out.
Proof.
  intros Ht. destruct r as [|data src]; unfold server_answer.
  - intros [= _ <-]. unfold recv_error_log. destinations.
  - intros H. apply bind_ok_inv in H as ([[name type] class] & _ & H).
    assert (Hw : Forall (destination_ok cfg clients) (source_warning cfg src)).
    { unfold source_warning. destruct (decide _); destinations. }
    destruct (resolve _ _) as [[port addr]|] eqn:Er; injection H as _ <-; [|done].
    apply Forall_app. split; [done|]. constructor; [done|]. constructor; [|constructor].
    apply resolve_from_some_inv in Er as (j & _ & Hslot & _). cbn.
    cbn [recvfrom pending] in Hslot. pose proof (Ht j) as Hj. by rewrite Hslot in Hj.
Qed.

Lemma iteration_destinations cfg st w clients :
  state_ok st → addressed clients (pending st) →
  defined (outputs (iteration cfg st w)) →
  Forall (destination_ok cfg (clients ++ client_sources [w])) (outputs (iteration cfg st w))
  ∧ ∀ st' out, iteration cfg st w = Polling st' out →
               addressed (clients ++ client_sources [w]) (pending st').
Proof.
  intros Hok Ht Hd. destruct (poll_failed w) eqn:Hp.
  { unfold iteration. rewrite Hp. split; [cbn; destinations | done]. }
  destruct (iteration_polls cfg st w Hp) as (st2 & out & Hi). rewrite Hi in Hd |- *.
  cbn [outputs] in Hd |- *.
  destruct (iteration_defined _ _ _ _ _ Hi Hd) as (continue & st1 & out1 & Hc & Hrest).
  assert (Hsrc : client_sources [w]
                 = match client_in w with
                   | Some (Datagram _ src) => [src]
                   | _ => []
                   end).
  { unfold client_sources. simpl. by rewrite app_nil_r. }
  assert (H1 : Forall (destination_ok cfg (clients ++ client_sources [w])) out1
               ∧ addressed (clients ++ client_sources [w]) (pending st1)
               ∧ state_ok st1).
  { rewrite Hsrc. destruct (client_in w) as [r|].
    - pose proof (client_question_state_ok _ _ _ _ _ _ _ Hok Hc) as Hok1.
      apply client_question_destinations with (clients := clients) in Hc;
        [|apply Hok | done].
      cbv zeta in Hc. destruct Hc as [Hd' Ha]. by destruct r.
    - injection Hc as _ <- <-. rewrite app_nil_r.
      split; [constructor|]. split; [done | exact Hok]. }
  destruct H1 as (Hd1 & Ha1 & Hok1).
  destruct continue.
  { destruct Hrest as [-> ->]. split; [done|]. by intros st' out' [= <- _]. }
  destruct (server_in w) as [r|].
  - destruct Hrest as (out2 & Hs & ->).
    pose proof (server_answer_pending _ _ _ _ _ Hs) as Hpend.
    apply server_answer_destinations with (clients := clients ++ client_sources [w]) in Hs;
      [|done].
    split; [by apply Forall_app|]. intros st' out' [= <- _]. by rewrite Hpend.
  - destruct Hrest as [-> ->]. split; [done|]. by intros st' out' [= <- _].
Qed.

Lemma run_addressed cfg ws :
  ∀ st st' out clients,
    state_ok st → addressed clients (pending st) →
    run cfg st ws = Polling st' out → defined out →
    state_ok st' ∧ addressed (clients ++ client_sources ws) (pending st').
Proof.
  induction ws as [|w ws IH]; intros st st' out clients Hok Ht H Hd.
  - injection H as <- _. cbn. by rewrite app_nil_r.
  - cbn [run] in H.
    destruct (iteration cfg st w) as [st1 out1|] eqn:Ho; [|done].
    destruct (run cfg st1 ws) as [st2 out2|] eqn:Ho'; [|done].
    injection H as <- <-. apply defined_app in Hd as [Hd1 Hd2].
    assert (Hsplit : client_sources (w :: ws) = client_sources [w] ++ client_sources ws).
    { unfold client_sources. simpl. by rewrite app_nil_r. }
    rewrite Hsplit, app_assoc.
    pose proof (iteration_state_ok _ _ _ _ _ Hok Ho Hd1) as Hok1.
    pose proof (iteration_destinations cfg st w clients Hok Ht) as Hit.
    rewrite Ho in Hit. destruct (Hit Hd1) as [_ Ha1].
    apply (IH st1 st2 out2 (clients ++ client_sources [w]) Hok1 (Ha1 _ _ eq_refl) Ho' Hd2).
Qed.

(** X24.  From the start of the loop and as long as no name walk has left
    its arrays: in every iteration, every datagram sent on the server
    socket goes to the configured server address, and every datagram sent
    on the client socket goes to the sender of a datagram that was
    received on the client socket in this or in an earlier iteration, or
    to port 0 of address 0 (the zeros an unused slot of the table
    holds). *)
Theorem loop_destinations (cfg : config) (heap : list Z) (addr : sockaddr_in)
    (ws : list wakeup) (st : state) (out : list output) (w : wakeup) :
  length heap = Z.to_nat BUFFER_SIZE →
  run cfg (initial_state heap addr) ws = Polling st out → defined out →
  defined (outputs (iteration cfg st w)) →
  Forall (destination_ok cfg (client_sources (ws ++ [w]))) (outputs (iteration cfg st w)).
Proof.
  intros Hheap Hrun Hd Hdw.
  destruct (run_addressed cfg ws _ _ _ [] (state_ok_initial heap addr Hheap)
              (addressed_fresh []) Hrun Hd) as [Hok Ha].
  cbn [app] in Ha.
  assert (Hsplit : client_sources (ws ++ [w]) = client_sources ws ++ client_sources [w]).
  { unfold client_sources. by rewrite flat_map_app. }
  rewrite Hsplit. by apply iteration_destinations.
Qed.

(** ** The start of the program *)

Lemma opened_said out l : opened (map Said out ++ l) = opened l.
Proof. induction out as [|n out IH]; [done|]. apply IH. Qed.

Lemma closed_said out l : closed (map Said out ++ l) = closed l.
Proof. induction out as [|n out IH]; [done|]. apply IH. Qed.

Lemma bound_said out l : bound (map Said out ++ l) = bound l.
Proof. induction out as [|n out IH]; [done|]. apply IH. Qed.

Lemma sockets_said out :
  opened (map Said out) = [] ∧ closed (map Said out) = [] ∧ bound (map Said out) = [].
Proof.
  rewrite <- (app_nil_r (map Said out)).
  by rewrite opened_said, closed_said, bound_said.
Qed.

(** X25.  When [main] stops before the loop its status is 1 and every
    socket it has opened is closed again, the last opened first. *)
Theorem startup_failure_closes_sockets (argc : Z) (env : library) (sys : system)
    (opts : list (Z * list Z)) (status : Z) (log : list action) :
  startup argc env sys opts = Ok (Stopped status log) →
  status = 1 ∧ closed log = reverse (opened log).
Proof.
  unfold startup. destruct (argc <? 2); [by intros [= <- <-]|].
  intros H. apply bind_ok_inv in H as ([[f a] out] & _ & H).
  destruct (sockets_said out) as (Ho & Hc & _).
  destruct f as [code|]; [|injection H as <- <-; by rewrite Ho, Hc].
  destruct (negb (code =? 0)); [injection H as <- <-; by rewrite Ho, Hc|].
  destruct (negb (socket_client sys));
    [injection H as <- <-; by rewrite opened_said, closed_said|].
  destruct (negb (bind_client sys _));
    [injection H as <- <-; by rewrite opened_said, closed_said|].
  destruct (negb (socket_server sys));
    [injection H as <- <-; by rewrite opened_said, closed_said|].
  destruct (negb (bind_server sys));
    [injection H as <- <-; by rewrite opened_said, closed_said|].
  done.
Qed.

Lemma startup_looping argc env sys opts cfg st a log :
  startup argc env sys opts = Ok (Looping cfg st a log) →
  (∃ out, processArgs env opts no_arguments = Ok (Returned 0, a, out))
  ∧ cfg = Config (loaded_blacklist a) (SockAddr (htons 53) (inet_addr sys (serverName a)))
  ∧ st = initial_state (malloc_buffer sys) (stack_address sys)
  ∧ opened log = [clientSocketDescritor; serverSocketDescritor]
  ∧ closed log = []
  ∧ bound log = [(clientSocketDescritor, htons (portNumber a));
                 (serverSocketDescritor, htons 0)].
Proof.
  unfold startup. destruct (argc <? 2); [done|].
  intros H. apply bind_ok_inv in H as ([[f a'] out] & Hargs & H).
  destruct f as [code|]; [|done].
  destruct (code =? 0) eqn:E0; [|done]. apply Z.eqb_eq in E0 as ->. cbn [negb] in H.
  destruct (negb (socket_client sys)); [done|].
  destruct (negb (bind_client sys _)); [done|].
  destruct (negb (socket_server sys)); [done|].
  destruct (negb (bind_server sys)); [done|].
  injection H as <- <- <- <-.
  rewrite opened_said, closed_said, bound_said.
  split; [by exists out|]. done.
Qed.

Lemma processArgs_server_name env opts :
  ∀ a0 a out,
    processArgs env opts a0 = Ok (Returned 0, a, out) →
    (serverName a = serverName a0 ∧ Forall (λ o, o.1 ≠ 115) opts)
    ∨ server_name_given env opts (serverName a).
Proof.
  induction opts as [|[c optarg] opts IH]; intros a0 a out H.
  - simpl in H. destruct (serverSelected a0); [|done].
    destruct (filterFileSelected a0); [|done]. injection H as <- <-. by left.
  - cbn [processArgs] in H.
    assert (Hstep : ∀ a1 out',
              c ≠ 115 → serverName a1 = serverName a0 →
              processArgs env opts a1 = Ok (Returned 0, a, out') →
              (serverName a = serverName a0
               ∧ Forall (λ o : Z * list Z, o.1 ≠ 115) ((c, optarg) :: opts))
              ∨ server_name_given env ((c, optarg) :: opts) (serverName a)).
    { intros a1 out' Hc Hn H'. apply IH in H' as [[Hsame Hno]|Hgiven].
      - left. split; [congruence|]. by constructor.
      - right. destruct Hgiven as (before & o & after & -> & Hrest).
        by exists ((c, optarg) :: before), o, after. }
    destruct (c =? 118) eqn:Ev.
    { apply Z.eqb_eq in Ev as ->. apply say_inv in H as (out' & H & _).
      refine (Hstep _ _ _ _ H); [lia | done]. }
    destruct (c =? 115) eqn:Es.
    { apply Z.eqb_eq in Es as ->. right.
      assert (Hcase : ∃ name out',
                (if inet_pton env optarg then name = optarg
                 else gethostbyname env optarg = Some (AF_INET, name))
                ∧ processArgs env opts
                    (Args (verbose a0) name (portNumber a0) (loaded_blacklist a0)
                          true (filterFileSelected a0))
                  = Ok (Returned 0, a, out')).
      { destruct (inet_pton env optarg) eqn:Ep.
        - apply bind_ok_inv in H as (name & Hcpy & H).
          apply strcpy_length in Hcpy as [-> _]. apply say_inv in H as (out' & H & _).
          by exists optarg, out'.
        - destruct (gethostbyname env optarg) as [[ty text]|] eqn:Eg; [|done].
          destruct (ty =? AF_INET) eqn:Et; [|done]. apply Z.eqb_eq in Et as ->.
          apply bind_ok_inv in H as (name & Hcpy & H).
          apply strcpy_length in Hcpy as [-> _]. apply say_inv in H as (out' & H & _).
          by exists text, out'. }
      destruct Hcase as (name & out' & Hname & H').
      apply IH in H' as [[Hsame Hno]|Hgiven].
      - cbn [serverName] in Hsame. exists [], optarg, opts.
        split; [done|]. split; [done|]. by rewrite Hsame.
      - destruct Hgiven as (before & o & after & -> & Hrest).
        by exists ((115, optarg) :: before), o, after. }
    apply Z.eqb_neq in Es.
    destruct (c =? 102) eqn:Ef.
    { apply bind_ok_inv in H as ([status bl] & _ & H). cbv zeta in H.
      destruct (status =? 1); [done|]. apply say_inv in H as (out' & H & _).
      refine (Hstep _ _ Es _ H); done. }
    destruct (c =? 112) eqn:Ep; [|done].
    destruct (strtol env optarg) as [value consumed]. cbv zeta in H.
    destruct (negb _ || _ || _ || _); [done|].
    apply say_inv in H as (out' & H & _). refine (Hstep _ _ Es _ H); done.
Qed.

(** X26.  When [main] is in its loop, [processArgs] has returned 0; the
    loop runs with the list that [getDnsFilter] has read from the file of
    the last -f as its blacklist, and with port 53 of the address of the
    server name, the name the last -s has set, as its server address,
    whatever -p says; the client socket is bound to the port of -p (53
    without it), a number in 0..65535, and the server socket to port 0;
    and both sockets are open. *)
Theorem main_in_the_loop (argc : Z) (env : library) (sys : system)
    (opts : list (Z * list Z)) (ws : list wakeup) (log : list action)
    (st : state) (out : list output) :
  main argc env sys opts ws = Ok (log, Polling st out) →
  ∃ (a : arguments) (printed : list notice),
    processArgs env opts no_arguments = Ok (Returned 0, a, printed)
    ∧ server_name_given env opts (serverName a)
    ∧ filter_given env opts (loaded_blacklist a)
    ∧ 0 <= portNumber a <= 65535
    ∧ run (Config (loaded_blacklist a)
                  (SockAddr (htons 53) (inet_addr sys (serverName a))))
          (initial_state (malloc_buffer sys) (stack_address sys)) ws
      = Polling st out
    ∧ opened log = [clientSocketDescritor; serverSocketDescritor]
    ∧ closed log = []
    ∧ bound log = [(clientSocketDescritor, htons (portNumber a));
                   (serverSocketDescritor, htons 0)].
Proof.
  intros H. unfold main in H. apply bind_ok_inv in H as (s & Hs & H).
  destruct s as [status log'|cfg st0 a log']; [done|].
  injection H as <- Hrun.
  apply startup_looping in Hs as ((printed & Hargs) & -> & -> & Ho & Hc & Hb).
  exists a, printed. split; [exact Hargs|].
  pose proof (processArgs_server_name _ _ _ _ _ Hargs) as Hname.
  apply processArgs_returns_0 in Hargs as (Hsrv & Hf & Hp & _).
  cbn [no_arguments serverSelected filterFileSelected portNumber serverName] in *.
  split.
  { destruct Hname as [[_ Hno]|Hname]; [|done].
    destruct Hsrv as [Hsrv|(optarg & Hin & _)]; [done|].
    apply list_elem_of_lookup_1 in Hin as [i Hi].
    by apply (Forall_lookup_1 _ _ _ _ Hno) in Hi. }
  split; [by destruct Hf as [(? & _)|]|].
  split; [destruct Hp as [->|]; lia|].
  done.
Qed.

(** ** Lines longer than the buffer of getDnsFilter *)

Lemma read_line_long (n : nat) (line rest : list Z) :
  Forall (λ c, c ≠ 10) line → (n ≤ length line)%nat →
  read_line n (line ++ rest) = (take n line, drop n line ++ rest).
Proof.
  revert n. induction line as [|c line IH]; intros n Hl Hn.
  - simpl in Hn. assert (n = 0%nat) as -> by lia. done.
  - destruct n as [|n]; [done|]. inversion Hl as [|? ? Hc Hl']; subst.
    simpl. rewrite (proj2 (Z.eqb_neq c 10)) by done.
    rewrite IH; [done | done | simpl in Hn; lia].
Qed.

(** X27.  A line of 511 to 1021 characters does not fit the buffer of 512
    and is read in two pieces, which are treated as two lines: the first
    511 characters, and the rest.  Each is stored as an entry of its own
    unless it begins with #, so the rest of a long line is skipped as a
    comment when its first character is #; and for a line of exactly 511
    characters the rest is the empty string, the entry that every name
    contains. *)
Theorem long_line_split (realloc_ok : nat → bool) (line : list Z) :
  (∀ c, realloc_ok c = true) →
  Forall (λ c, 32 <= c < 128) line →
  (FILE_BUFFER_SIZE - 1 ≤ length line < 2 * (FILE_BUFFER_SIZE - 1))%nat →
  getDnsFilter realloc_ok (Some (line ++ [10]))
  = Ok (0, line_entries [take (FILE_BUFFER_SIZE - 1) line;
                         drop (FILE_BUFFER_SIZE - 1) line]).
Proof.
  intros Hmem Hp Hlen.
  assert (H10 : Forall (λ c, c ≠ 10) line).
  { eapply Forall_impl; [|exact Hp]. simpl. lia. }
  assert (Hoct : octets (line ++ [10])).
  { apply Forall_app. split; [|by repeat constructor].
    eapply Forall_impl; [|exact Hp]. simpl. lia. }
  destruct (getDnsFilter_entries realloc_ok (line ++ [10]) Hoct) as (n & Hrun & _ & Hall).
  rewrite Hrun, (Hall Hmem), firstn_all. do 2 f_equal.
  assert (Hfuel : ∃ fuel, S (length (line ++ [10])) = S (S (S fuel))).
  { rewrite length_app. simpl. unfold FILE_BUFFER_SIZE in Hlen.
    exists (length line - 1)%nat. lia. }
  destruct Hfuel as [fuel ->].
  rewrite file_entries_S.
  destruct (line ++ [10]) as [|c0 s0] eqn:Es; [by destruct line|]. rewrite <- Es.
  rewrite read_line_long by (done || lia).
  assert (Hrest : file_entries (S (S fuel)) (drop (FILE_BUFFER_SIZE - 1) line ++ [10])
                  = line_entries [drop (FILE_BUFFER_SIZE - 1) line]).
  { rewrite <- (file_entries_text [drop (FILE_BUFFER_SIZE - 1) line] (S (S fuel))).
    - unfold text_file. cbn [map concat]. by rewrite app_nil_r.
    - constructor; [|constructor]. split; [rewrite length_drop; lia | by apply Forall_drop].
    - simpl. lia. }
  rewrite Hrest. reflexivity.
Qed.

(** * The further properties at sample inputs *)

Lemma record_keeps_other_ids_witness :
  7 ≠ 5
  ∧ e_id (slot (record fresh_table 2222 7 200)
               (Z.to_nat (portsCounter (record fresh_table 2222 7 200)))) ≠ 7
  ∧ resolve (record (record fresh_table 2222 7 200) 1111 5 100) 7
    = resolve (record fresh_table 2222 7 200) 7.
Proof.
  assert (H1 : 7 ≠ 5) by lia.
  assert (H2 : e_id (slot (record fresh_table 2222 7 200)
                          (Z.to_nat (portsCounter (record fresh_table 2222 7 200)))) ≠ 7)
    by (vm_compute; discriminate).
  split; [exact H1|]. split; [exact H2|].
  exact (record_keeps_other_ids (record fresh_table 2222 7 200) 1111 5 100 7 H1 H2).
Defined.

Lemma live_unique_id_resolves_witness :
  [Entry 5 1111 100; Entry 7 2222 200] !! 1%nat = Some (Entry 7 2222 200)
  ∧ (length [Entry 5 1111 100; Entry 7 2222 200] <= 1 + 31)%nat
  ∧ e_id (Entry 7 2222 200) ≠ 0
  ∧ resolve (record_all fresh_table [Entry 5 1111 100; Entry 7 2222 200]) 7
    = Some (2222, 200).
Proof.
  assert (H1 : [Entry 5 1111 100; Entry 7 2222 200] !! 1%nat = Some (Entry 7 2222 200))
    by reflexivity.
  assert (H2 : (length [Entry 5 1111 100; Entry 7 2222 200] <= 1 + 31)%nat)
    by (simpl; lia).
  assert (H3 : e_id (Entry 7 2222 200) ≠ 0) by (simpl; lia).
  split; [exact H1|]. split; [exact H2|]. split; [exact H3|].
  apply (live_unique_id_resolves [Entry 5 1111 100; Entry 7 2222 200] 1
           (Entry 7 2222 200) H1 H2 H3).
  intros [|[|i']] e' He _ Hid.
  - injection He as <-. simpl in Hid. lia.
  - reflexivity.
  - discriminate He.
Defined.

Lemma dead_id_not_found_witness :
  100 ≠ 0
  ∧ Forall (λ e, e_id e ≠ 100) (live (numbered_entries 100))
  ∧ resolve (record_all fresh_table (numbered_entries 100)) 100 = None.
Proof.
  assert (H1 : 100 ≠ 0) by lia.
  assert (H2 : Forall (λ e, e_id e ≠ 100) (live (numbered_entries 100))) by by_decision.
  split; [exact H1|]. split; [exact H2|].
  exact (dead_id_not_found (numbered_entries 100) 100 H1 H2).
Defined.

Lemma one_send_per_query_witness :
  ∃ continue st' out,
    client_question sample_config sample_state
      (Datagram (query 7 ["example"; "com"]%string 1 1) sample_client) false
    = Ok (continue, st', out)
    ∧ ((continue = false
        ∧ client_payloads out = []
        ∧ upstream_payloads out
          = [received_octets (query 7 ["example"; "com"]%string 1 1)])
       ∨ (continue = true
          ∧ upstream_payloads out = []
          ∧ (∃ reply, client_payloads out = [(reply, sample_client)])
          ∧ pending st' = pending sample_state)).
Proof.
  assert (H : ∃ r, client_question sample_config sample_state
                     (Datagram (query 7 ["example"; "com"]%string 1 1) sample_client)
                     false = Ok r)
    by (eexists; vm_compute; reflexivity).
  destruct H as [[[continue st'] out] H]. exists continue, st', out.
  split; [exact H|].
  exact (one_send_per_query sample_config sample_state
           (query 7 ["example"; "com"]%string 1 1) sample_client false
           continue st' out H).
Defined.

Lemma zero_type_is_format_error_witness :
  octets (query 7 ["example"; "com"]%string 0 1)
  ∧ header_sane (header_of (query 7 ["example"; "com"]%string 0 1))
  ∧ ∃ st' reply,
      client_question sample_config sample_state
        (Datagram (query 7 ["example"; "com"]%string 0 1) sample_client) false
      = Ok (true, st',
            format_error_log ++ Sendto clientSocketDescritor reply sample_client
            :: send_error false)
      ∧ hdr_rcode (header_of reply) = 1.
Proof.
  assert (Hoct : octets (query 7 ["example"; "com"]%string 0 1))
    by (apply octetsb_octets; vm_compute; reflexivity).
  assert (Hsane : header_sane (header_of (query 7 ["example"; "com"]%string 0 1)))
    by (vm_compute; repeat split; (reflexivity || discriminate)).
  split; [exact Hoct|]. split; [exact Hsane|].
  destruct (zero_type_is_format_error sample_config sample_state
              (query 7 ["example"; "com"]%string 0 1) sample_client false
              (octets_of_string "example.com") 0 1 Hoct)
    as (st' & reply & Hq & _ & Hr & _).
  - vm_compute. lia.
  - exact Hsane.
  - vm_compute. reflexivity.
  - left. lia.
  - exists st', reply. split; [exact Hq|exact Hr].
Defined.

Lemma unknown_id_dropped_witness :
  is_ok (getDnsRequestData (recv_into (resp_buffer sample_state) sample_answer)
                           None None) = true
  ∧ resolve (pending sample_state)
            (hdr_id (header_of (recv_into (resp_buffer sample_state) sample_answer)))
    = None
  ∧ ∃ st',
      server_answer sample_config sample_state (Datagram sample_answer sample_server)
      = Ok (st', [])
      ∧ pending st' = pending sample_state.
Proof.
  assert (H1 : is_ok (getDnsRequestData
                        (recv_into (resp_buffer sample_state) sample_answer)
                        None None) = true) by (vm_compute; reflexivity).
  assert (H2 : resolve (pending sample_state)
                 (hdr_id (header_of (recv_into (resp_buffer sample_state) sample_answer)))
               = None) by (vm_compute; reflexivity).
  split; [exact H1|]. split; [exact H2|].
  destruct (unknown_id_dropped sample_config sample_state sample_answer sample_server
              H1 H2) as (st' & Hs & _ & _ & Hp & _).
  exists st'. split; [exact Hs|exact Hp].
Defined.

Lemma unexpected_source_still_forwarded_witness :
  sample_client ≠ serverAddress sample_config
  ∧ ∃ st',
      server_answer sample_config sample_pending (Datagram sample_answer sample_client)
      = Ok (st', [Stderr "Answer from unexpected source.";
                  VerboseEntry "answer" (cstring (octets_of_string "example.com"));
                  Sendto clientSocketDescritor (received_octets sample_answer)
                         (SockAddr (sin_port sample_client) (sin_addr sample_client))]).
Proof.
  assert (H1 : sample_client ≠ serverAddress sample_config) by (vm_compute; discriminate).
  split; [exact H1|].
  apply (unexpected_source_still_forwarded sample_config sample_pending sample_answer
           sample_client (octets_of_string "example.com")
           (sin_port sample_client) (sin_addr sample_client) H1).
  - vm_compute. reflexivity.
  - vm_compute. reflexivity.
Defined.

Lemma answer_returns_to_asker_witness :
  table_ok (pending sample_state)
  ∧ octets (query 7 ["example"; "com"]%string 1 1)
  ∧ header_sane (header_of (query 7 ["example"; "com"]%string 1 1))
  ∧ hdr_id (header_of sample_answer)
    = hdr_id (header_of (query 7 ["example"; "com"]%string 1 1))
  ∧ ∃ st1 out1 st2 out2,
      client_question sample_config sample_state
        (Datagram (query 7 ["example"; "com"]%string 1 1) sample_client) false
      = Ok (false, st1, out1)
      ∧ server_answer sample_config st1 (Datagram sample_answer sample_server)
        = Ok (st2, out2)
      ∧ client_payloads out2 = [(received_octets sample_answer, sample_client)].
Proof.
  assert (Hok : table_ok (pending sample_state)) by apply table_ok_fresh.
  assert (Hoct : octets (query 7 ["example"; "com"]%string 1 1))
    by (apply octetsb_octets; vm_compute; reflexivity).
  assert (Hsane : header_sane (header_of (query 7 ["example"; "com"]%string 1 1)))
    by (vm_compute; repeat split; (reflexivity || discriminate)).
  assert (Hid : hdr_id (header_of sample_answer)
                = hdr_id (header_of (query 7 ["example"; "com"]%string 1 1)))
    by (vm_compute; reflexivity).
  split; [exact Hok|]. split; [exact Hoct|]. split; [exact Hsane|]. split; [exact Hid|].
  destruct (answer_returns_to_asker sample_config sample_state
              (query 7 ["example"; "com"]%string 1 1) sample_answer
              sample_client sample_server false (octets_of_string "example.com")
              Hok Hoct)
    as (st1 & out1 & st2 & out2 & Hq & _ & Hs & Hcl & _).
  - vm_compute. lia.
  - exact Hsane.
  - vm_compute. reflexivity.
  - vm_compute. reflexivity.
  - intros j Hj. vm_compute in Hj. lia.
  - vm_compute. lia.
  - exact Hid.
  - vm_compute. reflexivity.
  - exists st1, out1, st2, out2. split; [exact Hq|]. split; [exact Hs|exact Hcl].
Defined.

Lemma loop_keeps_arrays_witness :
  length sample_heap = 1000%nat
  ∧ ∃ st' out,
      run sample_config (initial_state sample_heap (SockAddr 0 0)) sample_wakeups
      = Polling st' out
      ∧ defined out
      ∧ length (resp_buffer st') = 1000%nat
      ∧ length (ids (pending st')) = 32%nat
      ∧ 0 <= portsCounter (pending st') < 31.
Proof.
  assert (Hheap : length sample_heap = 1000%nat) by reflexivity.
  assert (H : ∃ st' out,
            run sample_config (initial_state sample_heap (SockAddr 0 0)) sample_wakeups
            = Polling st' out ∧ defined out).
  { eexists _, _. split; [vm_compute; reflexivity|]. repeat (constructor; [exact I|]).
    constructor. }
  destruct H as (st' & out & H & Hd).
  split; [exact Hheap|]. exists st', out. split; [exact H|]. split; [exact Hd|].
  destruct (loop_keeps_arrays sample_config sample_heap (SockAddr 0 0) sample_wakeups
              st' out Hheap H Hd) as (Hb & _ & Hi & _ & Hc).
  split; [exact Hb|]. split; [exact Hi|exact Hc].
Defined.

Lemma overlong_name_overflows_witness :
  length (query_header 7 1 0 1 0) = 12%nat
  ∧ Forall (λ l, (1 <= length l <= 127)%nat) (replicate 9 (replicate 63 97))
  ∧ (512 <= length (dotted (replicate 9 (replicate 63 97%Z))))%nat
  ∧ getDnsRequestData (overlong_query 7 ++ []) (Some 0) (Some 0)
    = Fault (WriteOutOfBounds 512).
Proof.
  assert (Hls : Forall (λ l, (1 <= length l <= 127)%nat) (replicate 9 (replicate 63 97)))
    by (repeat constructor; vm_compute; lia).
  assert (Hname : (512 <= length (dotted (replicate 9 (replicate 63 97%Z))))%nat)
    by (vm_compute; lia).
  split; [reflexivity|]. split; [exact Hls|]. split; [exact Hname|].
  unfold overlong_query. rewrite <- app_assoc.
  exact (overlong_name_overflows (query_header 7 1 0 1 0)
           (replicate 9 (replicate 63 97)) 1 1 [] (Some 0) (Some 0) eq_refl Hls Hname).
Defined.

Lemma walk_ignores_destinations_witness :
  getDnsRequestData (pad_to 1000 (query 7 ["example"; "com"]%string 1 1))
                    (Some 0) (Some 0)
  = Ok (octets_of_string "example.com", Some 1, Some 1)
  ∧ getDnsRequestData (pad_to 1000 (query 7 ["example"; "com"]%string 1 1)) None None
    = Ok (octets_of_string "example.com", None, None).
Proof.
  assert (H : getDnsRequestData (pad_to 1000 (query 7 ["example"; "com"]%string 1 1))
                                (Some 0) (Some 0)
              = Ok (octets_of_string "example.com", Some 1, Some 1))
    by (vm_compute; reflexivity).
  split; [exact H|].
  exact (walk_ignores_destinations _ 0 0 _ _ _ H).
Defined.

Lemma answer_header_frame_witness :
  length (query_header 7 1 0 1 0) = 12%nat
  ∧ octets (query_header 7 1 0 1 0)
  ∧ 0 <= 5 < 16
  ∧ hdr_rcode (answer_header 5 (query_header 7 1 0 1 0)) = 5
  ∧ hdr_rd (answer_header 5 (query_header 7 1 0 1 0)) = hdr_rd (query_header 7 1 0 1 0)
  ∧ hdr_id (answer_header 5 (query_header 7 1 0 1 0)) = hdr_id (query_header 7 1 0 1 0).
Proof.
  assert (Hlen : length (query_header 7 1 0 1 0) = 12%nat) by reflexivity.
  assert (Hoct : octets (query_header 7 1 0 1 0))
    by (apply octetsb_octets; vm_compute; reflexivity).
  assert (Hr : 0 <= 5 < 16) by lia.
  split; [exact Hlen|]. split; [exact Hoct|]. split; [exact Hr|].
  destruct (answer_header_frame 5 (query_header 7 1 0 1 0) Hlen Hoct Hr)
    as ((_ & _ & _ & Hrc & _) & (Hid & _ & _ & Hrd & _)).
  split; [exact Hrc|]. split; [exact Hrd|exact Hid].
Defined.

Lemma getDnsFilter_text_file_witness :
  (∀ c, enough_memory c = true)
  ∧ Forall (λ line, octets line ∧ (length line < FILE_BUFFER_SIZE - 1)%nat
                    ∧ Forall (λ c, c ≠ 10) line) sample_lines
  ∧ getDnsFilter enough_memory (Some (text_file sample_lines))
    = Ok (0, line_entries sample_lines)
  ∧ line_entries sample_lines = sample_names.
Proof.
  assert (Hmem : ∀ c, enough_memory c = true) by reflexivity.
  assert (Hlines : Forall (λ line, octets line ∧ (length line < FILE_BUFFER_SIZE - 1)%nat
                                   ∧ Forall (λ c, c ≠ 10) line) sample_lines).
  { unfold octets. by_decision. }
  split; [exact Hmem|]. split; [exact Hlines|].
  split; [|reflexivity].
  exact (getDnsFilter_text_file enough_memory sample_lines Hmem Hlines).
Defined.

Lemma getDnsFilter_round_trip_witness :
  (∀ c, enough_memory c = true)
  ∧ Forall (λ name, Forall (λ c, 32 <= c < 128) name ∧ is_comment name = false
                    ∧ (length name < FILE_BUFFER_SIZE - 1)%nat) sample_names
  ∧ getDnsFilter enough_memory (Some (text_file sample_names)) = Ok (0, sample_names).
Proof.
  assert (Hmem : ∀ c, enough_memory c = true) by reflexivity.
  assert (Hnames : Forall (λ name, Forall (λ c, 32 <= c < 128) name
                                   ∧ is_comment name = false
                                   ∧ (length name < FILE_BUFFER_SIZE - 1)%nat)
                          sample_names) by by_decision.
  split; [exact Hmem|]. split; [exact Hnames|].
  exact (getDnsFilter_round_trip enough_memory sample_names Hmem Hnames).
Defined.

Lemma getDnsFilter_entries_printable_witness :
  octets (text_file sample_lines ++ [200; 1; 65])
  ∧ (∃ bl, getDnsFilter no_memory (Some (text_file sample_lines ++ [200; 1; 65]))
           = Ok (0, bl)
           ∧ Forall (Forall (λ c, 32 <= c < 128)) bl).
Proof.
  assert (Hoct : octets (text_file sample_lines ++ [200; 1; 65]))
    by (apply octetsb_octets; vm_compute; reflexivity).
  split; [exact Hoct|].
  exact (proj1 (getDnsFilter_entries_printable no_memory _ Hoct)).
Defined.

Lemma getDnsFilter_out_of_memory_witness :
  octets (text_file (replicate 21 (octets_of_string "ads")))
  ∧ ∃ (all : blacklist_s) (n : nat),
      getDnsFilter enough_memory (Some (text_file (replicate 21 (octets_of_string "ads"))))
      = Ok (0, all)
      ∧ getDnsFilter no_memory (Some (text_file (replicate 21 (octets_of_string "ads"))))
        = Ok (0, take n all)
      ∧ (n = length all ∨ (ALLOC_SIZE ≤ n)%nat).
Proof.
  assert (Hoct : octets (text_file (replicate 21 (octets_of_string "ads"))))
    by (apply octetsb_octets; vm_compute; reflexivity).
  split; [exact Hoct|].
  exact (getDnsFilter_out_of_memory no_memory _ Hoct).
Defined.

Lemma blank_line_blocks_every_name_witness :
  (∀ c, enough_memory c = true)
  ∧ Forall (λ line, octets line ∧ (length line < FILE_BUFFER_SIZE - 1)%nat
                    ∧ Forall (λ c, c ≠ 10) line) [octets_of_string "ads"; [13]]
  ∧ [13] ∈ [octets_of_string "ads"; [13]]
  ∧ hd 0 [13] < 32
  ∧ ∃ bl, getDnsFilter enough_memory
            (Some (text_file [octets_of_string "ads"; [13]])) = Ok (0, bl)
          ∧ ∀ name, isBlacklisted bl name = true.
Proof.
  assert (Hmem : ∀ c, enough_memory c = true) by reflexivity.
  assert (Hlines : Forall (λ line, octets line ∧ (length line < FILE_BUFFER_SIZE - 1)%nat
                                   ∧ Forall (λ c, c ≠ 10) line)
                          [octets_of_string "ads"; [13]]).
  { unfold octets. by_decision. }
  assert (Hin : [13] ∈ [octets_of_string "ads"; [13]]) by by_decision.
  assert (Hhd : hd 0 [13] < 32) by (simpl; lia).
  split; [exact Hmem|]. split; [exact Hlines|]. split; [exact Hin|]. split; [exact Hhd|].
  exact (blank_line_blocks_every_name enough_memory _ _ Hmem Hlines Hin Hhd).
Defined.

Lemma printIp_dotted_witness :
  octets [8; 8; 4; 4]
  ∧ ntohl_octets 8 8 4 4 = 134743044
  ∧ printIp 134743044 53
    = [Decimal 8; Text (octets_of_string "."); Decimal 8; Text (octets_of_string ".");
       Decimal 4; Text (octets_of_string "."); Decimal 4; Text (octets_of_string "#");
       Decimal 53; Text [9]].
Proof.
  assert (Hoct : octets [8; 8; 4; 4]) by (apply octetsb_octets; vm_compute; reflexivity).
  split; [exact Hoct|]. split; [reflexivity|].
  exact (printIp_dotted 8 8 4 4 53 Hoct).
Defined.

Lemma processArgs_success_witness :
  processArgs sample_library sample_options no_arguments
  = Ok (Returned 0, sample_arguments, [])
  ∧ server_given sample_library sample_options
  ∧ filter_given sample_library sample_options sample_names
  ∧ 0 <= portNumber sample_arguments <= 65535.
Proof.
  assert (H : processArgs sample_library sample_options no_arguments
              = Ok (Returned 0, sample_arguments, [])) by (vm_compute; reflexivity).
  split; [exact H|].
  destruct (processArgs_success sample_library sample_options sample_arguments [] H)
    as (Hs & Hf & Hp & _).
  split; [exact Hs|]. split; [exact Hf|exact Hp].
Defined.


Lemma loop_destinations_witness :
  length sample_heap = Z.to_nat BUFFER_SIZE
  ∧ ∃ st out,
      run sample_config (initial_state sample_heap (SockAddr 0 0)) (take 1 sample_wakeups)
      = Polling st out
      ∧ defined out
      ∧ defined (outputs (iteration sample_config st
                            (Wakeup false None (Some (Datagram sample_answer sample_server))
                                    false false sample_frame)))
      ∧ client_payloads
          (outputs (iteration sample_config st
                      (Wakeup false None (Some (Datagram sample_answer sample_server))
                              false false sample_frame)))
        = [(sample_answer, sample_client)]
      ∧ Forall (destination_ok sample_config
                  (client_sources
                     (take 1 sample_wakeups
                      ++ [Wakeup false None (Some (Datagram sample_answer sample_server))
                                 false false sample_frame])))
               (outputs (iteration sample_config st
                           (Wakeup false None (Some (Datagram sample_answer sample_server))
                                   false false sample_frame))).
Proof.
  assert (Hheap : length sample_heap = Z.to_nat BUFFER_SIZE) by reflexivity.
  assert (H : ∃ st out,
            run sample_config (initial_state sample_heap (SockAddr 0 0))
                (take 1 sample_wakeups) = Polling st out
            ∧ defined out
            ∧ defined (outputs (iteration sample_config st
                                  (Wakeup false None
                                          (Some (Datagram sample_answer sample_server))
                                          false false sample_frame)))
            ∧ client_payloads
                (outputs (iteration sample_config st
                            (Wakeup false None
                                    (Some (Datagram sample_answer sample_server))
                                    false false sample_frame)))
              = [(sample_answer, sample_client)]).
  { eexists _, _. split; [vm_compute; reflexivity|].
    split; [repeat (constructor; [exact I|]); constructor|].
    split; [vm_compute; repeat (constructor; [exact I|]); constructor|].
    vm_compute. reflexivity. }
  destruct H as (st & out & H & Hd & Hdw & Hcl).
  split; [exact Hheap|]. exists st, out.
  split; [exact H|]. split; [exact Hd|]. split; [exact Hdw|]. split; [exact Hcl|].
  exact (loop_destinations sample_config sample_heap (SockAddr 0 0) (take 1 sample_wakeups)
           st out _ Hheap H Hd Hdw).
Defined.

Lemma startup_failure_closes_sockets_witness :
  ∃ log,
    startup 7 sample_library (sample_system false) sample_options = Ok (Stopped 1 log)
    ∧ opened log = [clientSocketDescritor; serverSocketDescritor]
    ∧ closed log = reverse (opened log).
Proof.
  assert (H : ∃ log, startup 7 sample_library (sample_system false) sample_options
                     = Ok (Stopped 1 log)
                     ∧ opened log = [clientSocketDescritor; serverSocketDescritor]).
  { eexists. split; [vm_compute; reflexivity|]. vm_compute. reflexivity. }
  destruct H as (log & H & Ho). exists log. split; [exact H|]. split; [exact Ho|].
  exact (proj2 (startup_failure_closes_sockets 7 sample_library (sample_system false)
                  sample_options 1 log H)).
Defined.

Lemma main_in_the_loop_witness :
  ∃ log st out,
    main 7 sample_library (sample_system true) sample_options sample_wakeups
    = Ok (log, Polling st out)
    ∧ ∃ a printed,
        processArgs sample_library sample_options no_arguments
        = Ok (Returned 0, a, printed)
        ∧ server_name_given sample_library sample_options (serverName a)
        ∧ run (Config (loaded_blacklist a)
                      (SockAddr (htons 53)
                                (inet_addr (sample_system true) (serverName a))))
              (initial_state (malloc_buffer (sample_system true))
                             (stack_address (sample_system true))) sample_wakeups
          = Polling st out
        ∧ closed log = [].
Proof.
  assert (H : ∃ log st out,
            main 7 sample_library (sample_system true) sample_options sample_wakeups
            = Ok (log, Polling st out))
    by (eexists _, _, _; vm_compute; reflexivity).
  destruct H as (log & st & out & H).
  exists log, st, out. split; [exact H|].
  destruct (main_in_the_loop 7 sample_library (sample_system true) sample_options
              sample_wakeups log st out H)
    as (a & printed & Hargs & Hs & _ & _ & Hrun & _ & Hc & _).
  exists a, printed. split; [exact Hargs|]. split; [exact Hs|]. split; [exact Hrun|exact Hc].
Defined.

Lemma long_line_split_witness :
  (∀ c, enough_memory c = true)
  ∧ Forall (λ c, 32 <= c < 128) (replicate 511 97 ++ octets_of_string "#bc")
  ∧ (FILE_BUFFER_SIZE - 1 ≤ length (replicate 511 97%Z ++ octets_of_string "#bc")
     < 2 * (FILE_BUFFER_SIZE - 1))%nat
  ∧ getDnsFilter enough_memory
      (Some ((replicate 511 97 ++ octets_of_string "#bc") ++ [10]))
    = Ok (0, [replicate 511 97]).
Proof.
  assert (Hmem : ∀ c, enough_memory c = true) by reflexivity.
  assert (Hp : Forall (λ c, 32 <= c < 128) (replicate 511 97 ++ octets_of_string "#bc")).
  { apply Forall_app. split; [apply Forall_replicate; lia|].
    repeat constructor; vm_compute; congruence. }
  assert (Hlen : (FILE_BUFFER_SIZE - 1
                  ≤ length (replicate 511 97%Z ++ octets_of_string "#bc")
                  < 2 * (FILE_BUFFER_SIZE - 1))%nat)
    by (vm_compute; lia).
  split; [exact Hmem|]. split; [exact Hp|]. split; [exact Hlen|].
  exact (long_line_split enough_memory (replicate 511 97 ++ octets_of_string "#bc")
           Hmem Hp Hlen).
Defined.
